(** * Eligibility-criteria extraction: a shallow embedding and its properties

    The development follows the Python sources:
    - [dynamic_eligibility_checker.py] and [automation_api.py]
      (section locator, list analysis, API fetch with retries),
    - [batch_compare_ncts.py] and [extract_secondary_outcomes_direct_batch.py]
      (comparison of statement sets, pooled batch loops).

    Text is a sequence of code points; the model keeps the code points
    below 256 (Rocq's [string]).  A parsed document is a tree of tags and
    navigable strings, as BeautifulSoup presents it; an element is
    referred to by its position in the tree, so that two equal-looking
    subtrees at different places are different elements. *)

From stdpp Require Import gmap strings list pretty.
From Stdlib Require Import Ascii.

(* ===================================================================== *)
(** ** Python strings *)
(* ===================================================================== *)

Module PyStr.

(** [str.isspace] on one code point (below 256): TAB..CR, FS..US,
    SPACE, NEL and NBSP. *)
Definition isspace (a : ascii) : bool :=
  let n := nat_of_ascii a in
  ((9 <=? n) && (n <=? 13)) || ((28 <=? n) && (n <=? 32))
  || (n =? 133) || (n =? 160).

(** [str.lower] on one code point (below 256). *)
Definition lower_char (a : ascii) : ascii :=
  let n := nat_of_ascii a in
  if ((65 <=? n) && (n <=? 90))
     || ((192 <=? n) && (n <=? 222) && negb (n =? 215))
  then ascii_of_nat (n + 32) else a.

Fixpoint lower (s : string) : string :=
  match s with
  | "" => ""
  | String a s' => String (lower_char a) (lower s')
  end.

Fixpoint lstrip (s : string) : string :=
  match s with
  | "" => ""
  | String a s' => if isspace a then lstrip s' else s
  end.

Fixpoint rstrip (s : string) : string :=
  match s with
  | "" => ""
  | String a s' =>
      match rstrip s' with
      | "" => if isspace a then "" else String a ""
      | r => String a r
      end
  end.

(** [s.strip()] *)
Definition strip (s : string) : string := rstrip (lstrip s).

(** [sep.join(parts)] *)
Fixpoint join (sep : string) (parts : list string) : string :=
  match parts with
  | [] => ""
  | [p] => p
  | p :: rest => p +:+ sep +:+ join sep rest
  end.

(** Truth value of a [str]: non-empty. *)
Definition truthy (s : string) : bool :=
  match s with "" => false | _ => true end.

(** Every run of whitespace replaced by one space. *)
Fixpoint collapse (s : string) : string :=
  match s with
  | "" => ""
  | String a s' =>
      if isspace a
      then match s' with
           | "" => " "
           | String b _ => if isspace b then collapse s' else String " " (collapse s')
           end
      else String a (collapse s')
  end.

(** [s] has no whitespace at either end. *)
Definition stripped (s : string) : Prop := lstrip s = s ∧ rstrip s = s.

(** [s] is made of whitespace only. *)
Fixpoint all_space (s : string) : bool :=
  match s with
  | "" => true
  | String a s' => isspace a && all_space s'
  end.

End PyStr.

(* ===================================================================== *)
(** ** The regular expressions of the heading patterns *)
(* ===================================================================== *)

Module Re.

Inductive regex : Type :=
| Void                       (* matches nothing; only arises in derivatives *)
| Eps                        (* the empty string *)
| Lit (c : ascii)            (* a literal character *)
| Space                      (* \s *)
| Cat (r1 r2 : regex)
| Alt (r1 r2 : regex)
| Opt (r : regex)            (* r? *)
| Star (r : regex)           (* r* *)
| Plus (r : regex).          (* r+ *)

(** A literal word, character by character. *)
Fixpoint word (s : string) : regex :=
  match s with
  | "" => Eps
  | String a s' => Cat (Lit a) (word s')
  end.

Fixpoint seq (rs : list regex) : regex :=
  match rs with
  | [] => Eps
  | r :: rs' => Cat r (seq rs')
  end.

Fixpoint nullable (r : regex) : bool :=
  match r with
  | Void => false
  | Eps => true
  | Lit _ => false
  | Space => false
  | Cat r1 r2 => nullable r1 && nullable r2
  | Alt r1 r2 => nullable r1 || nullable r2
  | Opt _ => true
  | Star _ => true
  | Plus r => nullable r
  end.

Definition cat (r1 r2 : regex) : regex :=
  match r1 with
  | Void => Void
  | Eps => r2
  | _ => Cat r1 r2
  end.

Definition alt (r1 r2 : regex) : regex :=
  match r1, r2 with
  | Void, _ => r2
  | _, Void => r1
  | _, _ => Alt r1 r2
  end.

(** With [re.I] a literal matches the character in either case. *)
Definition lit_matches (ignorecase : bool) (c a : ascii) : bool :=
  if ignorecase
  then bool_decide (PyStr.lower_char c = PyStr.lower_char a)
  else bool_decide (c = a).

(** Brzozowski derivative of [r] by the character [a]. *)
Fixpoint deriv (ic : bool) (a : ascii) (r : regex) : regex :=
  match r with
  | Void => Void
  | Eps => Void
  | Lit c => if lit_matches ic c a then Eps else Void
  | Space => if PyStr.isspace a then Eps else Void
  | Cat r1 r2 =>
      alt (cat (deriv ic a r1) r2)
          (if nullable r1 then deriv ic a r2 else Void)
  | Alt r1 r2 => alt (deriv ic a r1) (deriv ic a r2)
  | Opt r1 => deriv ic a r1
  | Star r1 => cat (deriv ic a r1) (Star r1)
  | Plus r1 => cat (deriv ic a r1) (Star r1)
  end.

(** Does some prefix of [s] match [r]? *)
Fixpoint match_prefix (ic : bool) (r : regex) (s : string) : bool :=
  nullable r ||
  match s with
  | "" => false
  | String a s' => match_prefix ic (deriv ic a r) s'
  end.

(** Truth value of [re.search(r, s)]: a match starting anywhere. *)
Fixpoint search (ic : bool) (r : regex) (s : string) : bool :=
  match_prefix ic r s ||
  match s with
  | "" => false
  | String _ s' => search ic r s'
  end.

End Re.

(* ===================================================================== *)
(** ** Documents: the BeautifulSoup tree *)
(* ===================================================================== *)

Module Soup.

(** The class of a string of the tree.  [Text] stands for NavigableString
    itself and for CData, the two classes that [stripped_strings] of a tag
    yields.  [Special] stands for the other subclasses of NavigableString:
    Comment, Declaration, Doctype and ProcessingInstruction, and the
    classes that the parser gives to the text inside script, style and
    template tags (Script, Stylesheet, TemplateString).  Such a string is a
    [str] like any other, [.string] and a search by string see it, but
    [stripped_strings] of a tag leaves it out. *)
Inductive string_class : Type := Text | Special.

(** A node is a tag with a name, an attribute dictionary and ordered
    contents, or a string with its class. *)
#[local] Set Warnings "-register-all".
Inductive node : Type :=
| NavigableString (cls : string_class) (s : string)
| Tag (name : string) (attrs : gmap string string) (contents : list node).

(** A position in a document: the index within the parent first, then
    the parent's position; the root is at []. *)
Definition pos : Type := list nat.

(** An element: a node together with where it sits. *)
Definition elem : Type := (pos * node)%type.

Definition is_tag (n : node) : bool :=
  match n with Tag _ _ _ => true | NavigableString _ _ => false end.

Definition contents_of (n : node) : list node :=
  match n with Tag _ _ cs => cs | NavigableString _ _ => [] end.

(** [n.name in names]; a navigable string has no name. *)
Definition name_in (names : list string) (n : node) : bool :=
  match n with
  | Tag nm _ _ => bool_decide (nm ∈ names)
  | NavigableString _ _ => false
  end.

(** The list-type tags, ("ol", "ul"). *)
Definition is_list (n : node) : bool := name_in ["ol"; "ul"] n.

(** [n.descendants]: every node below [n], in document order. *)
Fixpoint descendants (p : pos) (n : node) : list elem :=
  match n with
  | NavigableString _ _ => []
  | Tag _ _ cs =>
      (fix go (i : nat) (cs : list node) : list elem :=
         match cs with
         | [] => []
         | c :: cs' => (i :: p, c) :: descendants (i :: p) c ++ go (S i) cs'
         end) 0 cs
  end.

(** The same walk over a list of children, starting at index [i]. *)
Fixpoint descendants_from (p : pos) (i : nat) (cs : list node) : list elem :=
  match cs with
  | [] => []
  | c :: cs' =>
      (i :: p, c) :: descendants (i :: p) c ++ descendants_from p (S i) cs'
  end.

(** [e.find_all(...)] with a test on nodes: the matching descendants,
    in document order. *)
Definition find_all (f : node → bool) (e : elem) : list elem :=
  List.filter (λ d, f d.2) (descendants e.1 e.2).

(** [e.find(...)]: the first match, or None. *)
Definition find (f : node → bool) (e : elem) : option elem :=
  head (find_all f e).

(** [e.find_all(name, recursive=False)]: matching direct children. *)
Definition find_all_children (f : node → bool) (e : elem) : list elem :=
  List.filter (λ d, f d.2) (imap (λ i c, (i :: e.1, c)) (contents_of e.2)).

(** The test of [find(name, {"id": v})]. *)
Definition tag_with_id (name v : string) (n : node) : bool :=
  match n with
  | Tag nm attrs _ =>
      bool_decide (nm = name) && bool_decide (attrs !! "id" = Some v)
  | NavigableString _ _ => false
  end.

(** The test of [find("div", {"id": v})]. *)
Definition div_with_id (v : string) (n : node) : bool := tag_with_id "div" v n.

(** [n.string]: the single string below a tag, if there is exactly one
    path of only children down to it. *)
Fixpoint string_of (n : node) : option string :=
  match n with
  | NavigableString _ s => Some s
  | Tag _ _ [c] => string_of c
  | Tag _ _ _ => None
  end.

(** The node at a position given from the root downwards. *)
Fixpoint get (n : node) (path : list nat) : option node :=
  match path with
  | [] => Some n
  | i :: path' =>
      match contents_of n !! i with
      | Some c => get c path'
      | None => None
      end
  end.

(** The node at position [p] of the document [doc]. *)
Definition resolve (doc : node) (p : pos) : option node := get doc (rev p).

(** [e.next_siblings]: the nodes after [e] under the same parent. *)
Definition next_siblings (doc : node) (e : elem) : list elem :=
  match e.1 with
  | [] => []
  | i :: q =>
      match resolve doc q with
      | Some parent =>
          drop (S i) (imap (λ j c, (j :: q, c)) (contents_of parent))
      | None => []
      end
  end.

(** [e.find_next_sibling()]: the next sibling that is a tag. *)
Definition find_next_sibling (doc : node) (e : elem) : option elem :=
  head (List.filter (λ d, is_tag d.2) (next_siblings doc e)).

(** [e.parent] *)
Definition parent (doc : node) (e : elem) : option elem :=
  match e.1 with
  | [] => None
  | _ :: q => (λ n, (q, n)) <$> resolve doc q
  end.

(** [e.parents]: the ancestors of [e], the nearest first. *)
Fixpoint ancestors (doc : node) (p : pos) : list elem :=
  match p with
  | [] => []
  | _ :: q =>
      match resolve doc q with
      | Some n => (q, n) :: ancestors doc q
      | None => ancestors doc q
      end
  end.

(** [e.find_parent(name)] *)
Definition find_parent (name : string) (doc : node) (e : elem) : option elem :=
  head (List.filter (λ d, name_in [name] d.2) (ancestors doc e.1)).

(** What one node contributes to [stripped_strings]: a string of class
    NavigableString or CData gives its text stripped, unless that is
    empty; a string of another class is skipped. *)
Definition stripped_token (n : node) : option string :=
  match n with
  | NavigableString Text s =>
      let s' := PyStr.strip s in
      if PyStr.truthy s' then Some s' else None
  | NavigableString Special _ => None
  | Tag _ _ _ => None
  end.

(** [e.stripped_strings] for a tag [e] that is no container of special
    strings (an "li" is none): the strings below [e] whose class is
    NavigableString or CData, each stripped, the empty ones left out. *)
Definition stripped_strings (n : node) : list string :=
  omap (λ d : elem, stripped_token d.2) (descendants [] n).

(** Induction over a tree, with the property known of all children. *)
Section NodeInduction.
Variable P : node → Prop.
Hypothesis Hstr : ∀ cls s, P (NavigableString cls s).
Hypothesis Htag : ∀ nm attrs cs, Forall P cs → P (Tag nm attrs cs).

Fixpoint node_ind' (n : node) : P n :=
  match n with
  | NavigableString cls s => Hstr cls s
  | Tag nm attrs cs =>
      Htag nm attrs cs
        ((fix go (cs : list node) : Forall P cs :=
            match cs with
            | [] => Forall_nil_2 P
            | c :: cs' => Forall_cons_2 P c cs' (node_ind' c) (go cs')
            end) cs)
  end.
End NodeInduction.

End Soup.

(* ===================================================================== *)
(** ** dynamic_eligibility_checker.py: the section locator *)
(* ===================================================================== *)

Module Checker.
Import Soup.

(** r"\[?\s*Inclusion\s+Criteria\s*\]?" *)
Definition incl_pattern : Re.regex :=
  Re.seq [Re.Opt (Re.Lit "["); Re.Star Re.Space; Re.word "Inclusion";
          Re.Plus Re.Space; Re.word "Criteria"; Re.Star Re.Space;
          Re.Opt (Re.Lit "]")].

(** r"\[?\s*Exclusion\s+Criteria\s*\]?" *)
Definition excl_pattern : Re.regex :=
  Re.seq [Re.Opt (Re.Lit "["); Re.Star Re.Space; Re.word "Exclusion";
          Re.Plus Re.Space; Re.word "Criteria"; Re.Star Re.Space;
          Re.Opt (Re.Lit "]")].

(** The test of [root.find(True, string=lambda t: isinstance(t, str) and
    re.search(pattern, t.strip(), re.I))]: a tag whose [.string] is a
    string in which the pattern is found. *)
Definition heading_test (pattern : Re.regex) (n : node) : bool :=
  is_tag n &&
  match string_of n with
  | Some t => Re.search true pattern (PyStr.strip t)
  | None => false
  end.

(** The [while sib] loop: walk the following sibling tags, one
    [find_next_sibling()] at a time, up to the first "ol" or "ul". *)
Fixpoint first_list (sibs : list elem) : option elem :=
  match sibs with
  | [] => None
  | sib :: rest => if is_list sib.2 then Some sib else first_list rest
  end.

Definition _find_list_after_heading
    (doc : node) (root : elem) (pattern : Re.regex) : option elem :=
  match find (heading_test pattern) root with
  | None => None
  | Some heading =>
      first_list (List.filter (λ d, is_tag d.2) (next_siblings doc heading))
  end.

(** [div.find(["ol", "ul"]) or div] for the div with the given id. *)
Definition _container_list (cs : elem) (id : string) : option elem :=
  match find (div_with_id id) cs with
  | Some div =>
      match find is_list div with
      | Some l => Some l
      | None => Some div
      end
  | None => None
  end.

(** The preferred container, or the whole section. *)
Definition search_root_of (criteria_section : node) : elem :=
  let cs : elem := ([], criteria_section) in
  match find (div_with_id "eligibility-criteria-description") cs with
  | Some desc_div => desc_div
  | None => cs
  end.

Definition find_inclusion_exclusion_lists (criteria_section : node)
  : option elem * option elem :=
  let cs : elem := ([], criteria_section) in
  let search_root := search_root_of criteria_section in
  let inclusion_list :=
    _find_list_after_heading criteria_section search_root incl_pattern in
  let exclusion_list :=
    _find_list_after_heading criteria_section search_root excl_pattern in
  (* Fallbacks: older structures *)
  let inclusion_list :=
    match inclusion_list with
    | None =>
        match _container_list cs "eligibility-criteria-inclusion" with
        | Some l => Some l
        | None => inclusion_list
        end
    | Some _ => inclusion_list
    end in
  let exclusion_list :=
    match exclusion_list with
    | None =>
        match _container_list cs "eligibility-criteria-exclusion" with
        | Some l => Some l
        | None => exclusion_list
        end
    | Some _ => exclusion_list
    end in
  (* Last resort: first two lists inside the search root *)
  if bool_decide (inclusion_list = None) || bool_decide (exclusion_list = None)
  then
    let lists := find_all is_list search_root in
    match lists with
    | [] => (inclusion_list, exclusion_list)
    | _ :: _ =>
        let inclusion_list :=
          if bool_decide (inclusion_list = None) && bool_decide (1 ≤ length lists)
          then lists !! 0 else inclusion_list in
        let exclusion_list :=
          if bool_decide (exclusion_list = None) && bool_decide (2 ≤ length lists)
          then lists !! 1 else exclusion_list in
        (inclusion_list, exclusion_list)
    end
  else (inclusion_list, exclusion_list).

(** The tiers of the locator, each on its own. *)
Definition incl_id : string := "eligibility-criteria-inclusion".
Definition excl_id : string := "eligibility-criteria-exclusion".

Definition heading_tier (doc : node) (pattern : Re.regex) : option elem :=
  _find_list_after_heading doc (search_root_of doc) pattern.

Definition container_tier (doc : node) (id : string) : option elem :=
  _container_list ([], doc) id.

Definition positional_tier (doc : node) (k : nat) : option elem :=
  find_all is_list (search_root_of doc) !! k.

(** The first tier, in the given order, that has a match. *)
Fixpoint first_match (tiers : list (option elem)) : option elem :=
  match tiers with
  | [] => None
  | Some e :: _ => Some e
  | None :: rest => first_match rest
  end.

End Checker.

(* ===================================================================== *)
(** ** automation_api.py: the locator on the API's markup *)
(* ===================================================================== *)

Module Api.
Import Soup.

(** r"Inclusion\s+Criteria" *)
Definition incl_pattern : Re.regex :=
  Re.seq [Re.word "Inclusion"; Re.Plus Re.Space; Re.word "Criteria"].

(** r"Exclusion\s+Criteria" *)
Definition excl_pattern : Re.regex :=
  Re.seq [Re.word "Exclusion"; Re.Plus Re.Space; Re.word "Criteria"].

(** The test of [root.find(string=lambda t: isinstance(t, str) and
    re.search(pattern, t.strip(), re.I))]: a string, of any class, in
    which the pattern is found. *)
Definition heading_test (pattern : Re.regex) (n : node) : bool :=
  match n with
  | NavigableString _ t => Re.search true pattern (PyStr.strip t)
  | Tag _ _ _ => false
  end.

Definition _find_list_after_heading
    (soup : node) (pattern : Re.regex) : option elem :=
  let root : elem := ([], soup) in
  match find (heading_test pattern) root with
  | None => None
  | Some heading =>
      match heading.2 with
      | NavigableString _ "" => None        (* if not heading *)
      | _ =>
          match parent soup heading with
          | None => None
          | Some par =>
              Checker.first_list
                (List.filter (λ d, is_tag d.2) (next_siblings soup par))
          end
      end
  end.

(** The parsed markup [soup] stands for [BeautifulSoup(html, "html.parser")]. *)
Definition find_inclusion_exclusion_lists_from_html (soup : node)
  : option elem * option elem :=
  let root : elem := ([], soup) in
  let incl_list := _find_list_after_heading soup incl_pattern in
  let excl_list := _find_list_after_heading soup excl_pattern in
  if bool_decide (incl_list = None) || bool_decide (excl_list = None)
  then
    let all_lists := find_all is_list root in
    match all_lists with
    | [] => (incl_list, excl_list)
    | _ :: _ =>
        let incl_list :=
          if bool_decide (incl_list = None) && bool_decide (1 ≤ length all_lists)
          then all_lists !! 0 else incl_list in
        let excl_list :=
          if bool_decide (excl_list = None) && bool_decide (2 ≤ length all_lists)
          then all_lists !! 1 else excl_list in
        (incl_list, excl_list)
    end
  else (incl_list, excl_list).

Definition heading_tier (soup : node) (pattern : Re.regex) : option elem :=
  _find_list_after_heading soup pattern.

Definition positional_tier (soup : node) (k : nat) : option elem :=
  find_all is_list ([], soup) !! k.

End Api.

(* ===================================================================== *)
(** ** analyze_list (the same function in both scripts) *)
(* ===================================================================== *)

Module Analysis.
Import Soup.

Record record : Type := mk_record {
  text : string;
  type : string;
  has_sub_bullet : bool;
}.

Record results : Type := mk_results {
  correct : list record;
  incorrect : list record;
  correct_count : nat;
  incorrect_count : nat;
}.

Definition empty_results : results :=
  {| correct := []; incorrect := []; correct_count := 0; incorrect_count := 0 |}.

(** " ".join(item.stripped_strings) *)
Definition item_text (item : node) : string :=
  PyStr.join " " (stripped_strings item).

(** The token that one child adds to [stripped_strings] of its parent,
    by the shape of the child. *)
Definition child_strings (c : node) : list string :=
  match c with
  | NavigableString Text s =>
      if PyStr.truthy (PyStr.strip s) then [PyStr.strip s] else []
  | NavigableString Special _ => []
  | Tag _ _ _ => stripped_strings c
  end.

(** The text of every string of class NavigableString or CData below [n],
    in document order. *)
Definition all_strings (n : node) : list string :=
  omap (λ d : elem,
          match d.2 with
          | NavigableString Text s => Some s
          | NavigableString Special _ => None
          | Tag _ _ _ => None
          end)
       (descendants [] n).

(** The statement text in the words of the specification: all descendant
    text tokens concatenated, consecutive whitespace collapsed, the ends
    trimmed. *)
Definition spec_text (item : node) : string :=
  PyStr.strip (PyStr.collapse (PyStr.join "" (all_strings item))).

(** The same tree with every text replaced through [f]. *)
Fixpoint map_text (f : string → string) (n : node) : node :=
  match n with
  | NavigableString cls s => NavigableString cls (f s)
  | Tag nm attrs cs => Tag nm attrs (map (map_text f) cs)
  end.

(** [item.find(["ol", "ul"]) is not None] *)
Definition has_sub (item : elem) : bool :=
  match find is_list item with Some _ => true | None => false end.

(** One turn of [for item in top_items]. *)
Definition analyze_item (criteria_type : string) (res : results) (item : elem)
  : results :=
  let text := item_text item.2 in
  if negb (PyStr.truthy text) then res          (* continue *)
  else
    let has_sub := has_sub item in
    let record :=
      {| text := text; type := criteria_type; has_sub_bullet := has_sub |} in
    if has_sub
    then {| correct := correct res;
            incorrect := incorrect res ++ [record];
            correct_count := correct_count res;
            incorrect_count := incorrect_count res + 1 |}
    else {| correct := correct res ++ [record];
            incorrect := incorrect res;
            correct_count := correct_count res + 1;
            incorrect_count := incorrect_count res |}.

(** An item that gives a statement: its text is not empty. *)
Definition is_statement (item : elem) : bool :=
  PyStr.truthy (item_text item.2).

Definition record_of (criteria_type : string) (item : elem)
  : record :=
  {| text := item_text item.2;
     type := criteria_type;
     has_sub_bullet := has_sub item |}.

(** The statements of a list of items, in the order of the items. *)
Definition statements_of (criteria_type : string) (items : list elem)
  : list record :=
  record_of criteria_type <$> List.filter is_statement items.

(** The list whose items are analysed: the root itself when it is an
    "ol" or "ul", else the first list below it. *)
Definition resolve_list (list_root : elem) : option elem :=
  if negb (is_list list_root.2) then find is_list list_root
  else Some list_root.

(** [list_root.find_all("li", recursive=False)] *)
Definition top_items (list_root : elem) : list elem :=
  find_all_children (name_in ["li"]) list_root.

Definition analyze_list (list_root : option elem) (criteria_type : string)
  : results :=
  match list_root with
  | None => empty_results
  | Some list_root =>
      match resolve_list list_root with
      | None => empty_results
      | Some list_root =>
          fold_left (analyze_item criteria_type) (top_items list_root)
                    empty_results
      end
  end.

End Analysis.

(* ===================================================================== *)
(** ** Python values, exceptions and results *)
(* ===================================================================== *)

Module Py.

(** An exception instance: its class and message.  Every class that the
    modelled operations raise derives from [Exception]; signals such as
    KeyboardInterrupt are not part of the model. *)
Inductive exn : Type :=
| RequestException (msg : string)     (* requests: connection, timeout, ... *)
| HTTPError (msg : string)            (* raise_for_status *)
| JSONDecodeError (msg : string)      (* resp.json() *)
| AttributeError (msg : string)       (* .get on a value that is no dict *)
| RuntimeError (msg : string)
| OtherException (cls msg : string).  (* any other subclass of Exception *)

(** [isinstance(e, Exception)] *)
Definition is_Exception (e : exn) : bool :=
  match e with
  | RequestException _ | HTTPError _ | JSONDecodeError _
  | AttributeError _ | RuntimeError _ | OtherException _ _ => true
  end.

(** str(e) *)
Definition exn_str (e : exn) : string :=
  match e with
  | RequestException m | HTTPError m | JSONDecodeError m
  | AttributeError m | RuntimeError m | OtherException _ m => m
  end.

(** The outcome of a call: a value, or a raised exception. *)
Inductive result (A : Type) : Type :=
| Ok (a : A)
| Raise (e : exn).
Arguments Ok {A} a.
Arguments Raise {A} e.

Definition bind {A B : Type} (m : result A) (k : A → result B) : result B :=
  match m with
  | Ok a => k a
  | Raise e => Raise e
  end.

(** A decoded JSON value; an object is kept as its list of items, looked
    up by key.  Numbers are kept as integers. *)
#[local] Set Warnings "-register-all".
Inductive json : Type :=
| JNull
| JBool (b : bool)
| JNum (z : Z)
| JStr (s : string)
| JArr (items : list json)
| JObj (items : list (string * json)).

(** Truth value: None, False, 0, "", [] and {} are false. *)
Definition truthy (v : json) : bool :=
  match v with
  | JNull => false
  | JBool b => b
  | JNum z => negb (Z.eqb z 0)
  | JStr s => PyStr.truthy s
  | JArr items => match items with [] => false | _ => true end
  | JObj items => match items with [] => false | _ => true end
  end.

Fixpoint lookup_item (k : string) (items : list (string * json)) : option json :=
  match items with
  | [] => None
  | (k', v) :: rest => if bool_decide (k' = k) then Some v else lookup_item k rest
  end.

(** [v.get(k, default)]: only a dict has [get]. *)
Definition get (v : json) (k : string) (default : json) : result json :=
  match v with
  | JObj items =>
      match lookup_item k items with
      | Some x => Ok x
      | None => Ok default
      end
  | _ => Raise (AttributeError "object has no attribute 'get'")
  end.

End Py.

(** [x ← m; k] runs [m] and, unless it raised, continues with [k]. *)
#[global] Instance result_bind : MBind Py.result := λ A B k m, Py.bind m k.

(* ===================================================================== *)
(** ** automation_api.py: fetch_eligibility_html *)
(* ===================================================================== *)

Module Fetch.
Import Py.

Definition MAX_RETRIES : nat := 3.

(** An HTTP response: whether [raise_for_status()] passes, and what
    [json()] gives. *)
Record response : Type := mk_response {
  status_ok : bool;
  body : result json;
}.

(** The remote end: what the k-th GET (from 0) for an identifier's URL
    does, a response or a raised exception. *)
Definition network : Type := string → nat → result response.

(** What the function does to the world: the GETs issued so far and the
    sleeps taken, in milliseconds. *)
Record world : Type := mk_world {
  requests : nat;
  slept : list nat;
}.

Definition raise_for_status (resp : response) : result unit :=
  if status_ok resp then Ok tt else Raise (HTTPError "bad status").

Section WithStr.
(** Python's [str()] on a JSON value that is not a string. *)
Variable repr : json → string.

Definition str (v : json) : string :=
  match v with JStr s => s | _ => repr v end.

(** The body of the [try] for one attempt, given what the GET did. *)
Definition attempt (got : result response) : result string :=
  resp ← got;
  _ ← raise_for_status resp;
  data ← body resp;
  study ← get data "study" (JObj []);
  proto ← get study "protocolSection" (JObj []);
  elig_mod ← get proto "eligibilityModule" JNull;
  elig_mod ← (match elig_mod with
               | JNull => get proto "elgibilityModule" JNull
               | _ => Ok elig_mod
               end);
  if negb (truthy elig_mod)
  then Raise (RuntimeError "eligibilityModule not found in response")
  else
    html ← get elig_mod "eligibilityCriteria" JNull;
    if negb (truthy html)
    then Raise (RuntimeError "eligibilityCriteria missing/empty")
    else Ok (str html).

(** time.sleep(0.8 * attempt), in milliseconds *)
Definition delay_ms (attempt : nat) : nat := 800 * attempt.

(** [for attempt in range(1, MAX_RETRIES + 1)], over the remaining
    attempt numbers. *)
Fixpoint retry_loop (net : network) (nct_id : string)
    (attempts : list nat) (last_exc : option exn) (w : world)
  : result (option string) * world :=
  match attempts with
  | [] => (Ok None, w)                     (* print the error; return None *)
  | a :: rest =>
      let got := net nct_id (requests w) in
      let w := {| requests := S (requests w); slept := slept w |} in
      match attempt got with
      | Ok html => (Ok (Some html), w)
      | Raise e =>
          if is_Exception e                (* except Exception as e *)
          then
            let w := {| requests := requests w;
                        slept := slept w ++ [delay_ms a] |} in
            retry_loop net nct_id rest (Some e) w
          else (Raise e, w)
      end
  end.

Definition fetch_eligibility_html (net : network) (nct_id : string) (w : world)
  : result (option string) * world :=
  retry_loop net nct_id (seq 1 MAX_RETRIES) None w.

End WithStr.

(** A payload with the given eligibility module at
    study.protocolSection.eligibilityModule. *)
Definition payload_of_module (m : json) : json :=
  JObj [("study", JObj [("protocolSection", JObj [("eligibilityModule", m)])])].

(** A remote end whose every GET raises. *)
Definition always_down : network :=
  λ _ _, Raise (RequestException "connection refused").

End Fetch.

(* ===================================================================== *)
(** ** dynamic_eligibility_checker.py: one identifier, and the batch loop *)
(* ===================================================================== *)

Module CheckerBatch.
Import Py Soup Analysis.

Record summary_row : Type := mk_summary_row {
  nctId : string;
  total_statements : nat;
  correct_statements : nat;
  incorrect_statements : nat;
}.

Record incorrect_row : Type := mk_incorrect_row {
  i_nctId : string;
  i_type : string;
  i_statement : string;
}.

(** re.compile("Eligibility Criteria", re.I) on a navigable string *)
Definition eligibility_heading (n : node) : bool :=
  match n with
  | NavigableString _ t => Re.search true (Re.word "Eligibility Criteria") t
  | Tag _ _ _ => false
  end.

(** The participation-criteria block of a page, by id or, failing that,
    the div around an "Eligibility Criteria" heading. *)
Definition criteria_section_of (soup : node) : option elem :=
  let root : elem := ([], soup) in
  match find (tag_with_id "div" "participation-criteria") root with
  | Some c => Some c
  | None =>
      match find (tag_with_id "section" "participation-criteria") root with
      | Some c => Some c
      | None =>
          match find eligibility_heading root with
          | Some heading =>
              match heading.2 with
              | NavigableString _ "" => None
              | _ => find_parent "div" soup heading
              end
          | None => None
          end
      end
  end.

Section WithBrowser.
(** The browser: loading the page of an identifier and parsing its
    source ([driver.get], the waits, [BeautifulSoup(driver.page_source)]),
    which gives the parsed page or raises. *)
Variable load_page : string → result node.

Definition fetch_and_analyze_nct (nct_id : string)
  : result (option (results * results)) :=
  let body : result (option (results * results)) :=
    soup ← load_page nct_id;
    match criteria_section_of soup with
    | None => Ok None
    | Some criteria_section =>
        let '(incl_list, excl_list) :=
          Checker.find_inclusion_exclusion_lists criteria_section.2 in
        let incl_results := analyze_list incl_list "Inclusion" in
        let excl_results := analyze_list excl_list "Exclusion" in
        Ok (Some (incl_results, excl_results))
    end in
  match body with
  | Ok v => Ok v
  | Raise e => if is_Exception e then Ok None else Raise e
  end.

Definition incorrect_rows_of (nct ty : string) (res : results)
  : list incorrect_row :=
  (λ rec, {| i_nctId := nct; i_type := ty; i_statement := text rec |})
    <$> incorrect res.

(** [for idx, nct in enumerate(nct_ids, 1)] with its two accumulators. *)
Fixpoint main_loop (nct_ids : list string)
    (all_rows : list summary_row) (incorrect_rows : list incorrect_row)
  : result (list summary_row * list incorrect_row) :=
  match nct_ids with
  | [] => Ok (all_rows, incorrect_rows)
  | nct :: rest =>
      res ← fetch_and_analyze_nct nct;
      match res with
      | None => main_loop rest all_rows incorrect_rows       (* continue *)
      | Some (inc_res, exc_res) =>
          let total_correct := correct_count inc_res + correct_count exc_res in
          let total_incorrect :=
            incorrect_count inc_res + incorrect_count exc_res in
          let total := total_correct + total_incorrect in
          let all_rows :=
            all_rows ++ [{| nctId := nct;
                            total_statements := total;
                            correct_statements := total_correct;
                            incorrect_statements := total_incorrect |}] in
          let incorrect_rows :=
            incorrect_rows ++ incorrect_rows_of nct "Inclusion" inc_res
                           ++ incorrect_rows_of nct "Exclusion" exc_res in
          main_loop rest all_rows incorrect_rows
      end
  end.

Definition main (nct_ids : list string)
  : result (list summary_row * list incorrect_row) :=
  main_loop nct_ids [] [].

(** The row that one identifier adds to the summary, if any. *)
Definition row_for (nct : string) : option summary_row :=
  match fetch_and_analyze_nct nct with
  | Ok (Some (inc_res, exc_res)) =>
      let total_correct := correct_count inc_res + correct_count exc_res in
      let total_incorrect := incorrect_count inc_res + incorrect_count exc_res in
      Some {| nctId := nct;
              total_statements := total_correct + total_incorrect;
              correct_statements := total_correct;
              incorrect_statements := total_incorrect |}
  | _ => None
  end.

(** The rows that one identifier adds to the incorrect statements. *)
Definition incorrect_for (nct : string) : list incorrect_row :=
  match fetch_and_analyze_nct nct with
  | Ok (Some (inc_res, exc_res)) =>
      incorrect_rows_of nct "Inclusion" inc_res
        ++ incorrect_rows_of nct "Exclusion" exc_res
  | _ => []
  end.

(** An identifier that gets a row: its page was loaded and analysed. *)
Definition succeeded (nct_id : string) : bool :=
  match fetch_and_analyze_nct nct_id with
  | Ok (Some _) => true
  | _ => false
  end.

End WithBrowser.

(** The sums of the final summary: total, incorrect and correct statements. *)
Definition totals (rows : list summary_row) : nat * nat * nat :=
  (sum_list (total_statements <$> rows),
   sum_list (incorrect_statements <$> rows),
   sum_list (correct_statements <$> rows)).

End CheckerBatch.

(* ===================================================================== *)
(** ** batch_compare_ncts.py *)
(* ===================================================================== *)

Module Compare.
Import Py.

(** A bullet record, on the site or in the JSON input. *)
Record bullet : Type := mk_bullet {
  nctId : string;
  statement : string;
  type : string;
}.

#[global] Instance bullet_eq_dec : EqDecision bullet.
Proof. solve_decision. Defined.

(** r["statement"].strip().lower() *)
Definition norm (r : bullet) : string :=
  PyStr.lower (PyStr.strip (statement r)).

(** {norm(r): r for r in recs}: a later record replaces an earlier one
    with the same key. *)
Definition by_norm (recs : list bullet) : gmap string bullet :=
  foldl (λ m r, <[norm r := r]> m) ∅ recs.

(** The iteration order of a Python set is not specified; [elements]
    fixes one. *)
Definition compare_sets (site_recs json_recs : list bullet)
  : nat * nat * list bullet * list bullet :=
  let site_set : gset string := list_to_set (norm <$> site_recs) in
  let json_set : gset string := list_to_set (norm <$> json_recs) in
  let missing_in_json := site_set ∖ json_set in
  let missing_on_site := json_set ∖ site_set in
  let site_map := by_norm site_recs in
  let json_map := by_norm json_recs in
  let missing_in_json_list :=
    omap (λ s, site_map !! s) (elements missing_in_json) in
  let missing_on_site_list :=
    omap (λ s, json_map !! s) (elements missing_on_site) in
  (length site_recs, length json_recs,
   missing_in_json_list, missing_on_site_list).

(** A row of the summary. *)
Record row : Type := mk_row {
  r_nctId : string;
  status : string;
  site_docs : nat;
  json_docs : nat;
  missing_in_json : nat;
  missing_on_site : nat;
  site_records : option (list bullet);
}.

Section WithExtractors.
(** The extractors of compare_single_nct: each returns or raises. *)
Variable fetch_via_api : string → result (option Soup.node).
Variable fetch_page : string → result (option Soup.node).
Variable find_section : Soup.node → result (option Soup.node).
Variable extract_all_content_from_section :
  Soup.node → string → result (list bullet).
(** Writing the detail files of one identifier. *)
Variable write_details :
  string → list bullet → list bullet → list bullet → result unit.

Variable json_data : list bullet.

Definition json_recs_of (nct_id : string) : list bullet :=
  List.filter (λ r, bool_decide (nctId r = nct_id)) json_data.

Definition process_single (nct_id : string)
    (save_details include_site_records : bool) : result row :=
  let json_recs := json_recs_of nct_id in
  soup ← fetch_via_api nct_id;
  soup ← (match soup with
           | None => fetch_page nct_id
           | Some _ => Ok soup
           end);
  match soup with
  | None =>
      Ok {| r_nctId := nct_id; status := "fetch_failed";
            site_docs := 0; json_docs := length json_recs;
            missing_in_json := 0; missing_on_site := 0;
            site_records := None |}
  | Some soup =>
      found ← find_section soup;
      let section := default soup found in
      site_recs ← extract_all_content_from_section section nct_id;
      let normalized_site_recs :=
        (λ rec, {| nctId := nctId rec;
                   statement := PyStr.strip (statement rec);
                   type := type rec |})
          <$> List.filter (λ rec, PyStr.truthy (statement rec)) site_recs in
      let '(site_count, json_count, missing_in_json_list, missing_on_site_list) :=
        compare_sets site_recs json_recs in
      _ ← (if save_details
           then write_details nct_id site_recs
                  missing_in_json_list missing_on_site_list
           else Ok tt);
      Ok {| r_nctId := nct_id; status := "ok";
            site_docs := site_count; json_docs := json_count;
            missing_in_json := length missing_in_json_list;
            missing_on_site := length missing_on_site_list;
            site_records :=
              if include_site_records then Some normalized_site_recs
              else None |}
  end.

Variable save_details : bool.

(** What [future.result()] gives for the task of one identifier. *)
Definition future_result (nct_id : string) : result row :=
  process_single nct_id save_details true.

Definition error_row (nct : string) (e : exn) : row :=
  {| r_nctId := nct; status := "error: " +:+ exn_str e;
     site_docs := 0; json_docs := length (json_recs_of nct);
     missing_in_json := 0; missing_on_site := 0;
     site_records := None |}.

(** One turn of [for future in as_completed(future_map)]. *)
Definition collect (acc : list row * list bullet) (nct : string)
  : list row * list bullet :=
  let '(results, combined_site_records) := acc in
  match future_result nct with
  | Ok res =>
      (results ++ [res],
       match site_records res with
       | Some recs => combined_site_records ++ recs
       | None => combined_site_records
       end)
  | Raise e => (results ++ [error_row nct e], combined_site_records)
  end.

(** The pool: one task per dispatched identifier, collected in the
    order in which the tasks complete. *)
Definition main (completed : list string) : list row * list bullet :=
  foldl collect ([], []) completed.

(** The row that the task of one identifier ends up with. *)
Definition row_of (nct : string) : row :=
  match future_result nct with
  | Ok res => res
  | Raise e => error_row nct e
  end.

(** The site records that the task of one identifier adds. *)
Definition site_records_of (nct : string) : list bullet :=
  default [] (site_records (row_of nct)).

(** The summary read as a mapping from identifier to row. *)
Definition entry_of (results : list row) (nct : string) : option row :=
  head (List.filter (λ r, bool_decide (r_nctId r = nct)) results).

End WithExtractors.

End Compare.

(* ===================================================================== *)
(** ** extract_secondary_outcomes_direct_batch.py *)
(* ===================================================================== *)

Module Secondary.
Import Py.

Section WithFetcher.
Variable outcome : Type.
(** fetch_secondary_outcomes_direct, of extract_secondary_outcomes_direct. *)
Variable fetch_secondary_outcomes_direct : string → result (list outcome).

Definition process_nct_id (nct_id : string) : result (list outcome) :=
  outcomes ← fetch_secondary_outcomes_direct nct_id;
  Ok outcomes.

Record state : Type := mk_state {
  all_outcomes : list outcome;
  failed_nct_ids : list string;
  processed_count : nat;
}.

(** One turn of [for future in as_completed(future_to_nct)]. *)
Definition collect (st : state) (nct_id : string) : state :=
  let st :=
    match process_nct_id nct_id with
    | Ok outcomes =>
        match outcomes with
        | _ :: _ =>
            {| all_outcomes := all_outcomes st ++ outcomes;
               failed_nct_ids := failed_nct_ids st;
               processed_count := processed_count st |}
        | [] =>
            {| all_outcomes := all_outcomes st;
               failed_nct_ids := failed_nct_ids st ++ [nct_id];
               processed_count := processed_count st |}
        end
    | Raise e =>
        {| all_outcomes := all_outcomes st;
           failed_nct_ids := failed_nct_ids st ++ [nct_id];
           processed_count := processed_count st |}
    end in
  {| all_outcomes := all_outcomes st;
     failed_nct_ids := failed_nct_ids st;
     processed_count := processed_count st + 1 |}.

Definition main (completed : list string) : state :=
  foldl collect {| all_outcomes := []; failed_nct_ids := [];
                   processed_count := 0 |} completed.

(** The outcomes that the task of one identifier adds. *)
Definition outcomes_of (nct_id : string) : list outcome :=
  match process_nct_id nct_id with
  | Ok outcomes => outcomes
  | Raise _ => []
  end.

(** An identifier that ends up among the failed ones. *)
Definition is_failed (nct_id : string) : bool :=
  match process_nct_id nct_id with
  | Ok (_ :: _) => false
  | _ => true
  end.

(** The figures of the final summary. *)
Definition totals (st : state) : nat * nat * nat :=
  (processed_count st, length (all_outcomes st), length (failed_nct_ids st)).

End WithFetcher.

End Secondary.

(* ===================================================================== *)
(** ** Sample documents *)
(* ===================================================================== *)

Module Samples.
Import Soup.

Definition el (name : string) (contents : list node) : node :=
  Tag name ∅ contents.
Definition el_id (name id : string) (contents : list node) : node :=
  Tag name {[ "id" := id ]} contents.
Definition txt : string → node := NavigableString Text.

(** <div><div id="eligibility-criteria-inclusion"><ul><li>k</li></ul></div>
      <p>Inclusion Criteria:</p><ol><li>a</li></ol></div> *)
Definition heading_and_container : node :=
  el "div" [ el_id "div" "eligibility-criteria-inclusion"
               [ el "ul" [ el "li" [txt "k"] ] ];
             el "p" [txt "Inclusion Criteria:"];
             el "ol" [ el "li" [txt "a"] ] ].

(** <div><div id="eligibility-criteria-inclusion"><ul><li>k</li></ul></div></div> *)
Definition container_only : node :=
  el "div" [ el_id "div" "eligibility-criteria-inclusion"
               [ el "ul" [ el "li" [txt "k"] ] ] ].

(** <div><p>Exclusion Criteria:</p><ol><li>a</li></ol></div> *)
Definition exclusion_heading_only : node :=
  el "div" [ el "p" [txt "Exclusion Criteria:"];
             el "ol" [ el "li" [txt "a"] ] ].

(** <div><p>Key points</p><ol><li>a</li></ol><ul><li>b</li></ul></div> *)
Definition two_lists_no_heading : node :=
  el "div" [ el "p" [txt "Key points"];
             el "ol" [ el "li" [txt "a"] ];
             el "ul" [ el "li" [txt "b"] ] ].

(** <div><p>Key points</p><ol><li>a</li></ol></div> *)
Definition one_list_no_heading : node :=
  el "div" [ el "p" [txt "Key points"];
             el "ol" [ el "li" [txt "a"] ] ].

(** <div><div id="eligibility-criteria-description"><p>Key points</p></div>
      <ol><li>a</li></ol></div>: the only list is outside the description
    block. *)
Definition one_list_outside_description : node :=
  el "div" [ el_id "div" "eligibility-criteria-description"
               [ el "p" [txt "Key points"] ];
             el "ol" [ el "li" [txt "a"] ] ].

(** <li>a  b</li>, with two spaces inside the text *)
Definition item_two_spaces : node := el "li" [txt "a  b"].

(** <li> first <b>second</b><ul><li>third </li></ul></li> *)
Definition item_nested : node :=
  el "li" [ txt " first "; el "b" [txt "second"];
            el "ul" [ el "li" [txt "third "] ] ].

(** <li>foo<b>bar</b></li> *)
Definition item_adjacent_tokens : node :=
  el "li" [ txt "foo"; el "b" [txt "bar"] ].

(** <ol><li> a  b <!--note--><style>p{}</style><b> c</b></li></ol>: the
    comment and the text of the style tag are special strings. *)
Definition list_with_special_strings : node :=
  el "ol" [ el "li" [ txt " a  b "; NavigableString Special "note";
                      el "style" [NavigableString Special "p{}"];
                      el "b" [txt " c"] ] ].

(** <ol><li>a</li><li> </li><li>x<div><ul><li>q</li></ul></div></li>
    </ol>, the last item with its list two levels down *)
Definition nested_list : node :=
  el "ol" [ el "li" [txt "a"];
            el "li" [txt " "];
            el "li" [ txt "x"; el "div" [ el "ul" [ el "li" [txt "q"] ] ] ];
            txt " " ].

(** Site bullets and JSON bullets of one study. *)
Definition site_bullets : list Compare.bullet :=
  [ {| Compare.nctId := "NCT00000001"; Compare.statement := "  Age > 18 ";
       Compare.type := "Inclusion" |};
    {| Compare.nctId := "NCT00000001"; Compare.statement := "Consent";
       Compare.type := "Inclusion" |} ].
Definition json_bullets : list Compare.bullet :=
  [ {| Compare.nctId := "NCT00000001"; Compare.statement := "age > 18";
       Compare.type := "Inclusion" |};
    {| Compare.nctId := "NCT00000001"; Compare.statement := "No prior therapy";
       Compare.type := "Exclusion" |} ].

(** A page without any criteria block. *)
Definition page_without_criteria : node := el "html" [ el "body" [] ].

(** A browser that fails on every page. *)
Definition browser_down : string → Py.result node :=
  λ _, Py.Raise (Py.OtherException "WebDriverException" "net::ERR_FAILED").

(** Extractors of a site that has no page for any identifier. *)
Definition no_page : string → Py.result (option node) := λ _, Py.Ok None.
Definition no_section : node → Py.result (option node) := λ _, Py.Ok None.
Definition no_content : node → string → Py.result (list Compare.bullet) :=
  λ _ _, Py.Ok [].
Definition no_write
  : string → list Compare.bullet → list Compare.bullet → list Compare.bullet
    → Py.result unit :=
  λ _ _ _ _, Py.Ok tt.

End Samples.

(* ===================================================================== *)
(** ** More sample data *)
(* ===================================================================== *)

Module MoreSamples.
Import Soup Samples.

(** A study page with a participation-criteria block: two inclusion items,
    the second with a nested list, and one exclusion item. *)
Definition study_page : node :=
  el "html"
    [ el "body"
        [ el_id "div" "participation-criteria"
            [ el "p" [txt "Inclusion Criteria:"];
              el "ol" [ el "li" [txt "Adults"];
                        el "li" [ txt "One of:";
                                  el "ul" [ el "li" [txt "A"];
                                            el "li" [txt "B"] ] ] ];
              el "p" [txt "Exclusion Criteria:"];
              el "ol" [ el "li" [txt "Pregnancy"] ] ] ] ].

(** A remote end that fails once and then serves the given markup. *)
Definition flaky_then (markup : string) : Fetch.network :=
  λ _ k,
    match k with
    | 0 => Py.Raise (Py.RequestException "timeout")
    | _ => Py.Ok {| Fetch.status_ok := true;
                    Fetch.body :=
                      Py.Ok (Fetch.payload_of_module
                               (Py.JObj [("eligibilityCriteria",
                                          Py.JStr markup)])) |}
    end.

End MoreSamples.

(* ===================================================================== *)
(** ** More string methods *)
(* ===================================================================== *)

Module PyText.

(** [c in s] for one character *)
Fixpoint mem_char (c : ascii) (s : string) : bool :=
  match s with
  | "" => false
  | String a s' => bool_decide (a = c) || mem_char c s'
  end.

(** [sub in s] *)
Fixpoint contains (sub s : string) : bool :=
  String.prefix sub s ||
  match s with
  | "" => false
  | String _ s' => contains sub s'
  end.

(** [s.split(sep)] for a non-empty [sep]: the pieces between the
    occurrences of [sep], found from the left; [skip] counts the characters
    of an occurrence still to pass, [cur] is the piece being read. *)
Fixpoint split_go (sep : string) (skip : nat) (cur s : string) : list string :=
  match s with
  | "" => [cur]
  | String a s' =>
      match skip with
      | S k => split_go sep k cur s'
      | O =>
          if String.prefix sep s
          then cur :: split_go sep (String.length sep - 1) "" s'
          else split_go sep 0 (cur +:+ String a "") s'
      end
  end.

Definition split (sep s : string) : list string := split_go sep 0 "" s.

(** [s.split()]: the maximal runs of characters that are not whitespace. *)
Fixpoint split_ws_go (cur s : string) : list string :=
  match s with
  | "" => if PyStr.truthy cur then [cur] else []
  | String a s' =>
      if PyStr.isspace a
      then if PyStr.truthy cur then cur :: split_ws_go "" s'
           else split_ws_go "" s'
      else split_ws_go (cur +:+ String a "") s'
  end.

Definition split_ws (s : string) : list string := split_ws_go "" s.

(** [s.lstrip(chars)], [s.rstrip(chars)] and [s.strip(chars)] *)
Fixpoint lstrip_chars (chars s : string) : string :=
  match s with
  | "" => ""
  | String a s' => if mem_char a chars then lstrip_chars chars s' else s
  end.

Fixpoint rstrip_chars (chars s : string) : string :=
  match s with
  | "" => ""
  | String a s' =>
      match rstrip_chars chars s' with
      | "" => if mem_char a chars then "" else String a ""
      | r => String a r
      end
  end.

Definition strip_chars (chars s : string) : string :=
  rstrip_chars chars (lstrip_chars chars s).

(** [s.replace(old, new)] for a non-empty [old]: every occurrence of [old],
    found from the left, replaced by [new]. *)
Fixpoint replace_go (old new : string) (skip : nat) (s : string) : string :=
  match s with
  | "" => ""
  | String a s' =>
      match skip with
      | S k => replace_go old new k s'
      | O =>
          if String.prefix old s
          then new +:+ replace_go old new (String.length old - 1) s'
          else String a (replace_go old new 0 s')
      end
  end.

Definition replace (old new s : string) : string := replace_go old new 0 s.

(** [re.sub(r"[...]+", " ", s)] for a class [p] of characters: every
    maximal run of characters of the class replaced by one space. *)
Fixpoint sub_runs (p : ascii → bool) (s : string) : string :=
  match s with
  | "" => ""
  | String a s' =>
      if p a
      then match s' with
           | "" => " "
           | String b _ => if p b then sub_runs p s' else String " " (sub_runs p s')
           end
      else String a (sub_runs p s')
  end.

(** The number of maximal runs of characters that are no separators: the
    words of a text, read in one pass.  [inword] tells whether the
    character before was part of a word. *)
Fixpoint runs (sep : ascii → bool) (inword : bool) (s : string) : nat :=
  match s with
  | "" => 0
  | String a s' =>
      if sep a then runs sep false s'
      else (if inword then 0 else 1) + runs sep true s'
  end.

End PyText.

(* ===================================================================== *)
(** ** Reading the identifiers *)
(* ===================================================================== *)

Module Ids.
Import Py.

(** [s.startswith(p)] *)
Definition startswith (p s : string) : bool := String.prefix p s.

(** The elements of a list without repetition, each at its first
    occurrence: the loop over [ids] with its [seen] set of
    extract_nct_ids_from_ctg_file, and pandas' [unique()]. *)
Fixpoint unique_from (seen : gset string) (ids : list string) : list string :=
  match ids with
  | [] => []
  | nid :: rest =>
      if decide (nid ∈ seen) then unique_from seen rest
      else nid :: unique_from ({[nid]} ∪ seen) rest
  end.

Definition unique (ids : list string) : list string := unique_from ∅ ids.

(** extract_nct_ids_from_ctg_file, given the values that [re.findall]
    finds for the nctId keys in the text of the file. *)
Definition extract_nct_ids_from_ctg_file (ids : list string) : list string :=
  unique ids.

(** A cell of a CSV column: its text, or a missing value. *)
Definition cell : Type := option string.

(** A data frame as read by [pd.read_csv]: the columns in order, each with
    its name and cells.  Column names are distinct. *)
Definition frame : Type := list (string * list cell).

Definition columns (df : frame) : list string := df.*1.

(** df[col] *)
Fixpoint column (df : frame) (col : string) : option (list cell) :=
  match df with
  | [] => None
  | (name, cells) :: rest =>
      if decide (name = col) then Some cells else column rest col
  end.

(** series.dropna().unique().tolist() *)
Definition dropna_unique (cells : list cell) : list string :=
  unique (omap id cells).

(** The column that read_nct_ids_from_csv reads: nctId, else NCT_ID, else
    nct_id, else the first column, [df.columns[0]]. *)
Definition choose_column (df : frame) : result string :=
  if decide ("nctId" ∈ columns df) then Ok "nctId"
  else if decide ("NCT_ID" ∈ columns df) then Ok "NCT_ID"
  else if decide ("nct_id" ∈ columns df) then Ok "nct_id"
  else match columns df with
       | c :: _ => Ok c
       | [] => Raise (OtherException "IndexError" "index 0 is out of bounds")
       end.

(** read_nct_ids_from_csv of dynamic_eligibility_checker.py and
    automation_api.py, on the frame read from the file. *)
Definition read_nct_ids_from_csv (df : frame) : result (list string) :=
  col ← choose_column df;
  match column df col with
  | None => Raise (OtherException "KeyError" col)
  | Some cells =>
      let ncts := PyStr.strip <$> dropna_unique cells in
      Ok (List.filter (startswith "NCT") ncts)
  end.

(** df.rename(columns={col: "nctId"}) *)
Definition rename (df : frame) (col : string) : frame :=
  (λ c : string * list cell, if decide (c.1 = col) then ("nctId", c.2) else c)
    <$> df.

(** The first of the variants that is a column of the frame. *)
Fixpoint first_variant (df : frame) (variants : list string) : option string :=
  match variants with
  | [] => None
  | col :: rest =>
      if decide (col ∈ columns df) then Some col else first_variant df rest
  end.

(** series.astype(str): a missing value becomes "nan". *)
Definition astype_str (c : cell) : string := default "nan" c.

(** load_nct_ids_from_csv of batch_compare_ncts.py, on the frame read from
    the file. *)
Definition load_nct_ids_from_csv (df : frame) : result (list string) :=
  let df :=
    if decide ("nctId" ∈ columns df) then df
    else match first_variant df ["nct_id"; "NCT_ID"; "NCTId"; "NctId"] with
         | Some col => rename df col
         | None => df
         end in
  if decide ("nctId" ∈ columns df)
  then
    match column df "nctId" with
    | None => Raise (OtherException "KeyError" "nctId")
    | Some cells =>
        Ok (unique (List.filter (startswith "NCT")
                      (PyStr.strip <$> (astype_str <$> cells))))
    end
  else Raise (OtherException "ValueError" "CSV must contain an nctId column").

End Ids.

(* ===================================================================== *)
(** ** Anchored matching, and what a pattern matches *)
(* ===================================================================== *)

Module ReMore.
Import Re.

(** The derivative by a whole string. *)
Fixpoint derivs (ic : bool) (r : regex) (s : string) : regex :=
  match s with
  | "" => r
  | String a s' => derivs ic (deriv ic a r) s'
  end.

(** Does the whole of [s] match [r]? *)
Definition fullmatch (ic : bool) (r : regex) (s : string) : bool :=
  nullable (derivs ic r s).

(** The code points below 256. *)
Definition all_chars : list ascii := ascii_of_nat <$> List.seq 0 256.

(** One character out of those that pass the test. *)
Definition chars (f : ascii → bool) : regex :=
  foldr (λ a r, Alt (Lit a) r) Void (List.filter f all_chars).

(** [^c] *)
Definition not_char (c : ascii) : regex := chars (λ a, negb (bool_decide (a = c))).

(** . (any character but a newline) *)
Definition dot : regex := not_char "010".

(** $ at the end of a pattern: the end of the string, or a newline that
    is its last character. *)
Definition eos : regex := Opt (Lit "010").

(** Truth value of [re.match(r'^ r $', s)]. *)
Definition match_anchored (r : regex) (s : string) : bool :=
  fullmatch false (Cat r eos) s.

(** The strings that a pattern matches. *)
Inductive lang (ic : bool) : regex → string → Prop :=
| lang_Eps : lang ic Eps ""
| lang_Lit c a : lit_matches ic c a = true → lang ic (Lit c) (String a "")
| lang_Space a : PyStr.isspace a = true → lang ic Space (String a "")
| lang_Cat r1 r2 s1 s2 :
    lang ic r1 s1 → lang ic r2 s2 → lang ic (Cat r1 r2) (s1 +:+ s2)
| lang_Alt_l r1 r2 s : lang ic r1 s → lang ic (Alt r1 r2) s
| lang_Alt_r r1 r2 s : lang ic r2 s → lang ic (Alt r1 r2) s
| lang_Opt_none r : lang ic (Opt r) ""
| lang_Opt_some r s : lang ic r s → lang ic (Opt r) s
| lang_Star_nil r : lang ic (Star r) ""
| lang_Star_cons r s1 s2 :
    lang ic r s1 → lang ic (Star r) s2 → lang ic (Star r) (s1 +:+ s2)
| lang_Plus r s1 s2 :
    lang ic r s1 → lang ic (Star r) s2 → lang ic (Plus r) (s1 +:+ s2).

(** [w] occurs in [s]. *)
Definition occurs_in (w s : string) : Prop :=
  ∃ pre post, s = pre +:+ w +:+ post.

End ReMore.

(* ===================================================================== *)
(** ** remove_header_statements.py and json_to_statement_docs_pipeline.py *)
(* ===================================================================== *)

Module Pipeline.
Import Py Re ReMore.

(** [c.isupper()] and [c.islower()] on one code point (below 256). *)
Definition is_upper_char (a : ascii) : bool :=
  let n := nat_of_ascii a in
  ((65 <=? n) && (n <=? 90)) || ((192 <=? n) && (n <=? 214))
  || ((216 <=? n) && (n <=? 222)).

Definition is_lower_char (a : ascii) : bool :=
  let n := nat_of_ascii a in
  ((97 <=? n) && (n <=? 122)) || (n =? 170) || (n =? 181) || (n =? 186)
  || ((223 <=? n) && (n <=? 246)) || ((248 <=? n) && (n <=? 255)).

Fixpoint any_char (f : ascii → bool) (s : string) : bool :=
  match s with
  | "" => false
  | String a s' => f a || any_char f s'
  end.

(** [s.isupper()]: some cased character, and none of them lowercase. *)
Definition isupper (s : string) : bool :=
  any_char is_upper_char s && negb (any_char is_lower_char s).

(** \s+ , \s* , :? and (inclusion|exclusion) *)
Definition sp : regex := Plus Space.
Definition sps : regex := Star Space.
Definition colon : regex := Opt (Lit ":").
Definition incl_excl : regex := Alt (word "inclusion") (word "exclusion").

(** key\s+(inclusion|exclusion)\s+criteria\s*:?\s* *)
Definition pattern1 : regex :=
  seq [word "key"; sp; incl_excl; sp; word "criteria"; sps; colon; sps].

(** main\s+(inclusion|exclusion)\s+criteria\s*:?\s* *)
Definition pattern1b : regex :=
  seq [word "main"; sp; incl_excl; sp; word "criteria"; sps; colon; sps].

(** key\s+(inclusion|exclusion)\s+criteria\s*\([^)]+\)\s*:?\s* *)
Definition pattern2 : regex :=
  seq [word "key"; sp; incl_excl; sp; word "criteria"; sps;
       Lit "("; Plus (not_char ")"); Lit ")"; sps; colon; sps].

(** (inclusion|exclusion)\s+criteria\s*:?\s* *)
Definition pattern3 : regex :=
  seq [incl_excl; sp; word "criteria"; sps; colon; sps].

(** \[(inclusion|exclusion)\s+criteria\]\s*:?\s* *)
Definition pattern4 : regex :=
  seq [Lit "["; incl_excl; sp; word "criteria"; Lit "]"; sps; colon; sps].

(** (INCLUSION|EXCLUSION)\s+CRITERIA\s*:?\s* *)
Definition pattern5 : regex :=
  seq [Alt (word "INCLUSION") (word "EXCLUSION"); sp; word "CRITERIA";
       sps; colon; sps].

(** additional\s+(inclusion|exclusion)\s+criteria\s+for\s+.*\s*:?\s* *)
Definition pattern6 : regex :=
  seq [word "additional"; sp; incl_excl; sp; word "criteria"; sp;
       word "for"; sp; Star dot; sps; colon; sps].

(** index\s+case\s+investigation\s+(inclusion|exclusion)\s+criteria\s*:?\s* *)
Definition pattern7 : regex :=
  seq [word "index"; sp; word "case"; sp; word "investigation"; sp;
       incl_excl; sp; word "criteria"; sps; colon; sps].

(** is_unwanted_statement, the same in both scripts. *)
Definition is_unwanted_statement (statement : json) : bool :=
  match statement with
  | JStr s =>
      if negb (PyStr.truthy s) then false
      else
        let normalized := PyStr.strip s in
        if negb (PyStr.truthy normalized) then false
        else
          let lower := PyStr.lower normalized in
          if match_anchored pattern1 lower then true
          else if match_anchored pattern1b lower then true
          else if match_anchored pattern2 lower then true
          else if match_anchored pattern3 lower then true
          else if match_anchored pattern4 lower then true
          else if isupper normalized && match_anchored pattern5 normalized
               then true
          else if match_anchored pattern6 lower then true
          else if match_anchored pattern7 lower then true
          else false
  | _ => false
  end.

(** A record of the input JSON: the items of a dict. *)
Definition record : Type := list (string * json).

(** rec.get(k) and rec.get(k, default) *)
Definition rec_get (rec : record) (k : string) (default : json) : json :=
  match lookup_item k rec with
  | Some v => v
  | None => default
  end.

(** One turn of [for record in data] of remove_unwanted_statements. *)
Definition sort_record (acc : list record * list record) (rec : record)
  : list record * list record :=
  let '(cleaned, removed) := acc in
  let statement := rec_get rec "statement" (JStr "") in
  if is_unwanted_statement statement
  then (cleaned, removed ++ [rec])
  else (cleaned ++ [rec], removed).

(** remove_unwanted_statements: (cleaned, removed) *)
Definition remove_unwanted_statements (data : list record)
  : list record * list record :=
  foldl sort_record ([], []) data.

(** a or b *)
Definition py_or (a b : json) : json := if truthy a then a else b.

Section WithStr.
(** Python's [str()] on a JSON value that is not a string. *)
Variable repr : json → string.

(** The characters of [;.,] *)
Definition is_punct (a : ascii) : bool :=
  bool_decide (a = ";"%char) || bool_decide (a = "."%char)
  || bool_decide (a = ","%char).

(** The separators of words: whitespace and the characters of [;.,]. *)
Definition is_sep (a : ascii) : bool := PyStr.isspace a || is_punct a.

(** The three [replace] calls of count_words: a backslash before <, > or ~
    is dropped. *)
Definition unescape (statement : string) : string :=
  PyText.replace "\~" "~"
    (PyText.replace "\>" ">" (PyText.replace "\<" "<" statement)).

(** count_words *)
Definition count_words (statement : json) : nat :=
  let statement := Fetch.str repr statement in
  let statement := unescape statement in
  let cleaned := PyText.sub_runs is_punct statement in
  let cleaned := PyStr.collapse cleaned in
  let words :=
    PyStr.strip <$>
      List.filter (λ w, PyStr.truthy (PyStr.strip w)) (PyText.split_ws cleaned) in
  length words.

(** str(rec.get("nctId") or rec.get("nct_id") or rec.get("NCT_ID") or "").strip() *)
Definition nct_of (rec : record) : string :=
  PyStr.strip
    (Fetch.str repr
       (py_or (py_or (py_or (rec_get rec "nctId" JNull)
                            (rec_get rec "nct_id" JNull))
                     (rec_get rec "NCT_ID" JNull))
              (JStr ""))).

(** The first loop of filter_by_nct_limit: the identifiers allowed, with
    the [break] when there are [limit_ncts] of them. *)
Fixpoint collect_allowed (limit_ncts : Z) (seen allowed : gset string)
    (records : list record) : gset string :=
  match records with
  | [] => allowed
  | rec :: rest =>
      let nct := nct_of rec in
      if negb (PyStr.truthy nct) || negb (Ids.startswith "NCT" nct)
      then collect_allowed limit_ncts seen allowed rest       (* continue *)
      else if decide (nct ∈ seen)
      then collect_allowed limit_ncts seen allowed rest
      else
        let seen := {[nct]} ∪ seen in
        let allowed := {[nct]} ∪ allowed in
        if decide (limit_ncts ≤ Z.of_nat (size allowed))%Z
        then allowed                                          (* break *)
        else collect_allowed limit_ncts seen allowed rest
  end.

(** filter_by_nct_limit; [limit_ncts] is an int or None. *)
Definition filter_by_nct_limit (records : list record) (limit_ncts : option Z)
  : list record :=
  match limit_ncts with
  | None => records
  | Some limit =>
      if decide (limit = 0%Z) then records
      else
        let allowed_ncts := collect_allowed limit ∅ ∅ records in
        if decide (allowed_ncts = ∅) then []
        else List.filter (λ rec, bool_decide (nct_of rec ∈ allowed_ncts)) records
  end.

End WithStr.

(** per_nct.setdefault(nct, []).append(rec), on a dict kept as its items
    in insertion order. *)
Fixpoint setdefault_append (per_nct : list (string * list record))
    (nct : string) (rec : record) : list (string * list record) :=
  match per_nct with
  | [] => [(nct, [rec])]
  | (k, recs) :: rest =>
      if decide (k = nct) then (k, recs ++ [rec]) :: rest
      else (k, recs) :: setdefault_append rest nct rec
  end.

(** f"{i:03d}" for a natural number *)
Fixpoint zeros (n : nat) : string :=
  match n with
  | O => ""
  | S k => String "0" (zeros k)
  end.

Definition pad3 (i : nat) : string :=
  let digits := pretty i in
  zeros (3 - String.length digits) +:+ digits.

(** The line feed *)
Definition LF : string := String "010" "".

Section Docs.
Variable repr : json → string.
(** [os.path.join] *)
Variable path_join : string → string → string.

(** One turn of the grouping loop of write_statement_docs. *)
Definition group_record (per_nct : list (string * list record)) (rec : record)
  : list (string * list record) :=
  let nct := nct_of repr rec in
  if negb (PyStr.truthy nct) then per_nct                    (* continue *)
  else setdefault_append per_nct nct rec.

Definition group_by_nct (records : list record) : list (string * list record) :=
  foldl group_record [] records.

(** The lines of the file of one record. *)
Definition doc_lines (include_metadata : bool) (nct : string) (rec : record)
  : list string :=
  let statement := Fetch.str repr (rec_get rec "statement" (JStr "")) in
  (if include_metadata
   then ["NCT_ID: " +:+ nct]
        ++ match lookup_item "type" rec with
           | Some v => ["TYPE: " +:+ Fetch.str repr v]
           | None => []
           end
        ++ match lookup_item "word_count" rec with
           | Some v => ["WORD_COUNT: " +:+ Fetch.str repr v]
           | None => []
           end
        ++ [""]
   else [])
  ++ [statement].

(** The files of one study: path and text, numbered from 1. *)
Definition study_docs (docs_dir : string) (include_metadata : bool)
    (group : string * list record) : list (string * string) :=
  let '(nct, recs) := group in
  let nct_dir := path_join docs_dir nct in
  imap (λ i rec,
          (path_join nct_dir ("statement_" +:+ pad3 (S i) +:+ ".txt"),
           PyStr.join LF (doc_lines include_metadata nct rec)))
       recs.

(** write_statement_docs: the files written, in order. *)
Definition write_statement_docs (records : list record) (docs_dir : string)
    (include_metadata : bool) : list (string * string) :=
  group_by_nct records ≫= study_docs docs_dir include_metadata.

End Docs.

End Pipeline.

(* ===================================================================== *)
(** ** download_files_local.py: the name and the path of a download *)
(* ===================================================================== *)

Module Download.
Import Py.

(** [a or b] on the results of [headers.get]: None and the empty string
    are false. *)
Definition or_else (a b : option string) : option string :=
  match a with
  | Some s => if PyStr.truthy s then a else b
  | None => b
  end.

(** The characters that a file name must not hold; the fourth is the
    double quote. *)
Definition invalid : list ascii :=
  ["<"; ">"; ":"; "034"; "/"; "\"; "|"; "?"; "*"]%char.

(** The two quote characters of [strip] *)
Definition quotes : string := String "034" (String "'" "").

(** The Content-Disposition header, when there is one that names a file:
    [cd] when [cd and "filename=" in cd]. *)
Definition named_by_header (headers : gmap string string) : option string :=
  match or_else (headers !! "Content-Disposition")
                (headers !! "content-disposition") with
  | Some cd =>
      if PyStr.truthy cd && PyText.contains "filename=" cd then Some cd
      else None
  | None => None
  end.

Section WithUrl.
(** [urlparse(url).path], or the ValueError that [urlparse] raises on a
    malformed URL; [os.path.basename]; and [hash]. *)
Variable url_path : string → result string.
Variable basename : string → string.
Variable hash : string → Z.

(** The name taken from the URL: the last component of its path, or
    file_N when that is empty. *)
Definition name_from_url (url : string) : result string :=
  path ← url_path url;
  let name := basename path in
  Ok (if PyStr.truthy name then name
      else "file_" +:+ pretty (Z.abs (hash url) `mod` 100000)%Z).

(** The name before it is cleaned: from the Content-Disposition header
    when it names a file, else from the path of the URL. *)
Definition raw_name (url : string) (headers : gmap string string)
  : result string :=
  match named_by_header headers with
  | Some cd =>
      match PyText.split "filename=" cd !! 1%nat with
      | Some part => Ok (PyText.strip_chars quotes (PyStr.strip part))
      | None => Raise (OtherException "IndexError" "list index out of range")
      end
  | None => name_from_url url
  end.

(** The end of safe_filename_from_url: the extension added when the name
    has no dot, then each invalid character replaced by an underscore. *)
Definition clean_name (name : string) : string :=
  let name := if negb (PyText.mem_char "." name) then name +:+ ".bin" else name in
  foldl (λ name ch, PyText.replace (String ch "") "_" name) name invalid.

Definition safe_filename_from_url (url : string) (headers : gmap string string)
  : result string :=
  name ← raw_name url headers;
  Ok (clean_name name).

End WithUrl.

Section WithPath.
(** [base_dir / name], and [stem] and [suffix] of a path. *)
Variable joinpath : string → string → string.
Variable stem : string → string.
Variable suffix : string → string.
(** The paths that exist. *)
Variable files : gset string.

(** The candidate of a counter: base_dir / f"{stem}_{counter}{suffix}" *)
Definition candidate (base_dir filename : string) (counter : nat) : string :=
  let target := joinpath base_dir filename in
  joinpath base_dir (stem target +:+ "_" +:+ pretty counter +:+ suffix target).

(** The [while True] loop, for at most [fuel] turns. *)
Fixpoint first_free (fuel : nat) (base_dir filename : string) (counter : nat)
  : option string :=
  match fuel with
  | O => None
  | S fuel' =>
      let cand := candidate base_dir filename counter in
      if negb (bool_decide (cand ∈ files)) then Some cand
      else first_free fuel' base_dir filename (S counter)
  end.

Definition ensure_unique_path (fuel : nat) (base_dir filename : string)
  : option string :=
  let target := joinpath base_dir filename in
  if negb (bool_decide (target ∈ files)) then Some target
  else first_free fuel base_dir filename 1.

End WithPath.

End Download.

(* ===================================================================== *)
(** ** automation_api.py: the batch loop and its timing *)
(* ===================================================================== *)

Module ApiBatch.
Import Py Soup Analysis CheckerBatch.

(** One row of the timing file; [time] is the type of the readings of
    the clock and of their differences (floats in the script). *)
Record timing (time : Type) : Type := mk_timing {
  t_nctId : string;
  seconds : time;
}.
Arguments mk_timing {time}.
Arguments t_nctId {time}.
Arguments seconds {time}.

(** What main writes: the summary rows, the incorrect statements, the
    timings and the total runtime. *)
Record report (time : Type) : Type := mk_report {
  all_rows : list summary_row;
  incorrect_rows : list incorrect_row;
  per_id_times : list (timing time);
  total_runtime : time;
}.
Arguments mk_report {time}.
Arguments all_rows {time}.
Arguments incorrect_rows {time}.
Arguments per_id_times {time}.
Arguments total_runtime {time}.

(** The state that the loop threads: the remote end's side, and how many
    times the clock has been read. *)
Record state : Type := mk_state {
  world : Fetch.world;
  reads : nat;
}.

Section WithSession.
Variable repr : json → string.
Variable net : Fetch.network.
(** BeautifulSoup(html, "html.parser") *)
Variable parse : string → node.
(** The readings of the clock, the successive readings of
    [time.perf_counter()], and the difference [later - earlier] of two
    readings as the script computes it. *)
Variable time : Type.
Variable ticks : nat → time.
Variable elapsed : time → time → time.

Definition perf_counter (st : state) : time * state :=
  (ticks (reads st), {| world := world st; reads := S (reads st) |}).

(** [for idx, nct in enumerate(nct_ids, 1)] with its three accumulators. *)
Fixpoint main_loop (nct_ids : list string)
    (all_rows : list summary_row) (incorrect_rows : list incorrect_row)
    (per_id_times : list (timing time)) (st : state)
  : result (list summary_row * list incorrect_row * list (timing time))
    * state :=
  match nct_ids with
  | [] => (Ok (all_rows, incorrect_rows, per_id_times), st)
  | nct :: rest =>
      let '(start, st) := perf_counter st in
      let '(html, w) := Fetch.fetch_eligibility_html repr net nct (world st) in
      let st := {| world := w; reads := reads st |} in
      match html with
      | Raise e => (Raise e, st)
      | Ok html =>
          match html with
          | Some (String a h) =>
              let soup := parse (String a h) in
              let '(incl_list, excl_list) :=
                Api.find_inclusion_exclusion_lists_from_html soup in
              let inc_res := analyze_list incl_list "Inclusion" in
              let exc_res := analyze_list excl_list "Exclusion" in
              let total_correct :=
                correct_count inc_res + correct_count exc_res in
              let total_incorrect :=
                incorrect_count inc_res + incorrect_count exc_res in
              let total := total_correct + total_incorrect in
              let all_rows :=
                all_rows ++ [{| nctId := nct;
                                total_statements := total;
                                correct_statements := total_correct;
                                incorrect_statements := total_incorrect |}] in
              let incorrect_rows :=
                incorrect_rows ++ incorrect_rows_of nct "Inclusion" inc_res
                               ++ incorrect_rows_of nct "Exclusion" exc_res in
              let '(end_, st) := perf_counter st in
              main_loop rest all_rows incorrect_rows
                (per_id_times
                 ++ [{| t_nctId := nct; seconds := elapsed end_ start |}])
                st
          | _ =>                                     (* if not html: continue *)
              let '(end_, st) := perf_counter st in
              main_loop rest all_rows incorrect_rows
                (per_id_times
                 ++ [{| t_nctId := nct; seconds := elapsed end_ start |}])
                st
          end
      end
  end.

(** main, from the identifiers read from the CSV: nothing is reported when
    there is no identifier. *)
Definition main (nct_ids : list string) (st : state)
  : result (option (report time)) * state :=
  let nct_ids := take 2889 nct_ids in
  match nct_ids with
  | [] => (Ok None, st)
  | _ =>
      let '(t0, st) := perf_counter st in
      let '(out, st) := main_loop nct_ids [] [] [] st in
      match out with
      | Raise e => (Raise e, st)
      | Ok (all_rows, incorrect_rows, per_id_times) =>
          let '(t1, st) := perf_counter st in
          (Ok (Some {| all_rows := all_rows;
                       incorrect_rows := incorrect_rows;
                       per_id_times := per_id_times;
                       total_runtime := elapsed t1 t0 |}), st)
      end
  end.

End WithSession.

End ApiBatch.

(* ===================================================================== *)
(** ** The final summaries of remove_header_statements.py and of
    dynamic_eligibility_checker.py *)
(* ===================================================================== *)

Module Summaries.
Import Py.

(** [a / b] on two counts: the exact quotient, or ZeroDivisionError. *)
Definition true_div (a b : nat) : result Qcanon.Qc :=
  match b with
  | O => Raise (OtherException "ZeroDivisionError" "division by zero")
  | S _ => Ok (Qcanon.Q2Qc (QArith_base.Qmake (Z.of_nat a) (Pos.of_nat b)))
  end.

Definition times_100 (q : Qcanon.Qc) : Qcanon.Qc :=
  Qcanon.Qcmult q (Qcanon.Q2Qc (QArith_base.Qmake 100 1)).

(** *** remove_header_statements.py: main *)

(** The files that main saves: the cleaned JSON, and the CSV of the
    removed rows when there are any. *)
Record saved : Type := mk_saved {
  output_json : list Pipeline.record;
  output_csv : option (list Pipeline.record);
}.

(** The figures of the summary that main prints. *)
Record removal_summary : Type := mk_removal_summary {
  input_records : nat;
  removed_records : nat;
  output_records : nat;
  removal_rate : Qcanon.Qc;
}.

(** main, on the list read from the input file: the files saved, and how
    the run ends. *)
Definition remove_headers_main (data : list Pipeline.record) (preview : bool)
  : option saved * result (option removal_summary) :=
  let '(cleaned_data, removed_rows) := Pipeline.remove_unwanted_statements data in
  if preview then (None, Ok None)
  else
    let files :=
      {| output_json := cleaned_data;
         output_csv := match removed_rows with
                       | [] => None
                       | _ => Some removed_rows
                       end |} in
    (Some files,
     rate ← true_div (length removed_rows) (length data);
     Ok (Some {| input_records := length data;
                 removed_records := length removed_rows;
                 output_records := length cleaned_data;
                 removal_rate := times_100 rate |})).

(** *** dynamic_eligibility_checker.py: the end of main *)

Record checker_summary : Type := mk_checker_summary {
  total_nct_ids : nat;
  total_statements : nat;
  correct_statements : nat;
  incorrect_statements : nat;
  accuracy_ratio : Qcanon.Qc;
}.

(** The summary computed from the frame of the rows.  A frame built from
    no row has no column, so that reading its column total_statements
    raises KeyError. *)
Definition final_summary (rows : list CheckerBatch.summary_row)
  : result checker_summary :=
  match rows with
  | [] => Raise (OtherException "KeyError" "total_statements")
  | _ =>
      let '(total, incorrect, correct) := CheckerBatch.totals rows in
      accuracy ← (match total with
                  | O => Ok (Qcanon.Q2Qc (QArith_base.Qmake 0 1))
                  | S _ => q ← true_div correct total; Ok (times_100 q)
                  end);
      Ok {| total_nct_ids := length rows;
            total_statements := total;
            correct_statements := correct;
            incorrect_statements := incorrect;
            accuracy_ratio := accuracy |}
  end.

Section WithBrowser.
Variable load_page : string → result Soup.node.

(** main, from the identifiers read from the CSV: None when there is no
    identifier, else the rows, the incorrect statements and the summary. *)
Definition checker_run (nct_ids : list string)
  : result (option (list CheckerBatch.summary_row
                    * list CheckerBatch.incorrect_row * checker_summary)) :=
  let nct_ids := take 2100 nct_ids in
  match nct_ids with
  | [] => Ok None
  | _ =>
      out ← CheckerBatch.main load_page nct_ids;
      summary ← final_summary out.1;
      Ok (Some (out.1, out.2, summary))
  end.

End WithBrowser.

End Summaries.

(* ===================================================================== *)
(** * Properties *)
(* ===================================================================== *)

(** ** The document tree *)


Lemma descendants_tag p nm attrs cs :
  Soup.descendants p (Soup.Tag nm attrs cs) = Soup.descendants_from p 0 cs.
Proof.
  simpl. generalize 0. induction cs as [|c cs IH]; intros i; simpl; [done|].
  by rewrite IH.
Qed.

(** Every position below [p] extends [p]. *)
Lemma descendants_pos n : ∀ p d,
  d ∈ Soup.descendants p n → ∃ l, l ≠ [] ∧ d.1 = l ++ p.
Proof.
  induction n as [cls s|nm attrs cs IH] using Soup.node_ind'; intros p d Hd.
  - by apply elem_of_nil in Hd.
  - rewrite descendants_tag in Hd. revert Hd. generalize 0.
    induction IH as [|c cs Hc _ IHcs]; intros i Hd; simpl in Hd.
    + by apply elem_of_nil in Hd.
    + apply elem_of_cons in Hd as [->|Hd].
      { exists [i]. done. }
      apply elem_of_app in Hd as [Hd|Hd].
      * destruct (Hc _ _ Hd) as (l & Hl & ->).
        exists (l ++ [i]). split; [by destruct l|]. by rewrite <- app_assoc.
      * by apply (IHcs (S i)).
Qed.

Lemma descendants_from_pos p cs : ∀ i d,
  d ∈ Soup.descendants_from p i cs → ∃ l j, i ≤ j ∧ d.1 = l ++ j :: p.
Proof.
  induction cs as [|c cs IH]; intros i d Hd; simpl in Hd.
  - by apply elem_of_nil in Hd.
  - apply elem_of_cons in Hd as [->|Hd].
    { exists [], i. done. }
    apply elem_of_app in Hd as [Hd|Hd].
    + destruct (descendants_pos _ _ _ Hd) as (l & _ & ->).
      exists l, i. done.
    + destruct (IH _ _ Hd) as (l & j & Hj & ->). exists l, j. split; [lia|done].
Qed.

(** No two descendants sit at the same position. *)
Lemma descendants_NoDup n : ∀ p, NoDup (Soup.descendants p n).*1.
Proof.
  induction n as [cls s|nm attrs cs IH] using Soup.node_ind'; intros p.
  - constructor.
  - rewrite descendants_tag. generalize 0.
    induction IH as [|c cs Hc _ IHcs]; intros i; simpl; [constructor|].
    rewrite fmap_app. apply NoDup_cons. split.
    + intros Hin. apply elem_of_app in Hin as [Hin|Hin];
        apply list_elem_of_fmap in Hin as (d & Hd1 & Hd).
      * destruct (descendants_pos _ _ _ Hd) as (l & Hl & Hp).
        assert (i :: p = l ++ i :: p) as Heq by (etrans; [exact Hd1|exact Hp]).
        destruct l; [done|].
        apply (f_equal length) in Heq. simpl in Heq. rewrite length_app in Heq.
        simpl in Heq. lia.
      * destruct (descendants_from_pos _ _ _ _ Hd) as (l & j & Hj & Hp).
        assert (i :: p = l ++ j :: p) as Heq by (etrans; [exact Hd1|exact Hp]).
        destruct l as [|x l]; simpl in Heq.
        { injection Heq as ->. lia. }
        apply (f_equal length) in Heq. simpl in Heq. rewrite length_app in Heq.
        simpl in Heq. lia.
    + apply NoDup_app. split; [apply Hc|]. split; [|apply IHcs].
      intros q Hq1 Hq2.
      apply list_elem_of_fmap in Hq1 as (d1 & -> & Hd1).
      apply list_elem_of_fmap in Hq2 as (d2 & Heq & Hd2).
      destruct (descendants_pos _ _ _ Hd1) as (l1 & _ & Hp1).
      destruct (descendants_from_pos _ _ _ _ Hd2) as (l2 & j & Hj & Hp2).
      assert (l1 ++ i :: p = l2 ++ j :: p) as Heq' by (etrans; [symmetry; exact Hp1|etrans; [exact Heq|exact Hp2]]).
      apply app_inj_2 in Heq' as [_ Heq']; [|done].
      injection Heq' as ->. lia.
Qed.

(** The lists found below an element are pairwise different elements. *)
Lemma find_all_NoDup f e : NoDup (Soup.find_all f e).*1.
Proof.
  unfold Soup.find_all. generalize (descendants_NoDup e.2 e.1).
  induction (Soup.descendants e.1 e.2) as [|d ds IH]; simpl; [done|].
  intros [Hd Hds]%NoDup_cons. destruct (f d.2); simpl; [|by apply IH].
  apply NoDup_cons. split; [|by apply IH].
  intros Hin. apply Hd.
  apply list_elem_of_fmap in Hin as (x & -> & Hx).
  apply list_elem_of_fmap. exists x. split; [done|].
  apply list_elem_of_In, filter_In in Hx as [Hx _]. by apply list_elem_of_In.
Qed.

Lemma find_all_first_two_differ f e (a b : Soup.elem) :
  Soup.find_all f e !! 0 = Some a → Soup.find_all f e !! 1 = Some b → a.1 ≠ b.1.
Proof.
  intros Ha Hb Heq. pose proof (find_all_NoDup f e) as Hnd.
  destruct (Soup.find_all f e) as [|x [|y l]]; simplify_eq/=.
  apply NoDup_cons in Hnd as [Hnd _]. apply Hnd. rewrite Heq. left.
Qed.

(** The position of a descendant leads to that descendant. *)
Lemma descendants_get n : ∀ p d,
  d ∈ Soup.descendants p n →
  ∃ l, d.1 = l ++ p ∧ Soup.get n (rev l) = Some d.2.
Proof.
  induction n as [cls s|nm attrs cs IH] using Soup.node_ind'; intros p d Hd.
  - by apply elem_of_nil in Hd.
  - rewrite descendants_tag in Hd.
    assert (∃ l k c, d.1 = l ++ (0 + k) :: p ∧ cs !! k = Some c ∧
                     Soup.get c (rev l) = Some d.2) as (l & k & c & Hp & Hk & Hg).
    { revert Hd. generalize 0.
      induction IH as [|c cs Hc _ IHcs]; intros i Hd; simpl in Hd.
      - by apply elem_of_nil in Hd.
      - apply elem_of_cons in Hd as [->|Hd].
        { exists [], 0, c. simpl. by rewrite Nat.add_0_r. }
        apply elem_of_app in Hd as [Hd|Hd].
        + destruct (Hc _ _ Hd) as (l & Hl & Hg).
          exists l, 0, c. by rewrite Nat.add_0_r.
        + destruct (IHcs _ Hd) as (l & k & c' & Hl & Hk & Hg).
          exists l, (S k), c'. split; [|done].
          etrans; [exact Hl|]. do 2 f_equal. lia. }
    exists (l ++ [k]). split.
    + etrans; [exact Hp|]. by rewrite <- app_assoc.
    + rewrite rev_app_distr. simpl. by rewrite Hk.
Qed.

Lemma descendants_resolve doc d :
  d ∈ Soup.descendants [] doc → Soup.resolve doc d.1 = Some d.2.
Proof.
  intros Hd. destruct (descendants_get _ _ _ Hd) as (l & Hl & Hg).
  destruct d as [dp dn]. simpl in *. subst dp.
  unfold Soup.resolve. by rewrite app_nil_r.
Qed.

(** ** The locator *)

Lemma lookup_0_head {A} (l : list A) : l !! 0 = head l.
Proof. by destruct l. Qed.

(** Case analysis on what the tiers found and on the lists in scope. *)
Ltac tier_cases :=
  repeat match goal with
    | |- context [Checker._find_list_after_heading ?d ?r ?p] =>
        destruct (Checker._find_list_after_heading d r p)
    | |- context [Checker._container_list ?c ?i] =>
        destruct (Checker._container_list c i)
    | |- context [Api._find_list_after_heading ?d ?p] =>
        destruct (Api._find_list_after_heading d p)
    end;
  simpl;
  try match goal with
    | |- context [Soup.find_all ?f ?e] =>
        destruct (Soup.find_all f e) as [|? [|? ?]]
    end;
  simpl; try done.

Lemma checker_locator_first_match doc :
  Checker.find_inclusion_exclusion_lists doc =
    (Checker.first_match
       [Checker.heading_tier doc Checker.incl_pattern;
        Checker.container_tier doc Checker.incl_id;
        Checker.positional_tier doc 0],
     Checker.first_match
       [Checker.heading_tier doc Checker.excl_pattern;
        Checker.container_tier doc Checker.excl_id;
        Checker.positional_tier doc 1]).
Proof.
  unfold Checker.find_inclusion_exclusion_lists, Checker.heading_tier,
    Checker.container_tier, Checker.positional_tier, Checker.incl_id,
    Checker.excl_id.
  tier_cases.
Qed.

Lemma api_locator_first_match soup :
  Api.find_inclusion_exclusion_lists_from_html soup =
    (Checker.first_match
       [Api.heading_tier soup Api.incl_pattern; Api.positional_tier soup 0],
     Checker.first_match
       [Api.heading_tier soup Api.excl_pattern; Api.positional_tier soup 1]).
Proof.
  unfold Api.find_inclusion_exclusion_lists_from_html, Api.heading_tier,
    Api.positional_tier.
  tier_cases.
Qed.

Lemma filter_drop_head {A} (P : A → bool) (L : list A) s F : ∀ a,
  List.filter P (drop a L) = s :: F →
  ∃ j, a ≤ j ∧ L !! j = Some s ∧ F = List.filter P (drop (S j) L).
Proof.
  intros a. remember (length L - a) as n eqn:Hn. revert a Hn.
  induction n as [|n IH]; intros a Hn Hf.
  - rewrite drop_ge in Hf by lia. done.
  - destruct (L !! a) as [x|] eqn:Hx.
    + rewrite (drop_S _ _ _ Hx) in Hf. simpl in Hf.
      destruct (P x) eqn:HP.
      * injection Hf as <- <-. exists a. done.
      * destruct (IH (S a) ltac:(lia) Hf) as (j & Hj & Hs & HF).
        exists j. split; [lia|done].
    + apply lookup_ge_None in Hx. lia.
Qed.

(** The walk over the sibling tags is the loop of the source: take the
    next sibling tag; stop when there is none; return it when it is a list;
    else go on from it. *)
Lemma first_list_is_sibling_loop doc (h : Soup.elem) :
  Checker.first_list (List.filter (λ d, Soup.is_tag d.2) (Soup.next_siblings doc h))
  = match Soup.find_next_sibling doc h with
    | None => None
    | Some sib =>
        if Soup.is_list sib.2 then Some sib
        else Checker.first_list
               (List.filter (λ d, Soup.is_tag d.2) (Soup.next_siblings doc sib))
    end.
Proof.
  unfold Soup.find_next_sibling.
  destruct (List.filter (λ d : Soup.pos * Soup.node, Soup.is_tag d.2)
              (Soup.next_siblings doc h)) as [|s F] eqn:HF; [done|].
  simpl. destruct (Soup.is_list s.2); [done|]. f_equal.
  unfold Soup.next_siblings in *.
  destruct h.1 as [|i q]; [done|].
  destruct (Soup.resolve doc q) as [parent|] eqn:Hq; [|done].
  apply filter_drop_head in HF as (j & Hj & Hs & ->).
  apply list_lookup_imap_Some in Hs as (c & Hc & ->). simpl. by rewrite Hq.
Qed.

(** C1, as stated, fails: in a document that has both the dedicated
    inclusion container and an "Inclusion Criteria" heading followed by a
    list, the heading scan is consulted first and its list is returned, not
    the one derived from the container. *)
Lemma container_does_not_preempt_heading :
  let doc := Samples.heading_and_container in
  fst <$> Checker.container_tier doc Checker.incl_id = Some [0; 0] ∧
  fst <$> Checker.heading_tier doc Checker.incl_pattern = Some [2] ∧
  fst <$> (Checker.find_inclusion_exclusion_lists doc).1 = Some [2] ∧
  (Checker.find_inclusion_exclusion_lists doc).1
    ≠ Checker.container_tier doc Checker.incl_id.
Proof. vm_compute. repeat split; congruence. Qed.

(** C1 (amended): the locator evaluates its tiers strictly in order per
    section, short-circuiting at the first tier that matches, the order
    being heading scan, then the dedicated per-section container, then the
    positional fallback; in particular, for every document in which the
    heading scan finds no list for a section and that section's dedicated
    container is present, the returned root is the one derived from the
    container, whatever the positional tier would give. *)
Theorem locator_tier_order (doc : Soup.node) :
  (Checker.find_inclusion_exclusion_lists doc).1 =
    Checker.first_match
      [Checker.heading_tier doc Checker.incl_pattern;
       Checker.container_tier doc Checker.incl_id;
       Checker.positional_tier doc 0] ∧
  (Checker.find_inclusion_exclusion_lists doc).2 =
    Checker.first_match
      [Checker.heading_tier doc Checker.excl_pattern;
       Checker.container_tier doc Checker.excl_id;
       Checker.positional_tier doc 1] ∧
  (∀ c, Checker.heading_tier doc Checker.incl_pattern = None →
        Checker.container_tier doc Checker.incl_id = Some c →
        (Checker.find_inclusion_exclusion_lists doc).1 = Some c) ∧
  (∀ c, Checker.heading_tier doc Checker.excl_pattern = None →
        Checker.container_tier doc Checker.excl_id = Some c →
        (Checker.find_inclusion_exclusion_lists doc).2 = Some c) ∧
  (∀ id div, Soup.find (Soup.div_with_id id) ([], doc) = Some div →
        Checker.container_tier doc id
        = Some (default div (Soup.find Soup.is_list div))).
Proof.
  rewrite checker_locator_first_match. simpl. repeat split.
  - by intros c -> ->.
  - by intros c -> ->.
  - intros id div Hdiv. unfold Checker.container_tier, Checker._container_list.
    rewrite Hdiv. by destruct (Soup.find Soup.is_list div).
Qed.

Lemma locator_tier_order_witness :
  fst <$> (Checker.find_inclusion_exclusion_lists Samples.container_only).1
    = Some [0; 0].
Proof.
  destruct (locator_tier_order Samples.container_only) as (_ & _ & H & _ & _).
  rewrite (H ([0; 0], Samples.el "ul" [Samples.el "li" [Samples.txt "k"]])).
  - reflexivity.
  - vm_compute. reflexivity.
  - vm_compute. reflexivity.
Defined.

(** C2, as stated, fails: with only an "Exclusion Criteria" heading and one
    list, the heading scan gives that list to Exclusion and the positional
    fallback gives the same list to Inclusion. *)
Lemma fallback_reuses_resolved_list :
  let doc := Samples.exclusion_heading_only in
  Checker.heading_tier doc Checker.incl_pattern = None ∧
  Checker.container_tier doc Checker.incl_id = None ∧
  fst <$> (Checker.find_inclusion_exclusion_lists doc).1 = Some [1] ∧
  fst <$> (Checker.find_inclusion_exclusion_lists doc).2 = Some [1] ∧
  (Checker.find_inclusion_exclusion_lists doc).1
    = (Checker.find_inclusion_exclusion_lists doc).2 ∧
  (Api.find_inclusion_exclusion_lists_from_html doc).1
    = (Api.find_inclusion_exclusion_lists_from_html doc).2 ∧
  fst <$> (Api.find_inclusion_exclusion_lists_from_html doc).1 = Some [1].
Proof. vm_compute. repeat split. Qed.

(** C2 (amended): in both locators the positional fallback fills only a
    section that no earlier tier resolved, Inclusion with the first
    list-type node of the scope in document order and Exclusion with the
    second; a section resolved earlier keeps its root; and when no earlier
    tier resolved either section, the two roots returned are different
    nodes. *)
Theorem positional_fallback_unresolved_only (doc : Soup.node) :
  let pre_i := Checker.first_match
                 [Checker.heading_tier doc Checker.incl_pattern;
                  Checker.container_tier doc Checker.incl_id] in
  let pre_e := Checker.first_match
                 [Checker.heading_tier doc Checker.excl_pattern;
                  Checker.container_tier doc Checker.excl_id] in
  let lists := Soup.find_all Soup.is_list (Checker.search_root_of doc) in
  let r := Checker.find_inclusion_exclusion_lists doc in
  let api_i := Api.heading_tier doc Api.incl_pattern in
  let api_e := Api.heading_tier doc Api.excl_pattern in
  let api_lists := Soup.find_all Soup.is_list ([], doc) in
  let ra := Api.find_inclusion_exclusion_lists_from_html doc in
  r.1 = match pre_i with Some e => Some e | None => lists !! 0 end ∧
  r.2 = match pre_e with Some e => Some e | None => lists !! 1 end ∧
  (pre_i = None → pre_e = None →
   ∀ a b, r = (Some a, Some b) → a.1 ≠ b.1) ∧
  ra.1 = match api_i with Some e => Some e | None => api_lists !! 0 end ∧
  ra.2 = match api_e with Some e => Some e | None => api_lists !! 1 end ∧
  (api_i = None → api_e = None →
   ∀ a b, ra = (Some a, Some b) → a.1 ≠ b.1).
Proof.
  intros pre_i pre_e lists r api_i api_e api_lists ra.
  assert (r = (match pre_i with Some e => Some e | None => lists !! 0 end,
               match pre_e with Some e => Some e | None => lists !! 1 end))
    as Hr.
  { subst r pre_i pre_e lists. rewrite checker_locator_first_match.
    unfold Checker.positional_tier, Checker.first_match.
    by repeat case_match. }
  assert (ra = (match api_i with Some e => Some e | None => api_lists !! 0 end,
                match api_e with Some e => Some e | None => api_lists !! 1 end))
    as Hra.
  { subst ra api_i api_e api_lists. rewrite api_locator_first_match.
    unfold Api.positional_tier, Checker.first_match.
    by repeat case_match. }
  rewrite Hr, Hra. simpl. repeat split.
  - intros -> -> a b [= Ha Hb]. by eapply find_all_first_two_differ.
  - intros -> -> a b [= Ha Hb]. by eapply find_all_first_two_differ.
Qed.

Lemma positional_fallback_unresolved_only_witness :
  fst <$> (Checker.find_inclusion_exclusion_lists Samples.two_lists_no_heading).1
    = Some [1] ∧
  fst <$> (Checker.find_inclusion_exclusion_lists Samples.two_lists_no_heading).2
    = Some [2] ∧
  ([1] : Soup.pos) ≠ [2].
Proof.
  split; [vm_compute; reflexivity|]. split; [vm_compute; reflexivity|].
  destruct (positional_fallback_unresolved_only Samples.two_lists_no_heading)
    as (_ & _ & H & _).
  exact (H ltac:(vm_compute; reflexivity) ltac:(vm_compute; reflexivity)
           ([1], Samples.el "ol" [Samples.el "li" [Samples.txt "a"]])
           ([2], Samples.el "ul" [Samples.el "li" [Samples.txt "b"]])
           ltac:(vm_compute; reflexivity)).
Defined.

(** C10, as stated, fails for the checker's locator: the positional
    fallback looks for lists inside the description block when the section
    has one, so that a document whose only list-type node lies outside
    that block gets no Inclusion root, although no earlier tier resolves
    either section and exactly one list-type node exists. *)
Lemma single_list_outside_scope_is_missed :
  Soup.find_all Soup.is_list ([], Samples.one_list_outside_description)
  = [([1], Samples.el "ol" [Samples.el "li" [Samples.txt "a"]])] ∧
  Checker.heading_tier Samples.one_list_outside_description
    Checker.incl_pattern = None ∧
  Checker.container_tier Samples.one_list_outside_description
    Checker.incl_id = None ∧
  Checker.heading_tier Samples.one_list_outside_description
    Checker.excl_pattern = None ∧
  Checker.container_tier Samples.one_list_outside_description
    Checker.excl_id = None ∧
  Soup.find_all Soup.is_list
    (Checker.search_root_of Samples.one_list_outside_description) = [] ∧
  Checker.find_inclusion_exclusion_lists Samples.one_list_outside_description
  = (None, None).
Proof. vm_compute. repeat split. Qed.

(** C10 (amended): in both locators, when no tier before the positional
    fallback resolves either section and the scope of the fallback (the
    description block when the section has one, else the whole section;
    the whole markup in the API script) holds exactly one list-type node,
    the locator returns that node as the Inclusion root and no Exclusion
    root; and the fallback never gives an Exclusion root when the scope
    holds fewer than two list-type nodes. *)
Theorem single_list_goes_to_inclusion (doc : Soup.node) (l : Soup.elem) :
  (Checker.heading_tier doc Checker.incl_pattern = None →
   Checker.container_tier doc Checker.incl_id = None →
   Checker.heading_tier doc Checker.excl_pattern = None →
   Checker.container_tier doc Checker.excl_id = None →
   Soup.find_all Soup.is_list (Checker.search_root_of doc) = [l] →
   Checker.find_inclusion_exclusion_lists doc = (Some l, None)) ∧
  (Checker.heading_tier doc Checker.excl_pattern = None →
   Checker.container_tier doc Checker.excl_id = None →
   length (Soup.find_all Soup.is_list (Checker.search_root_of doc)) < 2 →
   (Checker.find_inclusion_exclusion_lists doc).2 = None) ∧
  (Api.heading_tier doc Api.incl_pattern = None →
   Api.heading_tier doc Api.excl_pattern = None →
   Soup.find_all Soup.is_list ([], doc) = [l] →
   Api.find_inclusion_exclusion_lists_from_html doc = (Some l, None)) ∧
  (Api.heading_tier doc Api.excl_pattern = None →
   length (Soup.find_all Soup.is_list ([], doc)) < 2 →
   (Api.find_inclusion_exclusion_lists_from_html doc).2 = None).
Proof.
  rewrite checker_locator_first_match, api_locator_first_match.
  unfold Checker.positional_tier, Api.positional_tier. simpl.
  repeat split.
  - by intros -> -> -> -> ->.
  - intros -> -> Hlen.
    by destruct (Soup.find_all _ _) as [|? [|? ?]]; simpl in *; [..|lia].
  - by intros -> -> ->.
  - intros -> Hlen.
    by destruct (Soup.find_all _ _) as [|? [|? ?]]; simpl in *; [..|lia].
Qed.

Lemma single_list_goes_to_inclusion_witness :
  let l : Soup.elem := ([1], Samples.el "ol" [Samples.el "li" [Samples.txt "a"]]) in
  Checker.find_inclusion_exclusion_lists Samples.one_list_no_heading = (Some l, None) ∧
  Api.find_inclusion_exclusion_lists_from_html Samples.one_list_no_heading
    = (Some l, None).
Proof.
  intros l.
  destruct (single_list_goes_to_inclusion Samples.one_list_no_heading l)
    as (H1 & _ & H3 & _).
  split.
  - apply H1; vm_compute; reflexivity.
  - apply H3; vm_compute; reflexivity.
Defined.

(** ** Stripping and joining *)

Lemma lstrip_head s :
  PyStr.lstrip s = "" ∨
  ∃ a s', PyStr.lstrip s = String a s' ∧ PyStr.isspace a = false.
Proof.
  induction s as [|a s IH]; simpl; [by left|].
  destruct (PyStr.isspace a) eqn:Ha; [done|]. right. by exists a, s.
Qed.

Lemma rstrip_idemp s : PyStr.rstrip (PyStr.rstrip s) = PyStr.rstrip s.
Proof.
  induction s as [|a s IH]; simpl; [done|].
  destruct (PyStr.rstrip s) as [|b r] eqn:Hr.
  - destruct (PyStr.isspace a) eqn:Ha; simpl; [done|]. by rewrite Ha.
  - simpl in *. by rewrite IH.
Qed.

Lemma rstrip_keeps_head a s :
  PyStr.isspace a = false → ∃ r, PyStr.rstrip (String a s) = String a r.
Proof.
  intros Ha. simpl. destruct (PyStr.rstrip s); [rewrite Ha|]; eauto.
Qed.

Lemma strip_stripped s : PyStr.stripped (PyStr.strip s).
Proof.
  unfold PyStr.stripped, PyStr.strip. split; [|apply rstrip_idemp].
  destruct (lstrip_head s) as [->|(a & s' & -> & Ha)]; [done|].
  destruct (rstrip_keeps_head a s' Ha) as (r & ->). simpl. by rewrite Ha.
Qed.

Lemma strip_idemp s : PyStr.strip (PyStr.strip s) = PyStr.strip s.
Proof.
  destruct (strip_stripped s) as [Hl Hr]. unfold PyStr.strip at 1.
  by rewrite Hl, Hr.
Qed.

Lemma stripped_strip s : PyStr.stripped s → PyStr.strip s = s.
Proof. intros [Hl Hr]. unfold PyStr.strip. by rewrite Hl, Hr. Qed.

Lemma rstrip_app a b :
  PyStr.rstrip b ≠ "" → PyStr.rstrip (a +:+ b) = a +:+ PyStr.rstrip b.
Proof.
  intros Hb. induction a as [|c a IH]; simpl; [done|].
  rewrite IH. destruct a; simpl; [|done]. by destruct (PyStr.rstrip b).
Qed.

Lemma lstrip_app a b :
  a ≠ "" → PyStr.lstrip a = a → PyStr.lstrip (a +:+ b) = a +:+ b.
Proof.
  destruct a as [|c a]; [done|]. intros _. simpl.
  destruct (PyStr.isspace c) eqn:Hc; [|done].
  intros Heq. exfalso.
  assert (∀ s, String.length (PyStr.lstrip s) ≤ String.length s) as Hlen.
  { clear. induction s as [|x s IH]; simpl; [done|].
    destruct (PyStr.isspace x); simpl; lia. }
  specialize (Hlen a). rewrite Heq in Hlen. simpl in Hlen. lia.
Qed.

(** Joining tokens that are trimmed and not empty gives a trimmed text. *)
Lemma join_stripped (toks : list string) :
  Forall (λ t, PyStr.stripped t ∧ t ≠ "") toks →
  PyStr.stripped (PyStr.join " " toks) ∧ (toks ≠ [] → PyStr.join " " toks ≠ "").
Proof.
  induction 1 as [|t toks [[Hl Hr] Hne] _ [[IHl IHr] IHne]]; [done|].
  destruct toks as [|t' toks].
  { simpl. done. }
  change (PyStr.join " " (t :: t' :: toks))
    with (t +:+ " " +:+ PyStr.join " " (t' :: toks)).
  specialize (IHne ltac:(done)).
  repeat split.
  - by apply lstrip_app.
  - rewrite rstrip_app; [|rewrite rstrip_app; rewrite IHr; [by destruct t|done]].
    rewrite rstrip_app by (by rewrite IHr). by rewrite IHr.
  - intros _. by destruct t.
Qed.

(** ** Text and nesting of an item *)

Lemma descendants_snd n : ∀ p q,
  (Soup.descendants p n).*2 = (Soup.descendants q n).*2.
Proof.
  induction n as [cls s|nm attrs cs IH] using Soup.node_ind'; intros p q; [done|].
  rewrite !descendants_tag. generalize 0.
  induction IH as [|c cs Hc _ IHcs]; intros i; simpl; [done|].
  rewrite !fmap_app. f_equal. f_equal; [apply Hc|apply IHcs].
Qed.

Lemma stripped_token_snd (l : list Soup.elem) :
  omap (λ d : Soup.elem, Soup.stripped_token d.2) l
  = omap Soup.stripped_token l.*2.
Proof. induction l as [|d l IH]; csimpl; [done|]. by rewrite IH. Qed.

(** The tokens of a tag are those of its children, one child after the
    other: a string child gives its trimmed text unless that is empty, a
    tag child gives its own tokens, at any depth. *)
Lemma stripped_strings_tag nm attrs cs :
  Soup.stripped_strings (Soup.Tag nm attrs cs)
  = concat (Analysis.child_strings <$> cs).
Proof.
  unfold Soup.stripped_strings. rewrite descendants_tag.
  generalize 0. generalize (@nil nat).
  induction cs as [|c cs IH]; intros p i; [done|].
  change (Soup.descendants_from p i (c :: cs))
    with ([(i :: p, c)] ++ Soup.descendants (i :: p) c
            ++ Soup.descendants_from p (S i) cs).
  rewrite !omap_app, IH, app_assoc. rewrite fmap_cons. simpl concat. f_equal.
  destruct c as [cls s|nm' attrs' cs'].
  - destruct cls; simpl; [|done]. by destruct (PyStr.truthy (PyStr.strip s)).
  - unfold Analysis.child_strings, Soup.stripped_strings.
    rewrite !stripped_token_snd.
    by rewrite (descendants_snd _ (i :: p) []).
Qed.

Lemma stripped_strings_tokens n :
  Forall (λ t, PyStr.stripped t ∧ t ≠ "") (Soup.stripped_strings n).
Proof.
  unfold Soup.stripped_strings.
  induction (Soup.descendants [] n) as [|d ds IH]; simpl; [done|].
  destruct d as [p [[|] s|nm attrs cs]]; simpl; [|done|done].
  destruct (PyStr.strip s) eqn:Hs; simpl; [done|].
  constructor; [|done]. split; [|done]. rewrite <- Hs. apply strip_stripped.
Qed.

Lemma head_filter_is_Some {A} (f : A → bool) (l : list A) :
  is_Some (head (List.filter f l)) ↔ ∃ x, x ∈ l ∧ f x = true.
Proof.
  induction l as [|a l IH]; simpl.
  - split; [by intros [? ?]|]. intros (x & Hx & _). by apply elem_of_nil in Hx.
  - destruct (f a) eqn:Ha; simpl.
    + split; [|by eauto]. intros _. exists a. split; [left|done].
    + rewrite IH. split.
      * intros (x & Hx & Hf). exists x. split; [by right|done].
      * intros (x & Hx & Hf). apply elem_of_cons in Hx as [->|Hx]; [congruence|].
        eauto.
Qed.

(** An item has sub-bullets exactly when a list-type tag occurs somewhere
    below it. *)
Lemma has_sub_iff (item : Soup.elem) :
  Analysis.has_sub item = true ↔
  ∃ d, d ∈ Soup.descendants item.1 item.2 ∧ Soup.is_list d.2 = true.
Proof.
  unfold Analysis.has_sub, Soup.find, Soup.find_all.
  rewrite <- (head_filter_is_Some (λ d, Soup.is_list d.2)).
  destruct (head _); split; try done; try (by eauto); by intros [? ?].
Qed.

Lemma is_list_iff n :
  Soup.is_list n = true ↔
  ∃ attrs cs, n = Soup.Tag "ol" attrs cs ∨ n = Soup.Tag "ul" attrs cs.
Proof.
  destruct n as [cls s|nm attrs cs]; simpl.
  - split; [done|]. by intros (? & ? & [?|?]).
  - rewrite bool_decide_eq_true. split.
    + intros Hin. exists attrs, cs.
      apply elem_of_cons in Hin as [->|Hin]; [by left|].
      apply elem_of_cons in Hin as [->|Hin]; [by right|].
      by apply elem_of_nil in Hin.
    + intros (a & c & [[= -> _ _]|[= -> _ _]]); set_solver.
Qed.

Lemma descendants_map_text f n : ∀ p,
  Soup.descendants p (Analysis.map_text f n)
  = (λ d, (d.1, Analysis.map_text f d.2)) <$> Soup.descendants p n.
Proof.
  induction n as [cls s|nm attrs cs IH] using Soup.node_ind'; intros p; [done|].
  simpl Analysis.map_text. rewrite !descendants_tag. generalize 0.
  induction IH as [|c cs Hc _ IHcs]; intros i; simpl; [done|].
  rewrite fmap_app. f_equal. f_equal; [apply Hc|apply IHcs].
Qed.

Lemma is_list_map_text f n :
  Soup.is_list (Analysis.map_text f n) = Soup.is_list n.
Proof. by destruct n. Qed.

(** Whether an item has sub-bullets does not depend on any text in it. *)
Lemma has_sub_map_text f (item : Soup.elem) :
  Analysis.has_sub (item.1, Analysis.map_text f item.2) = Analysis.has_sub item.
Proof.
  apply eq_true_iff_eq. rewrite !has_sub_iff. simpl.
  rewrite descendants_map_text. split.
  - intros (d & Hd & Hl). apply list_elem_of_fmap in Hd as (d' & -> & Hd').
    simpl in Hl. rewrite is_list_map_text in Hl. eauto.
  - intros (d & Hd & Hl). exists (d.1, Analysis.map_text f d.2). split.
    + apply list_elem_of_fmap. eauto.
    + simpl. by rewrite is_list_map_text.
Qed.

(** ** The analysis loop *)

Lemma statements_of_cons ty item items :
  Analysis.statements_of ty (item :: items) =
  if Analysis.is_statement item
  then Analysis.record_of ty item :: Analysis.statements_of ty items
  else Analysis.statements_of ty items.
Proof.
  unfold Analysis.statements_of. simpl.
  by destruct (Analysis.is_statement item).
Qed.

Lemma analyze_item_statement ty res item :
  Analysis.analyze_item ty res item =
  if Analysis.is_statement item
  then
    if Analysis.has_sub item
    then {| Analysis.correct := Analysis.correct res;
            Analysis.incorrect :=
              Analysis.incorrect res ++ [Analysis.record_of ty item];
            Analysis.correct_count := Analysis.correct_count res;
            Analysis.incorrect_count := Analysis.incorrect_count res + 1 |}
    else {| Analysis.correct :=
              Analysis.correct res ++ [Analysis.record_of ty item];
            Analysis.incorrect := Analysis.incorrect res;
            Analysis.correct_count := Analysis.correct_count res + 1;
            Analysis.incorrect_count := Analysis.incorrect_count res |}
  else res.
Proof.
  unfold Analysis.analyze_item, Analysis.is_statement, Analysis.record_of.
  destruct (PyStr.truthy _); simpl; [|done].
  by destruct (Analysis.has_sub item).
Qed.

Lemma analyze_loop ty items : ∀ res,
  fold_left (Analysis.analyze_item ty) items res =
  {| Analysis.correct :=
       Analysis.correct res ++
       List.filter (λ r, negb (Analysis.has_sub_bullet r)) (Analysis.statements_of ty items);
     Analysis.incorrect :=
       Analysis.incorrect res ++
       List.filter Analysis.has_sub_bullet (Analysis.statements_of ty items);
     Analysis.correct_count :=
       Analysis.correct_count res +
       length (List.filter (λ r, negb (Analysis.has_sub_bullet r))
                 (Analysis.statements_of ty items));
     Analysis.incorrect_count :=
       Analysis.incorrect_count res +
       length (List.filter Analysis.has_sub_bullet (Analysis.statements_of ty items)) |}.
Proof.
  induction items as [|item items IH]; intros res.
  - destruct res. simpl. by rewrite !app_nil_r, !Nat.add_0_r.
  - simpl fold_left. rewrite IH, statements_of_cons, analyze_item_statement.
    destruct (Analysis.is_statement item); [|done].
    simpl List.filter. unfold Analysis.record_of at 1 2 3 4.
    simpl Analysis.has_sub_bullet.
    destruct (Analysis.has_sub item) eqn:Hs; simpl;
      rewrite <- ?app_assoc, <- ?Nat.add_assoc; simpl;
      unfold Analysis.record_of; by rewrite ?Hs.
Qed.

Lemma list_filter_sublist {A} (f : A → bool) (l : list A) :
  List.filter f l `sublist_of` l.
Proof.
  induction l as [|a l IH]; simpl; [done|].
  destruct (f a); by constructor.
Qed.

Lemma elem_of_list_filter {A} (f : A → bool) (l : list A) x :
  x ∈ List.filter f l ↔ x ∈ l ∧ f x = true.
Proof. rewrite !list_elem_of_In. apply filter_In. Qed.

(** C3: for every section root, the statements of the classifier are those
    of the immediate "li" children of the resolved list, in document order
    (an item without text gives none), and the flag of a statement is true
    exactly when a list-type tag, "ol" or "ul" alike, occurs below the item
    at any depth; replacing the texts of the item does not change it. *)
Theorem analyze_list_top_items_and_nesting
    (root L : Soup.elem) (ty : string) :
  Analysis.resolve_list root = Some L →
  let r := Analysis.analyze_list (Some root) ty in
  let stmts := Analysis.statements_of ty (Analysis.top_items L) in
  Analysis.correct r
    = List.filter (λ rec, negb (Analysis.has_sub_bullet rec)) stmts ∧
  Analysis.incorrect r = List.filter Analysis.has_sub_bullet stmts ∧
  (∀ item, item ∈ Analysis.top_items L ↔
     ∃ i, item.1 = i :: L.1 ∧ Soup.contents_of L.2 !! i = Some item.2 ∧
          Soup.name_in ["li"] item.2 = true) ∧
  Analysis.top_items L
    `sublist_of` imap (λ i c, (i :: L.1, c)) (Soup.contents_of L.2) ∧
  (∀ rec, rec ∈ stmts →
     ∃ item, item ∈ Analysis.top_items L ∧
       Analysis.text rec = Analysis.item_text item.2 ∧
       (Analysis.has_sub_bullet rec = true ↔
        ∃ d, d ∈ Soup.descendants item.1 item.2 ∧ Soup.is_list d.2 = true)) ∧
  (∀ n, Soup.is_list n = true ↔
     ∃ attrs cs, n = Soup.Tag "ol" attrs cs ∨ n = Soup.Tag "ul" attrs cs) ∧
  (∀ (item : Soup.elem) f,
     Analysis.has_sub (item.1, Analysis.map_text f item.2)
     = Analysis.has_sub item).
Proof.
  intros HL r stmts. subst r. unfold Analysis.analyze_list. rewrite HL.
  rewrite analyze_loop. simpl. repeat split.
  - intros Hin. apply elem_of_list_filter in Hin as [Hin Hli].
    apply elem_of_lookup_imap in Hin as (i & c & -> & Hc). by exists i.
  - intros (i & Hp & Hc & Hli). apply elem_of_list_filter. split; [|done].
    apply elem_of_lookup_imap. exists i, item.2. split; [|done].
    destruct item as [p n]. simpl in *. by subst.
  - apply list_filter_sublist.
  - intros rec Hrec. subst stmts. unfold Analysis.statements_of in Hrec.
    apply list_elem_of_fmap in Hrec as (item & -> & Hitem).
    apply elem_of_list_filter in Hitem as [Hitem _].
    exists item. split; [done|]. split; [done|]. simpl. apply has_sub_iff.
  - apply is_list_iff.
  - apply is_list_iff.
  - intros item f. apply has_sub_map_text.
Qed.

Lemma analyze_list_top_items_and_nesting_witness :
  Analysis.resolve_list ([], Samples.nested_list) = Some ([], Samples.nested_list) ∧
  Analysis.text <$>
    Analysis.incorrect
      (Analysis.analyze_list (Some ([], Samples.nested_list)) "Inclusion")
  = ["x q"].
Proof.
  split; [vm_compute; reflexivity|].
  destruct (analyze_list_top_items_and_nesting
              ([], Samples.nested_list) ([], Samples.nested_list) "Inclusion"
              ltac:(vm_compute; reflexivity)) as (_ & Hi & _).
  etrans; [exact (f_equal (fmap Analysis.text) Hi)|].
  vm_compute. reflexivity.
Defined.

(** C4, as stated, fails: whitespace inside one text token is kept as it
    is, and two adjacent tokens are joined with a space that the markup
    does not have. *)
Lemma item_text_is_not_collapsed_concatenation :
  Analysis.item_text Samples.item_two_spaces = "a  b" ∧
  Analysis.spec_text Samples.item_two_spaces = "a b" ∧
  PyStr.collapse (Analysis.item_text Samples.item_two_spaces)
    ≠ Analysis.item_text Samples.item_two_spaces ∧
  Analysis.item_text Samples.item_adjacent_tokens = "foo bar" ∧
  Analysis.spec_text Samples.item_adjacent_tokens = "foobar".
Proof. vm_compute. repeat split; congruence. Qed.

Lemma lstrip_decompose s :
  ∃ pre, s = pre +:+ PyStr.lstrip s ∧ PyStr.all_space pre = true.
Proof.
  induction s as [|a s (pre & Hs & Hp)]; [by exists ""|]. simpl.
  destruct (PyStr.isspace a) eqn:Ha; [|by exists ""].
  exists (String a pre). split; [|simpl; by rewrite Ha].
  change (String a s = String a (pre +:+ PyStr.lstrip s)). by rewrite <- Hs.
Qed.

Lemma rstrip_decompose s :
  ∃ post, s = PyStr.rstrip s +:+ post ∧ PyStr.all_space post = true.
Proof.
  induction s as [|a s (post & Hs & Hp)]; [by exists ""|]. simpl.
  destruct (PyStr.rstrip s) as [|b r] eqn:Hr.
  - change (s = post) in Hs. subst s.
    destruct (PyStr.isspace a) eqn:Ha.
    + exists (String a post). split; [done|]. simpl. by rewrite Ha.
    + by exists post.
  - exists post. split; [|done].
    change (String a s = String a (String b r +:+ post)). by rewrite <- Hs.
Qed.

(** Stripping removes whitespace at the two ends and nothing else: the
    characters in between stay as they are. *)
Lemma strip_decompose s :
  ∃ pre post, s = pre +:+ PyStr.strip s +:+ post ∧
              PyStr.all_space pre = true ∧ PyStr.all_space post = true.
Proof.
  destruct (lstrip_decompose s) as (pre & Hs & Hpre).
  destruct (rstrip_decompose (PyStr.lstrip s)) as (post & Hl & Hpost).
  exists pre, post. split; [|done]. unfold PyStr.strip.
  by rewrite <- Hl.
Qed.

(** The tokens are the strings of class NavigableString or CData below the
    node, in document order, each stripped, the empty ones left out. *)
Lemma stripped_strings_all_strings n :
  Soup.stripped_strings n
  = List.filter PyStr.truthy (PyStr.strip <$> Analysis.all_strings n).
Proof.
  unfold Soup.stripped_strings, Analysis.all_strings.
  induction (Soup.descendants [] n) as [|d ds IH]; [done|].
  destruct d as [p [[|] s|nm attrs cs]]; csimpl; [|done|done].
  rewrite IH. by destruct (PyStr.truthy (PyStr.strip s)).
Qed.

(** C4 (amended): for every enumerated item, the extracted statement text
    is made of the descendant text tokens of the item (text inside nested
    lists included; comments and the text of script, style and template
    tags are no text tokens), in document order, each trimmed of
    surrounding whitespace, the tokens that are empty after trimming left
    out, joined by single spaces; the text has no whitespace at either
    end, and whitespace inside a token is kept: a token is its string
    less the whitespace at the two ends, character for character. *)
Theorem item_text_joins_stripped_tokens (list_root item : Soup.elem) :
  item ∈ Analysis.top_items list_root →
  let tokens :=
    List.filter PyStr.truthy (PyStr.strip <$> Analysis.all_strings item.2) in
  Soup.name_in ["li"] item.2 = true ∧
  Soup.stripped_strings item.2 = tokens ∧
  Analysis.item_text item.2 = PyStr.join " " tokens ∧
  (∀ nm attrs cs,
     Soup.stripped_strings (Soup.Tag nm attrs cs)
     = concat (Analysis.child_strings <$> cs)) ∧
  Forall (λ t, PyStr.stripped t ∧ t ≠ "" ∧
               ∃ s pre post,
                 s ∈ Analysis.all_strings item.2 ∧
                 s = pre +:+ t +:+ post ∧
                 PyStr.all_space pre = true ∧ PyStr.all_space post = true)
    tokens ∧
  PyStr.strip (Analysis.item_text item.2) = Analysis.item_text item.2 ∧
  (Analysis.item_text item.2 = "" ↔ tokens = []).
Proof.
  intros Hitem tokens.
  assert (Soup.stripped_strings item.2 = tokens) as Htokens
    by apply stripped_strings_all_strings.
  pose proof (stripped_strings_tokens item.2) as Htok.
  destruct (join_stripped _ Htok) as [Hs Hne].
  unfold Analysis.item_text. rewrite Htokens in *.
  split_and!.
  - unfold Analysis.top_items, Soup.find_all_children in Hitem.
    by apply elem_of_list_filter in Hitem as [_ Hli].
  - done.
  - done.
  - apply stripped_strings_tag.
  - apply Forall_forall. intros t Ht.
    rewrite Forall_forall in Htok. destruct (Htok t Ht) as [Hst Hnt].
    split; [done|]. split; [done|].
    apply elem_of_list_filter in Ht as [Ht _].
    apply list_elem_of_fmap in Ht as (s & -> & Hin).
    destruct (strip_decompose s) as (pre & post & Hdec & Hpre & Hpost).
    by exists s, pre, post.
  - by apply stripped_strip.
  - split.
    + intros Hempty. destruct tokens; [done|]. by destruct Hne.
    + by intros ->.
Qed.

Lemma item_text_joins_stripped_tokens_witness :
  Analysis.item_text
    (Samples.el "li"
       [ Samples.txt " a  b "; Soup.NavigableString Soup.Special "note";
         Samples.el "style" [Soup.NavigableString Soup.Special "p{}"];
         Samples.el "b" [Samples.txt " c"] ])
  = "a  b c".
Proof.
  destruct (item_text_joins_stripped_tokens
              ([], Samples.list_with_special_strings)
              ([0], Samples.el "li"
                      [ Samples.txt " a  b ";
                        Soup.NavigableString Soup.Special "note";
                        Samples.el "style"
                          [Soup.NavigableString Soup.Special "p{}"];
                        Samples.el "b" [Samples.txt " c"] ]))
    as (_ & _ & Htext & _).
  - vm_compute. left.
  - etrans; [exact Htext|]. vm_compute. reflexivity.
Defined.

(** C5: in every run of the classifier an item whose text is empty is
    skipped and changes neither count, no record has an empty text, the
    records counted as atomic have no sub-bullets and those counted as
    compound have some, and the two counts are the lengths of the two
    lists of records, so that they add up to the number of records. *)
Theorem analyze_list_counts (list_root : option Soup.elem) (ty : string) :
  let r := Analysis.analyze_list list_root ty in
  Analysis.correct_count r = length (Analysis.correct r) ∧
  Analysis.incorrect_count r = length (Analysis.incorrect r) ∧
  Analysis.correct_count r + Analysis.incorrect_count r
    = length (Analysis.correct r ++ Analysis.incorrect r) ∧
  Forall (λ rec, Analysis.text rec ≠ "")
    (Analysis.correct r ++ Analysis.incorrect r) ∧
  Forall (λ rec, Analysis.has_sub_bullet rec = false) (Analysis.correct r) ∧
  Forall (λ rec, Analysis.has_sub_bullet rec = true) (Analysis.incorrect r) ∧
  (∀ res item, Analysis.item_text item.2 = "" →
     Analysis.analyze_item ty res item = res) ∧
  (∀ res items,
     fold_left (Analysis.analyze_item ty) items res
     = fold_left (Analysis.analyze_item ty)
         (List.filter Analysis.is_statement items) res).
Proof.
  intros r.
  assert (∀ items, Forall (λ rec, Analysis.text rec ≠ "")
                     (Analysis.statements_of ty items)) as Htext.
  { intros items. apply Forall_forall. intros rec Hrec.
    apply list_elem_of_fmap in Hrec as (item & -> & Hitem).
    apply elem_of_list_filter in Hitem as [_ Hitem].
    unfold Analysis.is_statement in Hitem. simpl.
    by destruct (Analysis.item_text item.2). }
  assert (∀ f (l : list Analysis.record),
            Forall (λ rec, f rec = true) (List.filter f l)) as Hflag.
  { intros f l. apply Forall_forall. intros rec Hrec.
    by apply elem_of_list_filter in Hrec as [_ Hrec]. }
  assert (∀ (l : list Analysis.record) f,
            Forall (λ rec, Analysis.text rec ≠ "") l →
            Forall (λ rec, Analysis.text rec ≠ "") (List.filter f l)) as Hsub.
  { intros l f Hl. apply Forall_forall. intros rec Hrec.
    apply elem_of_list_filter in Hrec as [Hrec _].
    by eapply Forall_forall in Hl. }
  assert (∀ items,
            let r := fold_left (Analysis.analyze_item ty) items
                       Analysis.empty_results in
            Analysis.correct_count r = length (Analysis.correct r) ∧
            Analysis.incorrect_count r = length (Analysis.incorrect r) ∧
            Forall (λ rec, Analysis.text rec ≠ "")
              (Analysis.correct r ++ Analysis.incorrect r) ∧
            Forall (λ rec, Analysis.has_sub_bullet rec = false)
              (Analysis.correct r) ∧
            Forall (λ rec, Analysis.has_sub_bullet rec = true)
              (Analysis.incorrect r)) as Hloop.
  { intros items. rewrite analyze_loop. simpl. repeat split.
    - apply Forall_app. split; by apply Hsub.
    - eapply Forall_impl; [apply (Hflag (λ rec, negb (Analysis.has_sub_bullet rec)))|].
      intros rec. simpl. by destruct (Analysis.has_sub_bullet rec).
    - apply Hflag. }
  assert (Analysis.correct_count r = length (Analysis.correct r) ∧
          Analysis.incorrect_count r = length (Analysis.incorrect r) ∧
          Forall (λ rec, Analysis.text rec ≠ "")
            (Analysis.correct r ++ Analysis.incorrect r) ∧
          Forall (λ rec, Analysis.has_sub_bullet rec = false)
            (Analysis.correct r) ∧
          Forall (λ rec, Analysis.has_sub_bullet rec = true)
            (Analysis.incorrect r)) as (Hc & Hi & Ht & Hf & Hg).
  { subst r. unfold Analysis.analyze_list.
    destruct list_root as [root|]; [|by repeat split].
    destruct (Analysis.resolve_list root) as [L|]; [|by repeat split].
    apply Hloop. }
  repeat split; try done.
  - rewrite length_app. lia.
  - intros res item Hempty. rewrite analyze_item_statement.
    unfold Analysis.is_statement. by rewrite Hempty.
  - intros res items. revert res.
    induction items as [|item items IH]; intros res; simpl; [done|].
    rewrite analyze_item_statement.
    destruct (Analysis.is_statement item) eqn:Hst; simpl; [|apply IH].
    rewrite IH. f_equal. rewrite analyze_item_statement. by rewrite Hst.
Qed.

Lemma analyze_list_counts_witness :
  Analysis.analyze_item "Inclusion" Analysis.empty_results
    ([1], Samples.el "li" [Samples.txt " "])
  = Analysis.empty_results.
Proof.
  destruct (analyze_list_counts None "Inclusion") as (_ & _ & _ & _ & _ & _ & H & _).
  apply H. vm_compute. reflexivity.
Defined.

(** ** Fetching with retries *)

Lemma is_Exception_all e : Py.is_Exception e = true.
Proof. by destruct e. Qed.

Lemma fetch_unroll repr net nct_id w :
  let n := Fetch.requests w in
  let a := λ k, Fetch.attempt repr (net nct_id (n + k)) in
  Fetch.fetch_eligibility_html repr net nct_id w =
  match a 0 with
  | Py.Ok html =>
      (Py.Ok (Some html),
       {| Fetch.requests := n + 1; Fetch.slept := Fetch.slept w |})
  | Py.Raise _ =>
      match a 1 with
      | Py.Ok html =>
          (Py.Ok (Some html),
           {| Fetch.requests := n + 2;
              Fetch.slept := Fetch.slept w ++ [800] |})
      | Py.Raise _ =>
          match a 2 with
          | Py.Ok html =>
              (Py.Ok (Some html),
               {| Fetch.requests := n + 3;
                  Fetch.slept := Fetch.slept w ++ [800; 1600] |})
          | Py.Raise _ =>
              (Py.Ok None,
               {| Fetch.requests := n + 3;
                  Fetch.slept := Fetch.slept w ++ [800; 1600; 2400] |})
          end
      end
  end.
Proof.
  intros n a. subst n a. unfold Fetch.fetch_eligibility_html. simpl.
  rewrite !Nat.add_0_r.
  replace (Fetch.requests w + 1) with (S (Fetch.requests w)) by lia.
  replace (Fetch.requests w + 2) with (S (S (Fetch.requests w))) by lia.
  replace (Fetch.requests w + 3) with (S (S (S (Fetch.requests w)))) by lia.
  repeat (case_match; simpl; rewrite ?is_Exception_all; try done).
  all: by rewrite <- ?app_assoc.
Qed.

Lemma attempt_missing_field repr ok items :
  Py.lookup_item "eligibilityCriteria" items = None ∨
  Py.lookup_item "eligibilityCriteria" items = Some Py.JNull ∨
  Py.lookup_item "eligibilityCriteria" items = Some (Py.JStr "") →
  ∃ e, Fetch.attempt repr
         (Py.Ok {| Fetch.status_ok := ok;
                   Fetch.body :=
                     Py.Ok (Fetch.payload_of_module (Py.JObj items)) |})
       = Py.Raise e.
Proof.
  intros Hit. destruct ok; [|by eauto].
  destruct items as [|it items]; [by eauto|].
  assert (Fetch.attempt repr
            (Py.Ok {| Fetch.status_ok := true;
                      Fetch.body :=
                        Py.Ok (Fetch.payload_of_module (Py.JObj (it :: items))) |})
          = match Py.lookup_item "eligibilityCriteria" (it :: items) with
            | Some x =>
                if negb (Py.truthy x)
                then Py.Raise (Py.RuntimeError "eligibilityCriteria missing/empty")
                else Py.Ok (Fetch.str repr x)
            | None =>
                Py.Raise (Py.RuntimeError "eligibilityCriteria missing/empty")
            end) as ->.
  { unfold Fetch.attempt, Fetch.payload_of_module, mbind, result_bind. simpl.
    destruct it as [k v]. by destruct (if bool_decide _ then _ else _). }
  destruct Hit as [Hit|[Hit|Hit]]; rewrite Hit; simpl; eauto.
Qed.

(** C6: for every identifier and every behaviour of the remote end, the
    fetch makes at most MAX_RETRIES = 3 attempts and stops at the first one
    that succeeds; after the failed attempt number k it sleeps k times the
    base delay (800 ms), a delay that grows with k; a payload whose
    eligibilityCriteria field is missing, null or empty makes the attempt
    fail; when all three attempts fail the caller gets None; and in every
    case the call returns, it never raises.  When both strategies of
    process_single give no page, its result is the fetch_failed row. *)
Theorem fetch_eligibility_html_retries
    (repr : Py.json → string) (net : Fetch.network) (nct_id : string)
    (w : Fetch.world) :
  let n := Fetch.requests w in
  let a := λ k, Fetch.attempt repr (net nct_id (n + k)) in
  let out := Fetch.fetch_eligibility_html repr net nct_id w in
  (∃ v, out.1 = Py.Ok v) ∧
  Fetch.requests out.2 ≤ n + Fetch.MAX_RETRIES ∧
  (∀ html, a 0 = Py.Ok html →
     out = (Py.Ok (Some html),
            {| Fetch.requests := n + 1; Fetch.slept := Fetch.slept w |})) ∧
  (∀ e0 html, a 0 = Py.Raise e0 → a 1 = Py.Ok html →
     out = (Py.Ok (Some html),
            {| Fetch.requests := n + 2;
               Fetch.slept := Fetch.slept w ++ [800] |})) ∧
  (∀ e0 e1 html, a 0 = Py.Raise e0 → a 1 = Py.Raise e1 → a 2 = Py.Ok html →
     out = (Py.Ok (Some html),
            {| Fetch.requests := n + 3;
               Fetch.slept := Fetch.slept w ++ [800; 1600] |})) ∧
  (∀ e0 e1 e2, a 0 = Py.Raise e0 → a 1 = Py.Raise e1 → a 2 = Py.Raise e2 →
     out = (Py.Ok None,
            {| Fetch.requests := n + 3;
               Fetch.slept := Fetch.slept w ++ [800; 1600; 2400] |})) ∧
  (∀ k, Fetch.delay_ms k = k * 800 ∧ Fetch.delay_ms k < Fetch.delay_ms (S k)) ∧
  (∀ ok items,
     Py.lookup_item "eligibilityCriteria" items = None ∨
     Py.lookup_item "eligibilityCriteria" items = Some Py.JNull ∨
     Py.lookup_item "eligibilityCriteria" items = Some (Py.JStr "") →
     ∃ e, Fetch.attempt repr
            (Py.Ok {| Fetch.status_ok := ok;
                      Fetch.body :=
                        Py.Ok (Fetch.payload_of_module (Py.JObj items)) |})
          = Py.Raise e) ∧
  (∀ fetch_via_api fetch_page find_section extract write json_data sd isr,
     fetch_via_api nct_id = Py.Ok None → fetch_page nct_id = Py.Ok None →
     Compare.process_single fetch_via_api fetch_page find_section extract
       write json_data nct_id sd isr
     = Py.Ok {| Compare.r_nctId := nct_id; Compare.status := "fetch_failed";
                Compare.site_docs := 0;
                Compare.json_docs :=
                  length (Compare.json_recs_of json_data nct_id);
                Compare.missing_in_json := 0; Compare.missing_on_site := 0;
                Compare.site_records := None |}).
Proof.
  intros n a out. subst out a n. rewrite fetch_unroll. cbv beta zeta.
  split_and!.
  - repeat case_match; simpl; eauto.
  - unfold Fetch.MAX_RETRIES. repeat case_match; simpl; lia.
  - by intros html ->.
  - by intros e0 html -> ->.
  - by intros e0 e1 html -> -> ->.
  - by intros e0 e1 e2 -> -> ->.
  - intros k. unfold Fetch.delay_ms. lia.
  - apply attempt_missing_field.
  - intros fva fp fs ex wr jd sd isr Hapi Hpage.
    unfold Compare.process_single. rewrite Hapi. cbn. rewrite Hpage. done.
Qed.

Lemma fetch_eligibility_html_retries_witness :
  Fetch.fetch_eligibility_html (λ _, "") Fetch.always_down "NCT00000001"
    {| Fetch.requests := 0; Fetch.slept := [] |}
  = (Py.Ok None, {| Fetch.requests := 3; Fetch.slept := [800; 1600; 2400] |}).
Proof.
  destruct (fetch_eligibility_html_retries (λ _, "") Fetch.always_down
              "NCT00000001" {| Fetch.requests := 0; Fetch.slept := [] |})
    as (_ & _ & _ & _ & _ & H & _).
  exact (H (Py.RequestException "connection refused")
           (Py.RequestException "connection refused")
           (Py.RequestException "connection refused")
           eq_refl eq_refl eq_refl).
Defined.

(** ** The batch loops *)

Section BatchLoops.
Import Py.
Variable fetch_via_api : string → result (option Soup.node).
Variable fetch_page : string → result (option Soup.node).
Variable find_section : Soup.node → result (option Soup.node).
Variable extract_all_content_from_section :
  Soup.node → string → result (list Compare.bullet).
Variable write_details :
  string → list Compare.bullet → list Compare.bullet → list Compare.bullet
  → result unit.
Variable json_data : list Compare.bullet.
Variable save_details : bool.
Variable load_page : string → result Soup.node.

#[local] Abbreviation process_single :=
  (Compare.process_single fetch_via_api fetch_page find_section
     extract_all_content_from_section write_details json_data).
#[local] Abbreviation row_of :=
  (Compare.row_of fetch_via_api fetch_page find_section
     extract_all_content_from_section write_details json_data save_details).
#[local] Abbreviation site_records_of :=
  (Compare.site_records_of fetch_via_api fetch_page find_section
     extract_all_content_from_section write_details json_data save_details).
#[local] Abbreviation compare_main :=
  (Compare.main fetch_via_api fetch_page find_section
     extract_all_content_from_section write_details json_data save_details).
#[local] Abbreviation collect :=
  (Compare.collect fetch_via_api fetch_page find_section
     extract_all_content_from_section write_details json_data save_details).

Lemma process_single_row nct sd isr res :
  process_single nct sd isr = Ok res →
  Compare.r_nctId res = nct ∧
  (Compare.status res = "ok" ∨ Compare.status res = "fetch_failed").
Proof.
  unfold Compare.process_single, mbind, result_bind, bind.
  repeat (case_match; try done); intros [= <-]; simpl; auto.
Qed.

Lemma row_of_nctId nct : Compare.r_nctId (row_of nct) = nct.
Proof.
  unfold Compare.row_of, Compare.future_result.
  destruct (process_single nct save_details true) as [res|e] eqn:Hres; [|done].
  by apply process_single_row in Hres as [? _].
Qed.

Lemma row_of_status nct :
  Compare.status (row_of nct) = "ok" ∨
  Compare.status (row_of nct) = "fetch_failed" ∨
  ∃ e, Compare.status (row_of nct) = "error: " +:+ exn_str e.
Proof.
  unfold Compare.row_of, Compare.future_result.
  destruct (process_single nct save_details true) as [res|e] eqn:Hres.
  - apply process_single_row in Hres as [_ [?|?]]; auto.
  - right. right. by exists e.
Qed.

Lemma collect_loop completed : ∀ results combined,
  foldl collect (results, combined) completed
  = (results ++ (row_of <$> completed),
     combined ++ (completed ≫= site_records_of)).
Proof.
  induction completed as [|nct completed IH]; intros results combined; simpl.
  - by rewrite !app_nil_r.
  - unfold Compare.site_records_of, Compare.row_of.
    destruct (Compare.future_result _ _ _ _ _ _ _ nct) as [res|e]; simpl.
    + rewrite IH. rewrite <- !app_assoc. simpl.
      destruct (Compare.site_records res); simpl; by rewrite <- ?app_assoc.
    + rewrite IH. by rewrite <- !app_assoc.
Qed.

Lemma compare_main_rows completed :
  compare_main completed
  = (row_of <$> completed, completed ≫= site_records_of).
Proof. unfold Compare.main. by rewrite collect_loop. Qed.

Lemma entry_of_rows completed nct :
  Compare.entry_of (row_of <$> completed) nct
  = if bool_decide (nct ∈ completed) then Some (row_of nct) else None.
Proof.
  unfold Compare.entry_of.
  induction completed as [|x completed IH]; csimpl.
  - done.
  - rewrite row_of_nctId. destruct (decide (x = nct)) as [->|Hne].
    + rewrite (bool_decide_eq_true_2 (nct = nct)) by done. simpl.
      by rewrite bool_decide_eq_true_2 by left.
    + rewrite (bool_decide_eq_false_2 (x = nct)) by done. rewrite IH.
      destruct (decide (nct ∈ completed)) as [Hin|Hin].
      * rewrite (bool_decide_eq_true_2 (nct ∈ completed)) by done.
        by rewrite bool_decide_eq_true_2 by (by right).
      * rewrite (bool_decide_eq_false_2 (nct ∈ completed)) by done.
        rewrite bool_decide_eq_false_2; [done|].
        intros [?|?]%elem_of_cons; congruence.
Qed.

Lemma fetch_and_analyze_returns nct :
  ∃ v, CheckerBatch.fetch_and_analyze_nct load_page nct = Ok v.
Proof.
  unfold CheckerBatch.fetch_and_analyze_nct, mbind, result_bind, bind.
  destruct (load_page nct) as [soup|e].
  - repeat case_match; eauto.
  - rewrite is_Exception_all. eauto.
Qed.

Lemma checker_main_loop nct_ids : ∀ rows inc,
  CheckerBatch.main_loop load_page nct_ids rows inc
  = Ok (rows ++ omap (CheckerBatch.row_for load_page) nct_ids,
        inc ++ (nct_ids ≫= CheckerBatch.incorrect_for load_page)).
Proof.
  induction nct_ids as [|nct nct_ids IH]; intros rows inc; simpl.
  - by rewrite !app_nil_r.
  - unfold CheckerBatch.row_for, CheckerBatch.incorrect_for.
    destruct (fetch_and_analyze_returns nct) as [v ->].
    unfold mbind at 1, result_bind, bind.
    destruct v as [[inc_res exc_res]|]; simpl.
    + rewrite IH. by rewrite <- !app_assoc.
    + by rewrite IH.
Qed.

Lemma omap_row_for_nctId nct_ids :
  CheckerBatch.nctId <$> omap (CheckerBatch.row_for load_page) nct_ids
  = List.filter (CheckerBatch.succeeded load_page) nct_ids.
Proof.
  induction nct_ids as [|nct nct_ids IH]; csimpl; [done|].
  unfold CheckerBatch.row_for at 1, CheckerBatch.succeeded at 1.
  destruct (CheckerBatch.fetch_and_analyze_nct load_page nct)
    as [[[inc_res exc_res]|]|e]; csimpl; by rewrite ?IH.
Qed.

Variable outcome : Type.
Variable fetch_secondary_outcomes_direct : string → result (list outcome).

#[local] Abbreviation secondary_main :=
  (Secondary.main outcome fetch_secondary_outcomes_direct).

Lemma secondary_loop completed : ∀ st,
  foldl (Secondary.collect outcome fetch_secondary_outcomes_direct) st completed
  = {| Secondary.all_outcomes :=
         Secondary.all_outcomes _ st ++
         (completed ≫= Secondary.outcomes_of outcome fetch_secondary_outcomes_direct);
       Secondary.failed_nct_ids :=
         Secondary.failed_nct_ids _ st ++
         List.filter (Secondary.is_failed outcome fetch_secondary_outcomes_direct)
           completed;
       Secondary.processed_count :=
         Secondary.processed_count _ st + length completed |}.
Proof.
  induction completed as [|nct completed IH]; intros st; csimpl.
  - destruct st. simpl. by rewrite !app_nil_r, Nat.add_0_r.
  - rewrite IH. unfold Secondary.collect, Secondary.outcomes_of,
      Secondary.is_failed.
    destruct (Secondary.process_nct_id outcome _ nct) as [[|o os]|e]; simpl;
      rewrite <- ?app_assoc; simpl; f_equal; lia.
Qed.

(** C7, as stated, fails for the sequential batch of the checker: an
    identifier whose page cannot be loaded, or whose page has no criteria
    block, gets no row at all in the report. *)
Lemma checker_batch_drops_failed_identifier :
  CheckerBatch.main Samples.browser_down ["NCT00000001"] = Ok ([], []) ∧
  CheckerBatch.main (λ _, Ok Samples.page_without_criteria) ["NCT00000001"]
    = Ok ([], []).
Proof. split; vm_compute; reflexivity. Qed.

(** C7 (amended): in the pooled comparison the final results hold exactly
    one entry per dispatched identifier, with status ok, fetch_failed or
    error, each entry fixed by the task of its own identifier alone, so
    that a failing task aborts neither the others nor the pool.  In the
    sequential batch of the checker a failing identifier does not abort the
    run either, but the report has a row only for the identifiers that
    were processed successfully; the failed ones are skipped. *)
Theorem batch_one_entry_per_identifier
    (dispatched completed nct_ids : list string) :
  completed ≡ₚ dispatched →
  let results := (compare_main completed).1 in
  Compare.r_nctId <$> results = completed ∧
  Compare.r_nctId <$> results ≡ₚ dispatched ∧
  results = row_of <$> completed ∧
  Forall (λ r, Compare.status r = "ok" ∨ Compare.status r = "fetch_failed" ∨
               ∃ e, Compare.status r = "error: " +:+ exn_str e) results ∧
  ∃ rows incorrect_rows,
    CheckerBatch.main load_page nct_ids = Ok (rows, incorrect_rows) ∧
    CheckerBatch.nctId <$> rows
      = List.filter (CheckerBatch.succeeded load_page) nct_ids.
Proof.
  intros Hperm results. subst results. rewrite compare_main_rows. simpl.
  assert (Compare.r_nctId <$> (row_of <$> completed) = completed) as Hids.
  { rewrite <- list_fmap_compose. rewrite <- (list_fmap_id completed) at 2.
    apply list_fmap_ext. intros _ nct _. apply row_of_nctId. }
  split_and!; try done.
  - by rewrite Hids.
  - apply Forall_fmap, Forall_forall. intros nct _. apply row_of_status.
  - unfold CheckerBatch.main. rewrite checker_main_loop. simpl.
    eexists _, _. split; [done|]. apply omap_row_for_nctId.
Qed.

(** C8: two pooled runs over the same identifiers whose tasks complete in
    different orders end with the same report read by identifier: the
    entry of every identifier is the same, the rows and the combined
    records are the same up to their order in the list, which follows the
    completion order, and the totals are equal; likewise for the pooled
    extraction of secondary outcomes and for the sums of the checker. *)
Theorem batch_report_order_independent (c1 c2 : list string) :
  c1 ≡ₚ c2 →
  (∀ nct, Compare.entry_of (compare_main c1).1 nct
          = Compare.entry_of (compare_main c2).1 nct) ∧
  (compare_main c1).1 ≡ₚ (compare_main c2).1 ∧
  (compare_main c1).2 ≡ₚ (compare_main c2).2 ∧
  Secondary.all_outcomes _ (secondary_main c1)
    ≡ₚ Secondary.all_outcomes _ (secondary_main c2) ∧
  Secondary.failed_nct_ids _ (secondary_main c1)
    ≡ₚ Secondary.failed_nct_ids _ (secondary_main c2) ∧
  Secondary.totals _ (secondary_main c1) = Secondary.totals _ (secondary_main c2) ∧
  ∃ rows1 inc1 rows2 inc2,
    CheckerBatch.main load_page c1 = Ok (rows1, inc1) ∧
    CheckerBatch.main load_page c2 = Ok (rows2, inc2) ∧
    rows1 ≡ₚ rows2 ∧ inc1 ≡ₚ inc2 ∧
    CheckerBatch.totals rows1 = CheckerBatch.totals rows2.
Proof.
  intros Hperm. rewrite !compare_main_rows. simpl.
  unfold Secondary.main. rewrite !secondary_loop. simpl.
  assert (∀ (f : string → bool), List.filter f c1 ≡ₚ List.filter f c2) as Hfilter.
  { intros f. induction Hperm as [|x l l' _ IH|x y l|l l' l'' _ IH1 _ IH2]; simpl.
    - done.
    - destruct (f x); by rewrite IH.
    - destruct (f x), (f y); try done. apply perm_swap.
    - by etrans. }
  split_and!.
  - intros nct. rewrite !entry_of_rows.
    destruct (decide (nct ∈ c1)) as [Hin|Hin].
    + rewrite !bool_decide_eq_true_2; [done| |done]. by rewrite <- Hperm.
    + rewrite !bool_decide_eq_false_2; [done| |done]. by rewrite <- Hperm.
  - by rewrite Hperm.
  - by rewrite Hperm.
  - by rewrite Hperm.
  - apply Hfilter.
  - unfold Secondary.totals. simpl. f_equal; [f_equal|].
    + by rewrite (Permutation_length Hperm).
    + apply Permutation_length. by rewrite Hperm.
    + apply Permutation_length, Hfilter.
  - unfold CheckerBatch.main. rewrite !checker_main_loop. simpl.
    eexists _, _, _, _. split; [done|]. split; [done|].
    assert (omap (CheckerBatch.row_for load_page) c1
            ≡ₚ omap (CheckerBatch.row_for load_page) c2) as Hrows
      by (by rewrite Hperm).
    split; [done|]. split; [by rewrite Hperm|].
    unfold CheckerBatch.totals. f_equal; [f_equal|];
      apply sum_list_with_Permutation_proper; by rewrite Hrows.
Qed.

End BatchLoops.

Lemma batch_one_entry_per_identifier_witness :
  Compare.r_nctId <$>
    (Compare.main Samples.no_page Samples.no_page Samples.no_section
       Samples.no_content Samples.no_write [] false
       ["NCT00000002"; "NCT00000001"]).1
  ≡ₚ ["NCT00000001"; "NCT00000002"].
Proof.
  destruct (batch_one_entry_per_identifier
              Samples.no_page Samples.no_page Samples.no_section
              Samples.no_content Samples.no_write [] false
              Samples.browser_down
              ["NCT00000001"; "NCT00000002"] ["NCT00000002"; "NCT00000001"] []
              (perm_swap _ _ _)) as (_ & H & _).
  exact H.
Defined.

Lemma batch_report_order_independent_witness :
  Compare.entry_of
    (Compare.main Samples.no_page Samples.no_page Samples.no_section
       Samples.no_content Samples.no_write [] false
       ["NCT00000002"; "NCT00000001"]).1 "NCT00000001"
  = Compare.entry_of
      (Compare.main Samples.no_page Samples.no_page Samples.no_section
         Samples.no_content Samples.no_write [] false
         ["NCT00000001"; "NCT00000002"]).1 "NCT00000001".
Proof.
  destruct (batch_report_order_independent
              Samples.no_page Samples.no_page Samples.no_section
              Samples.no_content Samples.no_write [] false
              Samples.browser_down unit (λ _, Py.Ok [])
              ["NCT00000002"; "NCT00000001"] ["NCT00000001"; "NCT00000002"]
              (perm_swap _ _ _)) as (H & _).
  exact (H "NCT00000001").
Defined.

(** ** Comparing two sets of statements *)

Lemma by_norm_lookup recs : ∀ (m : gmap string Compare.bullet) k r,
  foldl (λ m r, <[Compare.norm r := r]> m) m recs !! k = Some r →
  (r ∈ recs ∧ Compare.norm r = k) ∨ m !! k = Some r.
Proof.
  induction recs as [|x recs IH]; intros m k r Hr; simpl in Hr; [by right|].
  apply IH in Hr as [[Hin Hk]|Hr].
  - left. split; [by right|done].
  - destruct (decide (Compare.norm x = k)) as [<-|Hne].
    + rewrite lookup_insert_eq in Hr. injection Hr as ->. left. split; [left|done].
    + rewrite lookup_insert_ne in Hr by done. by right.
Qed.

Lemma by_norm_is_Some recs : ∀ (m : gmap string Compare.bullet) k,
  k ∈ Compare.norm <$> recs ∨ is_Some (m !! k) →
  is_Some (foldl (λ m r, <[Compare.norm r := r]> m) m recs !! k).
Proof.
  induction recs as [|x recs IH]; intros m k Hk; simpl.
  - destruct Hk as [Hk|Hk]; [by apply elem_of_nil in Hk|done].
  - apply IH. destruct Hk as [Hk|Hk].
    + rewrite fmap_cons in Hk. apply elem_of_cons in Hk as [->|Hk]; [|by left].
      right. rewrite lookup_insert_eq. by eexists.
    + right. destruct (decide (Compare.norm x = k)) as [<-|Hne].
      * rewrite lookup_insert_eq. by eexists.
      * by rewrite lookup_insert_ne.
Qed.

(** Looking the keys of a set of the records' own keys up in the map gives
    one record per key, with that key. *)
Lemma by_norm_omap recs (keys : list string) :
  Forall (λ k, k ∈ Compare.norm <$> recs) keys →
  Compare.norm <$> omap (λ k, Compare.by_norm recs !! k) keys = keys ∧
  ∀ r, r ∈ omap (λ k, Compare.by_norm recs !! k) keys → r ∈ recs.
Proof.
  induction 1 as [|k keys Hk _ [IH1 IH2]]; csimpl.
  - split; [done|]. intros r Hr. by apply elem_of_nil in Hr.
  - assert (∃ r, Compare.by_norm recs !! k = Some r) as [r Hr].
    { destruct (by_norm_is_Some recs ∅ k (or_introl Hk)) as [r Hr]. by exists r. }
    rewrite Hr. csimpl.
    apply by_norm_lookup in Hr as [[Hin Hnorm]|Hr]; [|by rewrite lookup_empty in Hr].
    split; [by rewrite Hnorm, IH1|].
    intros r' [->|Hr']%elem_of_cons; [done|by apply IH2].
Qed.

(** C9: the comparator keys every record on its statement stripped and
    lowercased; the first list holds one record of A for each key of A that
    is no key of B, the second one record of B for each key of B that is no
    key of A, so the two lists share no key (a statement whose key occurs in
    both inputs is in neither); the counts are the lengths of A and B.  The
    function only reads its inputs. *)
Theorem compare_sets_difference (site_recs json_recs : list Compare.bullet) :
  let '(site_count, json_count, missing_in_json_list, missing_on_site_list) :=
    Compare.compare_sets site_recs json_recs in
  (∀ r, Compare.norm r = PyStr.lower (PyStr.strip (Compare.statement r))) ∧
  site_count = length site_recs ∧ json_count = length json_recs ∧
  (∀ k, k ∈ (Compare.norm <$> missing_in_json_list) ↔
        k ∈ (Compare.norm <$> site_recs) ∧ k ∉ (Compare.norm <$> json_recs)) ∧
  (∀ k, k ∈ (Compare.norm <$> missing_on_site_list) ↔
        k ∈ (Compare.norm <$> json_recs) ∧ k ∉ (Compare.norm <$> site_recs)) ∧
  NoDup ((Compare.norm <$> missing_in_json_list)) ∧ NoDup ((Compare.norm <$> missing_on_site_list)) ∧
  (∀ r, r ∈ missing_in_json_list → r ∈ site_recs) ∧
  (∀ r, r ∈ missing_on_site_list → r ∈ json_recs) ∧
  (∀ r1 r2, r1 ∈ missing_in_json_list → r2 ∈ missing_on_site_list →
            Compare.norm r1 ≠ Compare.norm r2) ∧
  (∀ r, Compare.norm r ∈ (Compare.norm <$> site_recs) →
        Compare.norm r ∈ (Compare.norm <$> json_recs) →
        (r ∉ missing_in_json_list) ∧ (r ∉ missing_on_site_list)).
Proof.
  unfold Compare.compare_sets.
  set (site_set := list_to_set (Compare.norm <$> site_recs) : gset string).
  set (json_set := list_to_set (Compare.norm <$> json_recs) : gset string).
  assert (Forall (λ k, k ∈ Compare.norm <$> site_recs)
            (elements (site_set ∖ json_set))) as Hs.
  { apply Forall_forall. intros k Hk.
    apply elem_of_elements, elem_of_difference in Hk as [Hk _].
    by apply elem_of_list_to_set in Hk. }
  assert (Forall (λ k, k ∈ Compare.norm <$> json_recs)
            (elements (json_set ∖ site_set))) as Hj.
  { apply Forall_forall. intros k Hk.
    apply elem_of_elements, elem_of_difference in Hk as [Hk _].
    by apply elem_of_list_to_set in Hk. }
  destruct (by_norm_omap _ _ Hs) as [Hs1 Hs2].
  destruct (by_norm_omap _ _ Hj) as [Hj1 Hj2].
  assert (∀ k, k ∈ elements (site_set ∖ json_set) ↔
               k ∈ Compare.norm <$> site_recs ∧ k ∉ Compare.norm <$> json_recs)
    as Hel1.
  { intros k. subst site_set json_set.
    by rewrite elem_of_elements, elem_of_difference, !elem_of_list_to_set. }
  assert (∀ k, k ∈ elements (json_set ∖ site_set) ↔
               k ∈ Compare.norm <$> json_recs ∧ k ∉ Compare.norm <$> site_recs)
    as Hel2.
  { intros k. subst site_set json_set.
    by rewrite elem_of_elements, elem_of_difference, !elem_of_list_to_set. }
  cbv zeta. rewrite Hs1, Hj1. split_and!; try done.
  - apply NoDup_elements.
  - apply NoDup_elements.
  - intros r1 r2 Hr1 Hr2 Heq.
    assert (Compare.norm r1 ∈ elements (site_set ∖ json_set)) as H1.
    { rewrite <- Hs1. by apply list_elem_of_fmap_2. }
    assert (Compare.norm r2 ∈ elements (json_set ∖ site_set)) as H2.
    { rewrite <- Hj1. by apply list_elem_of_fmap_2. }
    apply Hel1 in H1 as [H1 _]. apply Hel2 in H2 as [_ H2]. congruence.
  - intros r HA HB. split; intros Hr.
    + assert (Compare.norm r ∈ elements (site_set ∖ json_set)) as H1.
      { rewrite <- Hs1. by apply list_elem_of_fmap_2. }
      by apply Hel1 in H1 as [_ H1].
    + assert (Compare.norm r ∈ elements (json_set ∖ site_set)) as H2.
      { rewrite <- Hj1. by apply list_elem_of_fmap_2. }
      by apply Hel2 in H2 as [_ H2].
Qed.

Lemma compare_sets_difference_witness :
  Compare.statement <$>
    (Compare.compare_sets Samples.site_bullets Samples.json_bullets).1.2
  = ["Consent"] ∧
  ∀ r, r ∈ (Compare.compare_sets Samples.site_bullets Samples.json_bullets).1.2 →
       r ∈ Samples.site_bullets.
Proof.
  split; [vm_compute; reflexivity|].
  pose proof (compare_sets_difference Samples.site_bullets Samples.json_bullets)
    as H.
  destruct (Compare.compare_sets Samples.site_bullets Samples.json_bullets)
    as [[[n1 n2] l1] l2].
  destruct H as (_ & _ & _ & _ & _ & _ & _ & H & _). exact H.
Defined.

(** ** Further properties of the locator *)

Lemma first_list_Some sibs e :
  Checker.first_list sibs = Some e → e ∈ sibs ∧ Soup.is_list e.2 = true.
Proof.
  induction sibs as [|s sibs IH]; simpl; [done|].
  destruct (Soup.is_list s.2) eqn:Hs.
  - intros [= <-]. split; [left|done].
  - intros He. destruct (IH He) as [Hin Hl]. split; [by right|done].
Qed.

Lemma find_all_lookup f e k d :
  Soup.find_all f e !! k = Some d →
  d ∈ Soup.descendants e.1 e.2 ∧ f d.2 = true.
Proof.
  intros Hk. apply list_elem_of_lookup_2 in Hk.
  by apply elem_of_list_filter in Hk.
Qed.

Lemma find_Some f e d :
  Soup.find f e = Some d → d ∈ Soup.descendants e.1 e.2 ∧ f d.2 = true.
Proof.
  unfold Soup.find. rewrite <- lookup_0_head. apply find_all_lookup.
Qed.

Lemma get_app n p1 p2 m :
  Soup.get n p1 = Some m → Soup.get n (p1 ++ p2) = Soup.get m p2.
Proof.
  revert n. induction p1 as [|i p1 IH]; intros n; simpl.
  - by intros [= ->].
  - destruct (Soup.contents_of n !! i) as [c|]; [apply IH|done].
Qed.

(** A descendant of an element of the document is an element of the
    document. *)
Lemma descendants_resolve_below doc (e d : Soup.elem) :
  Soup.resolve doc e.1 = Some e.2 →
  d ∈ Soup.descendants e.1 e.2 → Soup.resolve doc d.1 = Some d.2.
Proof.
  intros He Hd. destruct (descendants_get _ _ _ Hd) as (l & Hl & Hg).
  destruct d as [dp dn]. simpl in *. subst dp.
  unfold Soup.resolve in *. rewrite rev_app_distr.
  by rewrite (get_app _ _ _ _ He).
Qed.

Lemma next_siblings_resolve doc (e d : Soup.elem) :
  d ∈ Soup.next_siblings doc e → Soup.resolve doc d.1 = Some d.2.
Proof.
  unfold Soup.next_siblings. destruct e.1 as [|i q]; [by intros ?%elem_of_nil|].
  destruct (Soup.resolve doc q) as [parent|] eqn:Hq; [|by intros ?%elem_of_nil].
  intros Hd. apply list_elem_of_lookup in Hd as [k Hk].
  rewrite lookup_drop in Hk.
  apply list_lookup_imap_Some in Hk as (c & Hc & ->). simpl.
  unfold Soup.resolve in *. simpl. rewrite (get_app _ _ _ _ Hq).
  simpl in *. by rewrite Hc.
Qed.

Lemma search_root_resolve doc :
  Soup.resolve doc (Checker.search_root_of doc).1
  = Some (Checker.search_root_of doc).2.
Proof.
  unfold Checker.search_root_of.
  destruct (Soup.find _ _) as [d|] eqn:Hd; [|done].
  apply find_Some in Hd as [Hd _]. by apply descendants_resolve.
Qed.

Lemma checker_heading_tier_root doc pattern e :
  Checker.heading_tier doc pattern = Some e →
  Soup.resolve doc e.1 = Some e.2 ∧ Soup.is_list e.2 = true.
Proof.
  unfold Checker.heading_tier, Checker._find_list_after_heading.
  destruct (Soup.find _ _) as [h|]; [|done].
  intros [He Hl]%first_list_Some. split; [|done].
  apply elem_of_list_filter in He as [He _].
  by eapply next_siblings_resolve.
Qed.

Lemma api_heading_tier_root soup pattern e :
  Api.heading_tier soup pattern = Some e →
  Soup.resolve soup e.1 = Some e.2 ∧ Soup.is_list e.2 = true.
Proof.
  unfold Api.heading_tier, Api._find_list_after_heading.
  destruct (Soup.find _ _) as [h|]; [|done].
  destruct h.2 as [? [|]|]; try done;
    (destruct (Soup.parent soup h) as [par|]; [|done]);
    intros [He Hl]%first_list_Some; (split; [|done]);
    apply elem_of_list_filter in He as [He _];
    by eapply next_siblings_resolve.
Qed.

Lemma container_tier_root doc id e :
  Checker.container_tier doc id = Some e →
  Soup.resolve doc e.1 = Some e.2 ∧
  (Soup.is_list e.2 = true ∨
   (Soup.div_with_id id e.2 = true ∧ Soup.find Soup.is_list e = None)).
Proof.
  unfold Checker.container_tier, Checker._container_list.
  destruct (Soup.find (Soup.div_with_id id) _) as [div|] eqn:Hdiv; [|done].
  apply find_Some in Hdiv as [Hdiv Hid]. simpl in Hdiv.
  pose proof (descendants_resolve _ _ Hdiv) as Hres.
  destruct (Soup.find Soup.is_list div) as [l|] eqn:Hl; intros [= <-].
  - apply find_Some in Hl as [Hl Hlist]. split; [|by left].
    by eapply descendants_resolve_below.
  - split; [done|]. right. done.
Qed.

Lemma positional_tier_root doc k e :
  Checker.positional_tier doc k = Some e →
  Soup.resolve doc e.1 = Some e.2 ∧ Soup.is_list e.2 = true.
Proof.
  unfold Checker.positional_tier. intros [Hd Hl]%find_all_lookup.
  split; [|done]. eapply descendants_resolve_below; [|done].
  apply search_root_resolve.
Qed.

Lemma api_positional_tier_root soup k e :
  Api.positional_tier soup k = Some e →
  Soup.resolve soup e.1 = Some e.2 ∧ Soup.is_list e.2 = true.
Proof.
  unfold Api.positional_tier. intros [Hd Hl]%find_all_lookup.
  split; [|done]. by apply descendants_resolve.
Qed.

(** X1: every root that either locator returns is an element of the
    document it was given: its position leads to its node. *)
Theorem locator_roots_are_in_document (doc : Soup.node) (e : Soup.elem) :
  (Checker.find_inclusion_exclusion_lists doc).1 = Some e ∨
  (Checker.find_inclusion_exclusion_lists doc).2 = Some e ∨
  (Api.find_inclusion_exclusion_lists_from_html doc).1 = Some e ∨
  (Api.find_inclusion_exclusion_lists_from_html doc).2 = Some e →
  Soup.resolve doc e.1 = Some e.2.
Proof.
  rewrite checker_locator_first_match, api_locator_first_match. simpl.
  intros [H|[H|[H|H]]]; repeat case_match; simplify_eq;
    first [ by eapply checker_heading_tier_root
          | by eapply container_tier_root
          | by eapply positional_tier_root
          | by eapply api_heading_tier_root
          | by eapply api_positional_tier_root ].
Qed.

Lemma locator_roots_are_in_document_witness :
  Soup.resolve Samples.two_lists_no_heading [2]
  = Some (Samples.el "ul" [Samples.el "li" [Samples.txt "b"]]).
Proof.
  apply (locator_roots_are_in_document Samples.two_lists_no_heading
           ([2], Samples.el "ul" [Samples.el "li" [Samples.txt "b"]])).
  right. left. vm_compute. reflexivity.
Defined.

(** X2: the API locator returns only "ol" or "ul" tags; the checker's
    locator returns an "ol" or "ul" tag or, from the legacy tier alone, the
    div with the section's id when that div has no list below it. *)
Theorem locator_roots_are_lists (doc : Soup.node) (e : Soup.elem) :
  ((Api.find_inclusion_exclusion_lists_from_html doc).1 = Some e ∨
   (Api.find_inclusion_exclusion_lists_from_html doc).2 = Some e →
   Soup.is_list e.2 = true) ∧
  ((Checker.find_inclusion_exclusion_lists doc).1 = Some e →
   Soup.is_list e.2 = true ∨
   (Soup.div_with_id Checker.incl_id e.2 = true ∧
    Soup.find Soup.is_list e = None)) ∧
  ((Checker.find_inclusion_exclusion_lists doc).2 = Some e →
   Soup.is_list e.2 = true ∨
   (Soup.div_with_id Checker.excl_id e.2 = true ∧
    Soup.find Soup.is_list e = None)).
Proof.
  rewrite checker_locator_first_match, api_locator_first_match. simpl.
  split_and!.
  - intros [H|H]; repeat case_match; simplify_eq;
      first [ by eapply api_heading_tier_root
            | by eapply api_positional_tier_root ].
  - intros H; repeat case_match; simplify_eq;
      first [ left; by eapply checker_heading_tier_root
            | by eapply container_tier_root
            | left; by eapply positional_tier_root ].
  - intros H; repeat case_match; simplify_eq;
      first [ left; by eapply checker_heading_tier_root
            | by eapply container_tier_root
            | left; by eapply positional_tier_root ].
Qed.

Lemma locator_roots_are_lists_witness :
  Soup.is_list (Samples.el "ol" [Samples.el "li" [Samples.txt "a"]]) = true.
Proof.
  destruct (locator_roots_are_lists Samples.two_lists_no_heading
              ([1], Samples.el "ol" [Samples.el "li" [Samples.txt "a"]]))
    as (H & _).
  apply H. left. vm_compute. reflexivity.
Defined.
(** ** Further properties of the reports *)

Lemma analyze_list_count_lengths list_root ty :
  Analysis.correct_count (Analysis.analyze_list list_root ty)
    = length (Analysis.correct (Analysis.analyze_list list_root ty)) ∧
  Analysis.incorrect_count (Analysis.analyze_list list_root ty)
    = length (Analysis.incorrect (Analysis.analyze_list list_root ty)).
Proof.
  unfold Analysis.analyze_list.
  destruct list_root as [root|]; [|done].
  destruct (Analysis.resolve_list root) as [L|]; [|done].
  by rewrite analyze_loop.
Qed.

Lemma fetch_and_analyze_counts load_page nct inc_res exc_res :
  CheckerBatch.fetch_and_analyze_nct load_page nct
    = Py.Ok (Some (inc_res, exc_res)) →
  Analysis.incorrect_count inc_res = length (Analysis.incorrect inc_res) ∧
  Analysis.incorrect_count exc_res = length (Analysis.incorrect exc_res).
Proof.
  unfold CheckerBatch.fetch_and_analyze_nct, mbind, result_bind, Py.bind.
  destruct (load_page nct) as [soup|e]; [|by destruct (Py.is_Exception e)].
  destruct (CheckerBatch.criteria_section_of soup) as [cs|]; [|done].
  destruct (Checker.find_inclusion_exclusion_lists cs.2) as [i x].
  intros [= <- <-]. split; apply analyze_list_count_lengths.
Qed.

Lemma row_and_incorrect_for load_page nct :
  match CheckerBatch.row_for load_page nct with
  | Some r =>
      CheckerBatch.nctId r = nct ∧
      CheckerBatch.total_statements r
        = CheckerBatch.correct_statements r + CheckerBatch.incorrect_statements r ∧
      length (CheckerBatch.incorrect_for load_page nct)
        = CheckerBatch.incorrect_statements r
  | None => CheckerBatch.incorrect_for load_page nct = []
  end ∧
  Forall (λ ir, CheckerBatch.i_nctId ir = nct)
    (CheckerBatch.incorrect_for load_page nct).
Proof.
  unfold CheckerBatch.row_for, CheckerBatch.incorrect_for.
  destruct (CheckerBatch.fetch_and_analyze_nct load_page nct)
    as [[[inc_res exc_res]|]|e] eqn:Hf; try done.
  apply fetch_and_analyze_counts in Hf as [Hi He]. simpl. split_and!; try done.
  - unfold CheckerBatch.incorrect_rows_of. rewrite length_app, !length_fmap. lia.
  - apply Forall_forall. intros ir Hir.
    unfold CheckerBatch.incorrect_rows_of in Hir.
    by apply elem_of_app in Hir as [Hir|Hir];
      apply list_elem_of_fmap in Hir as (? & -> & _).
Qed.

(** X3: in the report of the checker's batch every row has total =
    correct + incorrect, the file of incorrect statements has exactly as
    many rows as the summary counts incorrect statements, every one of
    them under an identifier that has a summary row, and the final totals
    satisfy total = correct + incorrect. *)
Theorem checker_report_consistent
    (load_page : string → Py.result Soup.node) (nct_ids : list string)
    (rows : list CheckerBatch.summary_row)
    (incorrect_rows : list CheckerBatch.incorrect_row) :
  CheckerBatch.main load_page nct_ids = Py.Ok (rows, incorrect_rows) →
  Forall (λ r, CheckerBatch.total_statements r
               = CheckerBatch.correct_statements r
                 + CheckerBatch.incorrect_statements r) rows ∧
  length incorrect_rows
    = sum_list (CheckerBatch.incorrect_statements <$> rows) ∧
  Forall (λ ir, CheckerBatch.i_nctId ir ∈ CheckerBatch.nctId <$> rows)
    incorrect_rows ∧
  (CheckerBatch.totals rows).1.1
    = (CheckerBatch.totals rows).2 + (CheckerBatch.totals rows).1.2.
Proof.
  unfold CheckerBatch.main. rewrite checker_main_loop. simpl.
  intros [= <- <-]. clear. unfold CheckerBatch.totals. simpl.
  induction nct_ids as [|nct nct_ids (IH1 & IH2 & IH3 & IH4)]; csimpl.
  { repeat split; constructor. }
  destruct (row_and_incorrect_for load_page nct) as [Hrow Hinc].
  destruct (CheckerBatch.row_for load_page nct) as [r|]; csimpl.
  - destruct Hrow as (Hid & Htot & Hlen). split_and!.
    + by constructor.
    + rewrite length_app. lia.
    + apply Forall_app. split.
      * eapply Forall_impl; [exact Hinc|]. intros ir ->. rewrite Hid. left.
      * eapply Forall_impl; [exact IH3|]. intros ir Hir. by right.
    + lia.
  - rewrite Hrow. by split_and!.
Qed.

Lemma checker_report_consistent_witness :
  ∃ rows incorrect_rows,
    CheckerBatch.main (λ _, Py.Ok MoreSamples.study_page) ["NCT00000001"]
      = Py.Ok (rows, incorrect_rows) ∧
    length incorrect_rows = 1 ∧
    length incorrect_rows
      = sum_list (CheckerBatch.incorrect_statements <$> rows).
Proof.
  eexists _, _. split; [vm_compute; reflexivity|]. split; [reflexivity|].
  refine (proj1 (proj2 (checker_report_consistent
            (λ _, Py.Ok MoreSamples.study_page) ["NCT00000001"] _ _ _))).
  vm_compute. reflexivity.
Defined.
(** ** Further properties of the comparison *)

Lemma elements_list_to_set_length (l : list string) (S : gset string) :
  S ⊆ list_to_set l → length (elements S) ≤ length l.
Proof.
  intros HS. apply submseteq_length, NoDup_submseteq; [apply NoDup_elements|].
  intros x Hx. apply elem_of_elements in Hx. apply HS in Hx.
  by apply elem_of_list_to_set in Hx.
Qed.

Lemma compare_sets_keys site_recs json_recs :
  Compare.norm <$> (Compare.compare_sets site_recs json_recs).1.2
  = elements ((list_to_set (Compare.norm <$> site_recs) : gset string)
              ∖ list_to_set (Compare.norm <$> json_recs)) ∧
  Compare.norm <$> (Compare.compare_sets site_recs json_recs).2
  = elements ((list_to_set (Compare.norm <$> json_recs) : gset string)
              ∖ list_to_set (Compare.norm <$> site_recs)).
Proof.
  unfold Compare.compare_sets. simpl.
  split; apply by_norm_omap; apply Forall_forall; intros k Hk;
    apply elem_of_elements, elem_of_difference in Hk as [Hk _];
    by apply elem_of_list_to_set in Hk.
Qed.

Lemma compare_sets_length_le (site_recs json_recs : list Compare.bullet) :
  length (Compare.compare_sets site_recs json_recs).1.2 ≤ length site_recs ∧
  length (Compare.compare_sets site_recs json_recs).2 ≤ length json_recs.
Proof.
  destruct (compare_sets_keys site_recs json_recs) as [H1 H2].
  apply (f_equal length) in H1, H2. rewrite length_fmap in H1, H2.
  rewrite H1, H2. split.
  - etrans; [apply (elements_list_to_set_length (Compare.norm <$> site_recs))|].
    + apply subseteq_difference_l. done.
    + by rewrite length_fmap.
  - etrans; [apply (elements_list_to_set_length (Compare.norm <$> json_recs))|].
    + apply subseteq_difference_l. done.
    + by rewrite length_fmap.
Qed.

(** X4: the number of statements that the comparator reports missing on
    a side is the number of distinct keys of the other side that do not
    occur on it, and never exceeds the number of records of the side they
    come from. *)
Theorem compare_sets_bounded (site_recs json_recs : list Compare.bullet) :
  let site_keys : gset string := list_to_set (Compare.norm <$> site_recs) in
  let json_keys : gset string := list_to_set (Compare.norm <$> json_recs) in
  length (Compare.compare_sets site_recs json_recs).1.2
    = size (site_keys ∖ json_keys) ∧
  length (Compare.compare_sets site_recs json_recs).2
    = size (json_keys ∖ site_keys) ∧
  size (site_keys ∖ json_keys) ≤ length site_recs ∧
  size (json_keys ∖ site_keys) ≤ length json_recs.
Proof.
  intros site_keys json_keys.
  destruct (compare_sets_keys site_recs json_recs) as [H1 H2].
  destruct (compare_sets_length_le site_recs json_recs) as [L1 L2].
  apply (f_equal length) in H1, H2. rewrite length_fmap in H1, H2.
  fold site_keys json_keys in H1, H2.
  unfold size, set_size. simpl. split_and!; [done|done|lia|lia].
Qed.

(** X5: when the two collections have the same statements up to case and
    surrounding whitespace (the same set of keys), the comparator reports
    nothing missing on either side, whatever the order and the repetitions;
    in particular a collection compared with itself. *)
Theorem compare_sets_same_keys (site_recs json_recs : list Compare.bullet) :
  (∀ k, k ∈ Compare.norm <$> site_recs ↔ k ∈ Compare.norm <$> json_recs) →
  Compare.compare_sets site_recs json_recs
  = (length site_recs, length json_recs, [], []).
Proof.
  intros Hkeys. unfold Compare.compare_sets.
  assert ((list_to_set (Compare.norm <$> site_recs) : gset string)
          = list_to_set (Compare.norm <$> json_recs)) as ->.
  { apply set_eq. intros k. by rewrite !elem_of_list_to_set. }
  by rewrite difference_diag_L, elements_empty.
Qed.

Lemma compare_sets_same_keys_witness :
  Compare.compare_sets Samples.site_bullets Samples.site_bullets
  = (2, 2, [], []).
Proof. by apply (compare_sets_same_keys Samples.site_bullets Samples.site_bullets). Defined.

(** ** Further properties of the pooled comparison and of the fetch *)

Lemma process_single_counts fva fp fs ex wr jd nct sd isr res :
  Compare.process_single fva fp fs ex wr jd nct sd isr = Py.Ok res →
  Compare.missing_in_json res ≤ Compare.site_docs res ∧
  Compare.missing_on_site res ≤ Compare.json_docs res ∧
  Compare.json_docs res = length (Compare.json_recs_of jd nct) ∧
  ∀ recs, Compare.site_records res = Some recs →
          Forall (λ b, PyStr.stripped (Compare.statement b)) recs.
Proof.
  unfold Compare.process_single, mbind, result_bind, Py.bind.
  destruct (fva nct) as [[soup|]|e]; [| |done].
  - destruct (fs soup) as [found|e]; [|done].
    destruct (ex (default soup found) nct) as [site_recs|e]; [|done].
    pose proof (compare_sets_length_le site_recs (Compare.json_recs_of jd nct))
      as [Hb1 Hb2].
    destruct (Compare.compare_sets site_recs (Compare.json_recs_of jd nct))
      as [[[n1 n2] l1] l2] eqn:Hcmp.
    assert (n1 = length site_recs ∧ n2 = length (Compare.json_recs_of jd nct))
      as [-> ->].
    { unfold Compare.compare_sets in Hcmp. by injection Hcmp as <- <- _ _. }
    simpl in Hb1, Hb2.
    destruct (if sd then wr nct site_recs l1 l2 else Py.Ok ()) as [[]|e]; [|done].
    intros [= <-]. simpl. split_and!; try done.
    intros recs Hrecs. destruct isr; [|done]. injection Hrecs as <-.
    apply Forall_fmap, Forall_forall. intros b _. simpl. apply strip_stripped.
  - destruct (fp nct) as [[soup|]|e]; [| |done].
    + destruct (fs soup) as [found|e]; [|done].
      destruct (ex (default soup found) nct) as [site_recs|e]; [|done].
      pose proof (compare_sets_length_le site_recs (Compare.json_recs_of jd nct))
        as [Hb1 Hb2].
      destruct (Compare.compare_sets site_recs (Compare.json_recs_of jd nct))
        as [[[n1 n2] l1] l2] eqn:Hcmp.
      assert (n1 = length site_recs ∧ n2 = length (Compare.json_recs_of jd nct))
        as [-> ->].
      { unfold Compare.compare_sets in Hcmp. by injection Hcmp as <- <- _ _. }
      simpl in Hb1, Hb2.
      destruct (if sd then wr nct site_recs l1 l2 else Py.Ok ()) as [[]|e]; [|done].
      intros [= <-]. simpl. split_and!; try done.
      intros recs Hrecs. destruct isr; [|done]. injection Hrecs as <-.
      apply Forall_fmap, Forall_forall. intros b _. simpl. apply strip_stripped.
    + intros [= <-]. simpl. split_and!; try done; lia.
Qed.

Section CompareReport.
Import Py.
Variable fetch_via_api : string → result (option Soup.node).
Variable fetch_page : string → result (option Soup.node).
Variable find_section : Soup.node → result (option Soup.node).
Variable extract_all_content_from_section :
  Soup.node → string → result (list Compare.bullet).
Variable write_details :
  string → list Compare.bullet → list Compare.bullet → list Compare.bullet
  → result unit.
Variable json_data : list Compare.bullet.
Variable save_details : bool.

#[local] Abbreviation row_of' :=
  (Compare.row_of fetch_via_api fetch_page find_section
     extract_all_content_from_section write_details json_data save_details).
#[local] Abbreviation site_records_of' :=
  (Compare.site_records_of fetch_via_api fetch_page find_section
     extract_all_content_from_section write_details json_data save_details).

Lemma row_of_counts nct :
  Compare.missing_in_json (row_of' nct) ≤ Compare.site_docs (row_of' nct) ∧
  Compare.missing_on_site (row_of' nct) ≤ Compare.json_docs (row_of' nct) ∧
  Compare.json_docs (row_of' nct) = length (Compare.json_recs_of json_data nct) ∧
  Forall (λ b, PyStr.stripped (Compare.statement b)) (site_records_of' nct).
Proof.
  unfold Compare.site_records_of, Compare.row_of, Compare.future_result.
  destruct (Compare.process_single _ _ _ _ _ _ nct save_details true)
    as [res|e] eqn:Hres.
  - apply process_single_counts in Hres as (H1 & H2 & H3 & H4).
    split_and!; try done.
    destruct (Compare.site_records res) as [recs|]; simpl; [by apply H4|done].
  - simpl. split_and!; try done; lia.
Qed.

(** X6: in the summary of the pooled comparison every row, whatever its
    status, has missing_in_json ≤ site_docs and missing_on_site ≤
    json_docs, and its json_docs is the number of JSON records of its
    identifier; every statement in the combined site records is trimmed. *)
Theorem compare_report_rows_bounded (completed : list string) :
  let out := Compare.main fetch_via_api fetch_page find_section
               extract_all_content_from_section write_details json_data
               save_details completed in
  Forall (λ r, Compare.missing_in_json r ≤ Compare.site_docs r ∧
               Compare.missing_on_site r ≤ Compare.json_docs r ∧
               Compare.json_docs r
               = length (Compare.json_recs_of json_data (Compare.r_nctId r)))
    out.1 ∧
  Forall (λ b, PyStr.stripped (Compare.statement b)) out.2.
Proof.
  rewrite compare_main_rows. simpl. split.
  - apply Forall_fmap, Forall_forall. intros nct _. simpl.
    rewrite row_of_nctId. destruct (row_of_counts nct) as (?&?&?&?). done.
  - induction completed as [|nct completed IH]; csimpl; [done|].
    apply Forall_app. split; [|done]. apply row_of_counts.
Qed.

End CompareReport.

Lemma attempt_Ok_truthy repr got html :
  Fetch.attempt repr got = Py.Ok html →
  ∃ x, Py.truthy x = true ∧ html = Fetch.str repr x.
Proof.
  unfold Fetch.attempt, mbind, result_bind, Py.bind.
  repeat (case_match; try done); intros [= <-];
    match goal with
    | H : negb (Py.truthy ?x) = false |- _ =>
        apply negb_false_iff in H; by exists x
    end.
Qed.

Lemma attempt_Ok_not_empty repr got html :
  (∀ v, Py.truthy v = true → repr v ≠ "") →
  Fetch.attempt repr got = Py.Ok html → html ≠ "".
Proof.
  intros Hrepr (x & Hx & ->)%attempt_Ok_truthy.
  destruct x as [| | |s| |]; simpl in *; try (by apply Hrepr).
  by destruct s.
Qed.

(** X7: a fetch that succeeds never returns an empty text: the field was
    found non-empty, and Python's str() of a non-empty value is not
    empty. *)
Theorem fetch_result_not_empty
    (repr : Py.json → string) (net : Fetch.network) (nct_id : string)
    (w : Fetch.world) (html : string) :
  (∀ v, Py.truthy v = true → repr v ≠ "") →
  (Fetch.fetch_eligibility_html repr net nct_id w).1 = Py.Ok (Some html) →
  html ≠ "".
Proof.
  intros Hrepr. rewrite fetch_unroll. cbv zeta.
  repeat (case_match; try done); simpl; intros [= <-];
    by eapply attempt_Ok_not_empty.
Qed.

Lemma fetch_result_not_empty_witness : "<ol></ol>" ≠ "".
Proof.
  apply (fetch_result_not_empty (λ _, "x") (MoreSamples.flaky_then "<ol></ol>")
           "NCT00000001" {| Fetch.requests := 0; Fetch.slept := [] |}).
  - intros v _. discriminate.
  - vm_compute. reflexivity.
Defined.
(** ** Reading the identifiers *)

Lemma unique_from_elem ids : ∀ seen x,
  x ∈ Ids.unique_from seen ids ↔ x ∈ ids ∧ x ∉ seen.
Proof.
  induction ids as [|nid ids IH]; intros seen x; simpl.
  - split; [by intros ?%elem_of_nil|by intros [?%elem_of_nil _]].
  - destruct (decide (nid ∈ seen)) as [Hin|Hin].
    + rewrite IH, elem_of_cons. split; [by intros [? ?]; auto|].
      intros [[->|?] ?]; [done|auto].
    + rewrite !elem_of_cons, IH, not_elem_of_union, not_elem_of_singleton.
      split.
      * intros [->|(? & ? & ?)]; auto.
      * intros [[->|?] ?]; [by left|].
        destruct (decide (x = nid)) as [->|?]; [by left|right; auto].
Qed.

Lemma unique_from_NoDup ids : ∀ seen, NoDup (Ids.unique_from seen ids).
Proof.
  induction ids as [|nid ids IH]; intros seen; simpl; [constructor|].
  destruct (decide (nid ∈ seen)); [apply IH|].
  apply NoDup_cons. split; [|apply IH].
  rewrite unique_from_elem, not_elem_of_union, not_elem_of_singleton.
  by intros (_ & ? & _).
Qed.

Lemma unique_from_sublist ids : ∀ seen, Ids.unique_from seen ids `sublist_of` ids.
Proof.
  induction ids as [|nid ids IH]; intros seen; simpl; [done|].
  destruct (decide (nid ∈ seen)); by constructor.
Qed.

Lemma unique_from_NoDup_id ids : ∀ seen,
  NoDup ids → (∀ x, x ∈ ids → x ∉ seen) → Ids.unique_from seen ids = ids.
Proof.
  induction ids as [|nid ids IH]; intros seen Hnd Hseen; simpl; [done|].
  apply NoDup_cons in Hnd as [Hnid Hnd].
  destruct (decide (nid ∈ seen)) as [Hin|Hin].
  - exfalso. by apply (Hseen nid); [left|].
  - f_equal. apply IH; [done|]. intros x Hx.
    rewrite not_elem_of_union, not_elem_of_singleton. split.
    + intros ->. done.
    + apply Hseen. by right.
Qed.

(** X8: the identifiers extracted from the studies file have no
    repetition, are exactly the identifiers found in the text, and keep the
    order of their first occurrences; a list without repetition comes back
    unchanged, so extracting twice changes nothing. *)
Theorem extract_nct_ids_unique (ids : list string) :
  let out := Ids.extract_nct_ids_from_ctg_file ids in
  NoDup out ∧
  (∀ x, x ∈ out ↔ x ∈ ids) ∧
  out `sublist_of` ids ∧
  head out = head ids ∧
  (NoDup ids → out = ids) ∧
  Ids.extract_nct_ids_from_ctg_file out = out.
Proof.
  intros out. subst out. unfold Ids.extract_nct_ids_from_ctg_file, Ids.unique.
  assert (∀ l, NoDup l → Ids.unique_from ∅ l = l) as Hid.
  { intros l Hl. apply unique_from_NoDup_id; [done|]. intros x _.
    apply not_elem_of_empty. }
  split_and!.
  - apply unique_from_NoDup.
  - intros x. rewrite unique_from_elem. split; [by intros [? _]|].
    intros ?. split; [done|apply not_elem_of_empty].
  - apply unique_from_sublist.
  - destruct ids as [|nid ids]; [done|]. simpl.
    destruct (decide (nid ∈ (∅ : gset string))) as [Hin|_]; [|done].
    by apply not_elem_of_empty in Hin.
  - apply Hid.
  - apply Hid, unique_from_NoDup.
Qed.

Lemma extract_nct_ids_unique_witness :
  Ids.extract_nct_ids_from_ctg_file ["NCT01"; "NCT02"] = ["NCT01"; "NCT02"].
Proof.
  destruct (extract_nct_ids_unique ["NCT01"; "NCT02"]) as (_ & _ & _ & _ & H & _).
  apply H. apply NoDup_cons. split; [|apply NoDup_singleton].
  by intros [=]%list_elem_of_singleton.
Defined.

Lemma column_is_Some df col :
  col ∈ Ids.columns df → is_Some (Ids.column df col).
Proof.
  induction df as [|[name cells] df IH]; simpl; [by intros ?%elem_of_nil|].
  destruct (decide (name = col)) as [->|Hne]; [by eexists|].
  intros [?|?]%elem_of_cons; [congruence|by apply IH].
Qed.

Lemma column_Some_elem df col cells :
  Ids.column df col = Some cells → col ∈ Ids.columns df.
Proof.
  induction df as [|[name cs] df IH]; simpl; [done|].
  destruct (decide (name = col)) as [->|Hne]; [by left|].
  intros H. right. by apply IH.
Qed.

Lemma rename_columns df col :
  col ∈ Ids.columns df → "nctId" ∈ Ids.columns (Ids.rename df col).
Proof.
  induction df as [|[name cells] df IH]; simpl; [by intros ?%elem_of_nil|].
  destruct (decide (name = col)) as [->|Hne]; simpl.
  - intros _. left.
  - intros [?|?]%elem_of_cons; [congruence|]. right. by apply IH.
Qed.

Lemma first_variant_Some df variants col :
  Ids.first_variant df variants = Some col →
  col ∈ variants ∧ col ∈ Ids.columns df.
Proof.
  induction variants as [|v variants IH]; simpl; [done|].
  destruct (decide (v ∈ Ids.columns df)) as [Hin|Hin].
  - intros [= <-]. split; [left|done].
  - intros [? ?]%IH. split; [by right|done].
Qed.

Lemma first_variant_None df variants :
  Ids.first_variant df variants = None →
  ∀ col, col ∈ variants → col ∉ Ids.columns df.
Proof.
  induction variants as [|v variants IH]; simpl.
  - by intros _ col ?%elem_of_nil.
  - destruct (decide (v ∈ Ids.columns df)) as [Hin|Hin]; [done|].
    intros H col [->|?]%elem_of_cons; [done|by apply IH].
Qed.

Lemma filter_startswith_stripped (l : list string) :
  Forall (λ n, Ids.startswith "NCT" n = true ∧ PyStr.stripped n)
    (List.filter (Ids.startswith "NCT") (PyStr.strip <$> l)).
Proof.
  apply Forall_forall. intros n [Hn Hp]%elem_of_list_filter. split; [done|].
  apply list_elem_of_fmap in Hn as (v & -> & _). apply strip_stripped.
Qed.

(** X9: load_nct_ids_from_csv returns a list exactly when the frame has a
    column nctId, nct_id, NCT_ID, NCTId or NctId, and raises otherwise; the
    identifiers it returns have no repetition, all start with NCT and
    carry no surrounding whitespace. *)
Theorem load_nct_ids_clean (df : Ids.frame) :
  ((∃ ids, Ids.load_nct_ids_from_csv df = Py.Ok ids) ↔
   ∃ col, col ∈ ["nctId"; "nct_id"; "NCT_ID"; "NCTId"; "NctId"] ∧
          col ∈ Ids.columns df) ∧
  ∀ ids, Ids.load_nct_ids_from_csv df = Py.Ok ids →
    NoDup ids ∧
    Forall (λ n, Ids.startswith "NCT" n = true ∧ PyStr.stripped n) ids.
Proof.
  unfold Ids.load_nct_ids_from_csv.
  set (df' := if decide ("nctId" ∈ Ids.columns df) then df else _).
  assert ("nctId" ∈ Ids.columns df' ↔
          ∃ col, col ∈ ["nctId"; "nct_id"; "NCT_ID"; "NCTId"; "NctId"] ∧
                 col ∈ Ids.columns df) as Hcols.
  { subst df'. destruct (decide ("nctId" ∈ Ids.columns df)) as [Hin|Hin].
    - split; [|done]. intros _. exists "nctId". split; [left|done].
    - destruct (Ids.first_variant df _) as [col|] eqn:Hv.
      + apply first_variant_Some in Hv as [Hv Hc]. split.
        * intros _. exists col. split; [by right|done].
        * intros _. by apply rename_columns.
      + split; [done|]. intros (col & [->|Hcol]%elem_of_cons & Hc); [done|].
        by eapply first_variant_None in Hv. }
  destruct (decide ("nctId" ∈ Ids.columns df')) as [Hin|Hin].
  - destruct (column_is_Some _ _ Hin) as [cells ->]. split.
    + split; [by intros _; apply Hcols|by eauto].
    + intros ids [= <-]. split; [apply unique_from_NoDup|].
      apply Forall_forall. intros n Hn.
      eapply elem_of_sublist in Hn; [|apply unique_from_sublist].
      revert n Hn. apply Forall_forall.
      apply filter_startswith_stripped.
  - split; [|done]. split; [by intros [? ?]|]. intros H. by apply Hcols in H.
Qed.

Lemma load_nct_ids_clean_witness :
  Ids.load_nct_ids_from_csv
    [("NCT_ID", [Some " NCT01 "; None; Some "NCT01"; Some "x"])]
  = Py.Ok ["NCT01"].
Proof.
  destruct (load_nct_ids_clean
              [("NCT_ID", [Some " NCT01 "; None; Some "NCT01"; Some "x"])])
    as [[_ H] _].
  destruct H as [ids Hids].
  - exists "NCT_ID". split; [|left]. right. right. left.
  - rewrite Hids. vm_compute in Hids. symmetry. exact Hids.
Defined.

Lemma choose_column_Ok df col :
  Ids.choose_column df = Py.Ok col → col ∈ Ids.columns df.
Proof.
  unfold Ids.choose_column. repeat case_decide; try by intros [= <-].
  destruct (Ids.columns df); [done|]. intros [= <-]. left.
Qed.

(** X10: read_nct_ids_from_csv returns a list for every frame that has a
    column, reading the column nctId, else NCT_ID, else nct_id, else the
    first one; every identifier it returns starts with NCT, carries no
    surrounding whitespace and is the trimmed text of a cell of that
    column; without any column it raises. *)
Theorem read_nct_ids_clean (df : Ids.frame) :
  (df ≠ [] → ∃ ids, Ids.read_nct_ids_from_csv df = Py.Ok ids) ∧
  (df = [] → ∃ e, Ids.read_nct_ids_from_csv df = Py.Raise e) ∧
  ∀ ids, Ids.read_nct_ids_from_csv df = Py.Ok ids →
    ∃ col cells,
      Ids.choose_column df = Py.Ok col ∧ Ids.column df col = Some cells ∧
      Forall (λ n, Ids.startswith "NCT" n = true ∧ PyStr.stripped n ∧
                   ∃ v, Some v ∈ cells ∧ n = PyStr.strip v) ids.
Proof.
  unfold Ids.read_nct_ids_from_csv, mbind, result_bind, Py.bind. split_and!.
  - intros Hdf.
    assert (∃ col, Ids.choose_column df = Py.Ok col) as [col Hcol].
    { unfold Ids.choose_column. repeat case_decide; eauto.
      destruct df as [|[name cells] df]; [done|]. simpl. eauto. }
    rewrite Hcol. apply choose_column_Ok in Hcol.
    destruct (column_is_Some _ _ Hcol) as [cells ->]. eauto.
  - intros ->. by eexists.
  - intros ids Hids.
    destruct (Ids.choose_column df) as [col|e] eqn:Hcol; [|done].
    destruct (Ids.column df col) as [cells|] eqn:Hcells; [|done].
    injection Hids as <-. exists col, cells. split; [done|]. split; [done|].
    apply Forall_forall. intros n [Hn Hp]%elem_of_list_filter.
    split; [done|].
    apply list_elem_of_fmap in Hn as (v & -> & Hv).
    split; [apply strip_stripped|]. exists v. split; [|done].
    unfold Ids.dropna_unique, Ids.unique in Hv.
    apply unique_from_elem in Hv as [Hv _].
    apply list_elem_of_omap in Hv as (c & Hc & Hcv). simpl in Hcv. by subst.
Qed.

Lemma read_nct_ids_clean_witness :
  ∃ ids, Ids.read_nct_ids_from_csv
           [("id", [Some " NCT01 "; None; Some "NCT02"; Some "x"])]
         = Py.Ok ids.
Proof.
  apply (read_nct_ids_clean
           [("id", [Some " NCT01 "; None; Some "NCT02"; Some "x"])]).
  discriminate.
Defined.

(** ** What the patterns match *)

Lemma string_app_cons x (a b : string) : String x a +:+ b = String x (a +:+ b).
Proof. reflexivity. Qed.

Lemma string_app_assoc (a b c : string) : (a +:+ b) +:+ c = a +:+ b +:+ c.
Proof.
  induction a as [|x a IH]; [done|]. by rewrite !string_app_cons, IH.
Qed.

Lemma nullable_lang ic r : Re.nullable r = true → ReMore.lang ic r "".
Proof.
  induction r; simpl; try done; intros H.
  - constructor.
  - apply andb_true_iff in H as [H1 H2].
    change "" with ("" +:+ ""). constructor; auto.
  - apply orb_true_iff in H as [H|H];
      [apply ReMore.lang_Alt_l|apply ReMore.lang_Alt_r]; auto.
  - constructor.
  - constructor.
  - change "" with ("" +:+ ""). constructor; [auto|constructor].
Qed.

Lemma lang_Void ic s : ¬ ReMore.lang ic Re.Void s.
Proof. inversion 1. Qed.

Lemma cat_lang ic r1 r2 s :
  ReMore.lang ic (Re.cat r1 r2) s → ReMore.lang ic (Re.Cat r1 r2) s.
Proof.
  destruct r1; simpl; try done.
  - by intros ?%lang_Void.
  - intros H. change s with ("" +:+ s). constructor; [constructor|done].
Qed.

Lemma alt_lang ic r1 r2 s :
  ReMore.lang ic (Re.alt r1 r2) s → ReMore.lang ic (Re.Alt r1 r2) s.
Proof.
  destruct r1, r2; simpl; try done;
    first [ by apply ReMore.lang_Alt_r | by apply ReMore.lang_Alt_l ].
Qed.

Lemma deriv_lang ic a r : ∀ s,
  ReMore.lang ic (Re.deriv ic a r) s → ReMore.lang ic r (String a s).
Proof.
  induction r as [| |c| |r1 IH1 r2 IH2|r1 IH1 r2 IH2|r IH|r IH|r IH];
    intros s; simpl.
  - by intros ?%lang_Void.
  - by intros ?%lang_Void.
  - destruct (Re.lit_matches ic c a) eqn:Hc; [|by intros ?%lang_Void].
    inversion 1. by constructor.
  - destruct (PyStr.isspace a) eqn:Ha; [|by intros ?%lang_Void].
    inversion 1. by constructor.
  - intros H%alt_lang. inversion H as [| | | |? ? ? H1| ? ? ? H2| | | | |]; subst.
    + apply cat_lang in H1. inversion H1; subst.
      change (String a (?x +:+ ?y)) with (String a x +:+ y).
      constructor; auto.
    + destruct (Re.nullable r1) eqn:Hn; [|by apply lang_Void in H2].
      change (String a s) with ("" +:+ String a s).
      constructor; [by apply nullable_lang|auto].
  - intros H%alt_lang. inversion H; subst;
      [apply ReMore.lang_Alt_l|apply ReMore.lang_Alt_r]; auto.
  - intros H. apply ReMore.lang_Opt_some. auto.
  - intros H%cat_lang. inversion H; subst.
    change (String a (?x +:+ ?y)) with (String a x +:+ y).
    constructor; auto.
  - intros H%cat_lang. inversion H; subst.
    change (String a (?x +:+ ?y)) with (String a x +:+ y).
    constructor; auto.
Qed.

(** The matcher is sound: what it accepts is in the language. *)
Lemma fullmatch_lang ic s : ∀ r,
  ReMore.fullmatch ic r s = true → ReMore.lang ic r s.
Proof.
  unfold ReMore.fullmatch.
  induction s as [|a s IH]; intros r; simpl.
  - apply nullable_lang.
  - intros H. by apply deriv_lang, IH.
Qed.

Lemma lang_word s : ∀ w, ReMore.lang false (Re.word w) s → s = w.
Proof.
  intros w. revert s. induction w as [|c w IH]; intros s; simpl.
  - by inversion 1.
  - inversion 1 as [| | |? ? ? ? H1 H2| | | | | | |]; subst.
    inversion H1 as [|? ? Hc| | | | | | | | |]; subst. simpl in Hc.
    apply bool_decide_eq_true in Hc as ->. simpl. f_equal. by apply IH.
Qed.

Lemma occurs_in_app_r w a b : ReMore.occurs_in w b → ReMore.occurs_in w (a +:+ b).
Proof.
  intros (pre & post & ->). exists (a +:+ pre), post.
  by rewrite string_app_assoc.
Qed.

Lemma occurs_in_app_l w a b : ReMore.occurs_in w a → ReMore.occurs_in w (a +:+ b).
Proof.
  intros (pre & post & ->). exists pre, (post +:+ b).
  by rewrite !string_app_assoc.
Qed.

(** A sequence that has the word [w] among its parts matches only
    strings in which [w] occurs. *)
Lemma seq_word_occurs w rs : ∀ s,
  Re.word w ∈ rs → ReMore.lang false (Re.seq rs) s → ReMore.occurs_in w s.
Proof.
  induction rs as [|r rs IH]; intros s Hin; [by apply elem_of_nil in Hin|].
  simpl. inversion 1 as [| | |? ? s1 s2 H1 H2| | | | | | |]; subst.
  apply elem_of_cons in Hin as [<-|Hin].
  - apply lang_word in H1 as ->. exists "", s2. done.
  - apply occurs_in_app_r. by apply IH.
Qed.

Lemma match_anchored_occurs w rs s :
  Re.word w ∈ rs → ReMore.match_anchored (Re.seq rs) s = true →
  ReMore.occurs_in w s.
Proof.
  intros Hin H%fullmatch_lang. inversion H; subst.
  apply occurs_in_app_l. by eapply seq_word_occurs.
Qed.

Lemma lower_app a b : PyStr.lower (a +:+ b) = PyStr.lower a +:+ PyStr.lower b.
Proof.
  induction a as [|x a IH]; [done|].
  rewrite string_app_cons. simpl. by rewrite IH.
Qed.

Lemma is_unwanted_criteria (statement : Py.json) :
  Pipeline.is_unwanted_statement statement = true →
  ∃ s, statement = Py.JStr s ∧ PyStr.strip s ≠ "" ∧
       ReMore.occurs_in "criteria" (PyStr.lower (PyStr.strip s)).
Proof.
  destruct statement as [| | |s| |]; simpl; try done.
  destruct (PyStr.truthy s); simpl; [|done].
  destruct (PyStr.truthy (PyStr.strip s)) eqn:Hn; simpl; [|done].
  intros H. exists s. split; [done|]. split; [by destruct (PyStr.strip s)|].
  assert (∀ rs, Re.word "criteria" ∈ rs →
            ReMore.match_anchored (Re.seq rs) (PyStr.lower (PyStr.strip s)) = true →
            ReMore.occurs_in "criteria" (PyStr.lower (PyStr.strip s))) as Hocc.
  { intros rs. apply match_anchored_occurs. }
  repeat match type of H with
    | (if ReMore.match_anchored ?p ?l then _ else _) = true =>
        destruct (ReMore.match_anchored p l) eqn:?;
          [eapply Hocc; [|eassumption]; set_solver|]
    end.
  - destruct (Pipeline.isupper (PyStr.strip s) &&
              ReMore.match_anchored Pipeline.pattern5 (PyStr.strip s)) eqn:H5.
    + apply andb_true_iff in H5 as [_ H5].
      apply (match_anchored_occurs "CRITERIA") in H5; [|set_solver].
      destruct H5 as (pre & post & ->). rewrite !lower_app.
      by exists (PyStr.lower pre), (PyStr.lower post).
    + repeat match type of H with
        | (if ReMore.match_anchored ?p ?l then _ else _) = true =>
            destruct (ReMore.match_anchored p l) eqn:?;
              [eapply Hocc; [|eassumption]; set_solver|]
        end.
      done.
Qed.

Lemma is_unwanted_strip_self s :
  Pipeline.is_unwanted_statement (Py.JStr s)
  = Pipeline.is_unwanted_statement (Py.JStr (PyStr.strip s)).
Proof.
  destruct s as [|a s]; [reflexivity|].
  unfold Pipeline.is_unwanted_statement.
  rewrite strip_idemp.
  change (PyStr.truthy (String a s)) with true. cbv beta iota zeta delta [negb].
  destruct (PyStr.truthy (PyStr.strip (String a s))) eqn:Hn; reflexivity.
Qed.

Lemma is_unwanted_strip s1 s2 :
  PyStr.strip s1 = PyStr.strip s2 →
  Pipeline.is_unwanted_statement (Py.JStr s1)
  = Pipeline.is_unwanted_statement (Py.JStr s2).
Proof.
  intros Heq.
  by rewrite (is_unwanted_strip_self s1), (is_unwanted_strip_self s2), Heq.
Qed.

(** X11: the header filter flags a statement only if it is a text whose
    trimmed, lowercased form contains the word criteria; a blank text or
    a value that is no text is never flagged; and the verdict depends only
    on the trimmed text, so whitespace around a statement never changes
    it. *)
Theorem is_unwanted_needs_criteria (statement : Py.json) :
  (Pipeline.is_unwanted_statement statement = true →
   ∃ s, statement = Py.JStr s ∧ PyStr.strip s ≠ "" ∧
        ReMore.occurs_in "criteria" (PyStr.lower (PyStr.strip s))) ∧
  (∀ s1 s2, PyStr.strip s1 = PyStr.strip s2 →
     Pipeline.is_unwanted_statement (Py.JStr s1)
     = Pipeline.is_unwanted_statement (Py.JStr s2)) ∧
  (∀ s, Pipeline.is_unwanted_statement (Py.JStr s)
        = Pipeline.is_unwanted_statement (Py.JStr (PyStr.strip s))).
Proof.
  split; [apply is_unwanted_criteria|]. split; [apply is_unwanted_strip|].
  apply is_unwanted_strip_self.
Qed.

Lemma is_unwanted_needs_criteria_witness :
  ∃ s, Py.JStr " Key Inclusion Criteria: " = Py.JStr s ∧ PyStr.strip s ≠ "" ∧
       ReMore.occurs_in "criteria" (PyStr.lower (PyStr.strip s)).
Proof.
  apply (is_unwanted_needs_criteria (Py.JStr " Key Inclusion Criteria: ")).
  vm_compute. reflexivity.
Defined.

Lemma sort_record_loop data : ∀ cleaned removed,
  foldl Pipeline.sort_record (cleaned, removed) data
  = (cleaned ++ List.filter
                  (λ rec, negb (Pipeline.is_unwanted_statement
                                  (Pipeline.rec_get rec "statement" (Py.JStr ""))))
                  data,
     removed ++ List.filter
                  (λ rec, Pipeline.is_unwanted_statement
                            (Pipeline.rec_get rec "statement" (Py.JStr "")))
                  data).
Proof.
  induction data as [|rec data IH]; intros cleaned removed; simpl.
  - by rewrite !app_nil_r.
  - destruct (Pipeline.is_unwanted_statement _); simpl; rewrite IH;
      by rewrite <- !app_assoc.
Qed.

Lemma list_filter_partition {A} (f : A → bool) (l : list A) :
  List.filter (λ x, negb (f x)) l ++ List.filter f l ≡ₚ l.
Proof.
  induction l as [|x l IH]; simpl; [done|].
  destruct (f x); simpl.
  - rewrite <- Permutation_middle. by constructor.
  - by constructor.
Qed.

(** X12: remove_unwanted_statements loses and invents nothing: the cleaned
    and the removed records together are the input records, each list in
    input order; every removed record has a text statement in which the
    word criteria occurs, so a record without a statement, or with one
    that does not mention criteria, always stays. *)
Theorem remove_unwanted_partition (data : list Pipeline.record) :
  let out := Pipeline.remove_unwanted_statements data in
  out.1 ++ out.2 ≡ₚ data ∧
  length out.1 + length out.2 = length data ∧
  out.1 `sublist_of` data ∧ out.2 `sublist_of` data ∧
  Forall (λ rec, ∃ s, Py.lookup_item "statement" rec = Some (Py.JStr s) ∧
                      ReMore.occurs_in "criteria" (PyStr.lower (PyStr.strip s)))
    out.2 ∧
  (∀ rec, rec ∈ data →
     Pipeline.is_unwanted_statement
       (Pipeline.rec_get rec "statement" (Py.JStr "")) = false →
     rec ∈ out.1).
Proof.
  unfold Pipeline.remove_unwanted_statements. rewrite sort_record_loop.
  simpl. split_and!.
  - apply list_filter_partition.
  - rewrite <- length_app. apply Permutation_length, list_filter_partition.
  - apply list_filter_sublist.
  - apply list_filter_sublist.
  - apply Forall_forall. intros rec [_ Hu]%elem_of_list_filter.
    apply is_unwanted_criteria in Hu as (s & Hs & _ & Hocc).
    exists s. split; [|done]. unfold Pipeline.rec_get in Hs.
    destruct (Py.lookup_item "statement" rec) as [v|]; [by subst|].
    injection Hs as <-. by destruct Hocc as ([|??] & ? & ?).
  - intros rec Hin Hu. apply elem_of_list_filter. by rewrite Hu.
Qed.

Lemma remove_unwanted_partition_witness :
  [("nctId", Py.JStr "NCT01"); ("statement", Py.JStr "Age over 18")]
  ∈ (Pipeline.remove_unwanted_statements
       [[("nctId", Py.JStr "NCT01"); ("statement", Py.JStr "Inclusion Criteria:")];
        [("nctId", Py.JStr "NCT01"); ("statement", Py.JStr "Age over 18")]]).1.
Proof.
  apply (remove_unwanted_partition
           [[("nctId", Py.JStr "NCT01"); ("statement", Py.JStr "Inclusion Criteria:")];
            [("nctId", Py.JStr "NCT01"); ("statement", Py.JStr "Age over 18")]]).
  - right. left.
  - vm_compute. reflexivity.
Defined.

(** ** The study limit of the pipeline *)

Lemma startswith_truthy p a s x :
  Ids.startswith (String a (p ++ s)) x = true → PyStr.truthy x = true.
Proof. by destruct x. Qed.

Lemma nct_valid x :
  negb (PyStr.truthy x) || negb (Ids.startswith "NCT" x)
  = negb (Ids.startswith "NCT" x).
Proof.
  destruct (Ids.startswith "NCT" x) eqn:H; [|by rewrite orb_true_r].
  by destruct x.
Qed.

Lemma collect_allowed_firsts repr (limit : Z) (records : list Pipeline.record) :
  ∀ S : gset string,
  (size S < Z.to_nat (Z.max limit 1))%nat →
  Pipeline.collect_allowed repr limit S S records
  = S ∪ list_to_set
          (take (Z.to_nat (Z.max limit 1) - size S)
             (Ids.unique_from S
                (List.filter (Ids.startswith "NCT")
                   (Pipeline.nct_of repr <$> records)))).
Proof.
  induction records as [|rec rest IH]; intros S HS.
  - simpl. by rewrite take_nil, list_to_set_nil, (right_id_L ∅ (∪)).
  - cbn [Pipeline.collect_allowed]. rewrite nct_valid.
    rewrite fmap_cons. cbn [List.filter].
    destruct (Ids.startswith "NCT" (Pipeline.nct_of repr rec)) eqn:Hv;
      cbn [negb]; [|by apply IH].
    cbn [Ids.unique_from].
    destruct (decide (Pipeline.nct_of repr rec ∈ S)) as [Hin|Hin]; [by apply IH|].
    assert (size ({[Pipeline.nct_of repr rec]} ∪ S) = Datatypes.S (size S)) as Hsz.
    { rewrite size_union by (by apply disjoint_singleton_l).
      by rewrite size_singleton. }
    destruct (Z.to_nat (Z.max limit 1) - size S)%nat as [|k] eqn:Hk; [lia|].
    rewrite firstn_cons, list_to_set_cons.
    destruct (decide (limit ≤ Z.of_nat (size ({[Pipeline.nct_of repr rec]} ∪ S)))%Z)
      as [Hb|Hb].
    + assert (k = 0%nat) as -> by lia.
      rewrite take_0, list_to_set_nil, (right_id_L ∅ (∪)). apply (comm_L (∪)).
    + rewrite IH by lia. rewrite Hsz.
      replace (Z.to_nat (Z.max limit 1) - Datatypes.S (size S))%nat with k by lia.
      by rewrite (comm_L (∪) _ S), (assoc_L (∪)).
Qed.

Lemma list_filter_ext_in {A} (f g : A → bool) (l : list A) :
  (∀ x, x ∈ l → f x = g x) → List.filter f l = List.filter g l.
Proof.
  induction l as [|x l IH]; intros H; simpl; [done|].
  rewrite (H x) by left. rewrite IH; [done|]. intros y Hy. apply H. by right.
Qed.

Lemma list_filter_false {A} (l : list A) : List.filter (λ _, false) l = [].
Proof. by induction l. Qed.

Lemma filter_by_nct_limit_firsts repr (records : list Pipeline.record) (limit : Z) :
  limit ≠ 0%Z →
  Pipeline.filter_by_nct_limit repr records (Some limit)
  = List.filter
      (λ rec, bool_decide
                (Pipeline.nct_of repr rec
                 ∈ take (Z.to_nat (Z.max limit 1))
                     (Ids.unique (List.filter (Ids.startswith "NCT")
                                    (Pipeline.nct_of repr <$> records)))))
      records.
Proof.
  intros Hl. unfold Pipeline.filter_by_nct_limit.
  destruct (decide (limit = 0%Z)) as [|_]; [done|].
  rewrite collect_allowed_firsts by (rewrite size_empty; lia).
  rewrite size_empty, Nat.sub_0_r, (left_id_L ∅ (∪)). fold (Ids.unique).
  set (firsts := take _ _).
  destruct (decide (list_to_set firsts = (∅ : gset string))) as [He|_].
  - symmetry. etrans; [|apply (list_filter_false records)].
    apply list_filter_ext_in. intros rec _. apply bool_decide_eq_false.
    intros Hin. apply (elem_of_list_to_set (C:=gset string)) in Hin.
    rewrite He in Hin. by apply not_elem_of_empty in Hin.
  - apply list_filter_ext_in. intros rec _. apply bool_decide_ext.
    apply elem_of_list_to_set.
Qed.

(** X13: whatever the limit, filter_by_nct_limit keeps records of the input
    in their order, and keeps or drops a study as a whole: two records
    with the same identifier are kept together or dropped together.
    Without a limit (None or 0) the records are returned as they are. *)
Theorem filter_by_nct_limit_whole_studies repr (records : list Pipeline.record)
    (limit_ncts : option Z) :
  let out := Pipeline.filter_by_nct_limit repr records limit_ncts in
  out `sublist_of` records ∧
  (∀ r1 r2, r1 ∈ records → r2 ∈ records →
     Pipeline.nct_of repr r1 = Pipeline.nct_of repr r2 →
     r1 ∈ out → r2 ∈ out) ∧
  (limit_ncts = None ∨ limit_ncts = Some 0%Z → out = records).
Proof.
  destruct limit_ncts as [limit|]; [destruct (decide (limit = 0%Z)) as [->|Hl]|].
  - simpl. split_and!; [done|done|done].
  - cbv zeta. rewrite filter_by_nct_limit_firsts by done. split_and!.
    + apply list_filter_sublist.
    + intros r1 r2 _ H2 Heq [_ H1]%elem_of_list_filter.
      apply elem_of_list_filter. split; [done|]. by rewrite <- Heq.
    + intros [?|?]; congruence.
  - simpl. split_and!; [done|done|done].
Qed.

Lemma filter_by_nct_limit_whole_studies_witness :
  [("NCT_ID", Py.JStr " NCT02 "); ("statement", Py.JStr "d")]
  ∈ Pipeline.filter_by_nct_limit (λ _, "None")
      [[("nctId", Py.JStr "NCT02"); ("statement", Py.JStr "a")];
       [("nct_id", Py.JStr "NCT01"); ("statement", Py.JStr "b")];
       [("NCT_ID", Py.JStr " NCT02 "); ("statement", Py.JStr "d")]]
      (Some 1%Z).
Proof.
  destruct (filter_by_nct_limit_whole_studies (λ _, "None")
              [[("nctId", Py.JStr "NCT02"); ("statement", Py.JStr "a")];
               [("nct_id", Py.JStr "NCT01"); ("statement", Py.JStr "b")];
               [("NCT_ID", Py.JStr " NCT02 "); ("statement", Py.JStr "d")]]
              (Some 1%Z)) as (_ & Hwhole & _).
  apply (Hwhole [("nctId", Py.JStr "NCT02"); ("statement", Py.JStr "a")]).
  - left.
  - right. right. left.
  - vm_compute. reflexivity.
  - vm_compute. left.
Defined.

(** X14: with a limit that is not 0, filter_by_nct_limit keeps exactly the
    records of the first studies of the input: the identifiers that start
    with NCT, without repetition, in order of first appearance, cut at the
    limit (at one study when the limit is negative).  So every record kept
    has such an identifier, at most max(limit, 1) distinct studies are
    kept, and nothing is kept exactly when no record has an identifier
    that starts with NCT. *)
Theorem filter_by_nct_limit_first_studies repr (records : list Pipeline.record)
    (limit : Z) :
  limit ≠ 0%Z →
  let firsts :=
    take (Z.to_nat (Z.max limit 1))
      (Ids.unique (List.filter (Ids.startswith "NCT")
                     (Pipeline.nct_of repr <$> records))) in
  let out := Pipeline.filter_by_nct_limit repr records (Some limit) in
  out = List.filter (λ rec, bool_decide (Pipeline.nct_of repr rec ∈ firsts))
          records ∧
  NoDup firsts ∧
  (Z.of_nat (length firsts) ≤ Z.max limit 1)%Z ∧
  Forall (λ rec, Ids.startswith "NCT" (Pipeline.nct_of repr rec) = true) out ∧
  (out = [] ↔
   Forall (λ rec, Ids.startswith "NCT" (Pipeline.nct_of repr rec) = false)
     records).
Proof.
  intros Hl firsts out.
  assert (out = List.filter
                  (λ rec, bool_decide (Pipeline.nct_of repr rec ∈ firsts))
                  records) as Hout
    by (by apply filter_by_nct_limit_firsts).
  assert (∀ x, x ∈ firsts → Ids.startswith "NCT" x = true) as Hvalid.
  { intros x Hx. apply elem_of_take in Hx as (i & Hx & _).
    apply list_elem_of_lookup_2 in Hx.
    apply unique_from_elem in Hx as [Hx _].
    by apply elem_of_list_filter in Hx as [_ Hx]. }
  split_and!.
  - done.
  - eapply sublist_NoDup; [apply unique_from_NoDup|apply sublist_take].
  - unfold firsts. rewrite length_take. lia.
  - rewrite Hout. apply Forall_forall.
    intros rec [_ Hin%bool_decide_eq_true]%elem_of_list_filter. by apply Hvalid.
  - rewrite Hout. split.
    + intros He. apply Forall_forall. intros rec Hrec.
      destruct (Ids.startswith "NCT" (Pipeline.nct_of repr rec)) eqn:Hv; [|done].
      exfalso.
      assert (∃ x, head firsts = Some x) as [x Hx].
      { unfold firsts.
        destruct (Ids.unique _) as [|x l] eqn:Hu.
        - assert (Pipeline.nct_of repr rec ∈ Ids.unique
                    (List.filter (Ids.startswith "NCT")
                       (Pipeline.nct_of repr <$> records))) as Hin.
          { apply unique_from_elem. split; [|apply not_elem_of_empty].
            apply elem_of_list_filter. split; [|done].
            apply list_elem_of_fmap. by exists rec. }
          rewrite Hu in Hin. by apply elem_of_nil in Hin.
        - exists x. destruct (Z.to_nat (Z.max limit 1)) eqn:Hn; [lia|done]. }
      assert (x ∈ firsts) as Hxin by (by apply head_Some_elem_of).
      assert (x ∈ Pipeline.nct_of repr <$> records) as Hxr.
      { apply elem_of_take in Hxin as (i & Hxi & _).
        apply list_elem_of_lookup_2 in Hxi.
        apply unique_from_elem in Hxi as [Hxi _].
        by apply elem_of_list_filter in Hxi as [Hxi _]. }
      apply list_elem_of_fmap in Hxr as (rec' & -> & Hrec').
      assert (rec' ∈ List.filter
                (λ rec, bool_decide (Pipeline.nct_of repr rec ∈ firsts)) records)
        as Hin.
      { apply elem_of_list_filter. split; [done|]. by apply bool_decide_eq_true. }
      rewrite He in Hin. by apply elem_of_nil in Hin.
    + intros Hall.
      etrans; [|apply (list_filter_false records)].
      apply list_filter_ext_in. intros rec Hrec. apply bool_decide_eq_false.
      intros Hin%Hvalid.
      rewrite Forall_forall in Hall. specialize (Hall rec Hrec). congruence.
Qed.

Lemma filter_by_nct_limit_first_studies_witness :
  Pipeline.filter_by_nct_limit (λ _, "None")
    [[("nctId", Py.JStr "NCT02"); ("statement", Py.JStr "a")];
     [("nct_id", Py.JStr "NCT01"); ("statement", Py.JStr "b")];
     [("nctId", Py.JStr "X7"); ("statement", Py.JStr "c")];
     [("NCT_ID", Py.JStr " NCT02 "); ("statement", Py.JStr "d")]]
    (Some 1%Z)
  = [[("nctId", Py.JStr "NCT02"); ("statement", Py.JStr "a")];
     [("NCT_ID", Py.JStr " NCT02 "); ("statement", Py.JStr "d")]].
Proof.
  destruct (filter_by_nct_limit_first_studies (λ _, "None")
              [[("nctId", Py.JStr "NCT02"); ("statement", Py.JStr "a")];
               [("nct_id", Py.JStr "NCT01"); ("statement", Py.JStr "b")];
               [("nctId", Py.JStr "X7"); ("statement", Py.JStr "c")];
               [("NCT_ID", Py.JStr " NCT02 "); ("statement", Py.JStr "d")]]
              1%Z) as [H _]; [lia|].
  etrans; [exact H|]. vm_compute. reflexivity.
Defined.

(** ** The summary of the extraction of secondary outcomes *)

Lemma bind_nil_iff {A B} (f : A → list B) (l : list A) :
  l ≫= f = [] ↔ Forall (λ x, f x = []) l.
Proof.
  induction l as [|x l IH]; csimpl; [by split|].
  rewrite Forall_cons, <- IH. split.
  - by intros [? ?]%app_eq_nil.
  - by intros [-> ->].
Qed.

Lemma length_bind {A B} (f : A → list B) (l : list A) :
  length (l ≫= f) = sum_list (length ∘ f <$> l).
Proof.
  induction l as [|x l IH]; csimpl; [done|]. by rewrite length_app, IH.
Qed.

Lemma filter_all_iff {A} (f : A → bool) (l : list A) :
  List.filter f l = l ↔ Forall (λ x, f x = true) l.
Proof.
  induction l as [|x l IH]; simpl; [by split|].
  rewrite Forall_cons. destruct (f x) eqn:Hx.
  - rewrite <- IH. split; [by intros [= ->]|by intros [_ ->]].
  - split; [|by intros [? _]]. intros He. exfalso.
    assert (length (List.filter f l) = S (length l)) as Hlen by (by rewrite He).
    pose proof (sublist_length _ _ (list_filter_sublist f l)). lia.
Qed.

(** X15: the summary of the pooled extraction accounts for every
    identifier: the processed count is the number of completed tasks; the
    failed identifiers are, in completion order, exactly those whose task
    raised or found nothing; every other identifier contributes all its
    outcomes; and no outcome at all is saved exactly when every identifier
    is listed as failed. *)
Theorem secondary_summary_accounts (outcome : Type)
    (fetch_secondary_outcomes_direct : string → Py.result (list outcome))
    (completed : list string) :
  let is_failed := Secondary.is_failed outcome fetch_secondary_outcomes_direct in
  let outcomes_of :=
    Secondary.outcomes_of outcome fetch_secondary_outcomes_direct in
  let st := Secondary.main outcome fetch_secondary_outcomes_direct completed in
  Secondary.processed_count _ st = length completed ∧
  Secondary.failed_nct_ids _ st = List.filter is_failed completed ∧
  Secondary.all_outcomes _ st
    = List.filter (λ n, negb (is_failed n)) completed ≫= outcomes_of ∧
  length (Secondary.failed_nct_ids _ st)
    + length (List.filter (λ n, negb (is_failed n)) completed)
    = length completed ∧
  length (Secondary.all_outcomes _ st)
    = sum_list (length ∘ outcomes_of <$> completed) ∧
  (Secondary.all_outcomes _ st = [] ↔
   Secondary.failed_nct_ids _ st = completed).
Proof.
  intros is_failed outcomes_of st.
  assert (∀ n, is_failed n = true ↔ outcomes_of n = []) as Hfail.
  { intros n. unfold is_failed, outcomes_of, Secondary.is_failed,
      Secondary.outcomes_of.
    by destruct (Secondary.process_nct_id outcome _ n) as [[|o os]|e]. }
  assert (st = {| Secondary.all_outcomes := completed ≫= outcomes_of;
                  Secondary.failed_nct_ids := List.filter is_failed completed;
                  Secondary.processed_count := length completed |}) as ->.
  { unfold st, Secondary.main. by rewrite secondary_loop. }
  cbn [Secondary.all_outcomes Secondary.failed_nct_ids
       Secondary.processed_count].
  split_and!.
  - done.
  - done.
  - induction completed as [|n l IH]; [done|]. csimpl.
    destruct (is_failed n) eqn:Hn; csimpl.
    + apply Hfail in Hn. by rewrite Hn.
    + by rewrite IH.
  - rewrite Nat.add_comm, <- length_app.
    apply Permutation_length, list_filter_partition.
  - apply length_bind.
  - rewrite bind_nil_iff, filter_all_iff.
    apply Forall_iff. intros n. by rewrite Hfail.
Qed.

(** ** The name and the path of a download *)

Lemma mem_char_app c s1 s2 :
  PyText.mem_char c (s1 +:+ s2) = PyText.mem_char c s1 || PyText.mem_char c s2.
Proof.
  induction s1 as [|a s1 IH]; [done|].
  rewrite string_app_cons. simpl. by rewrite IH, orb_assoc.
Qed.

Lemma string_app_one a s : String a "" +:+ s = String a s.
Proof. reflexivity. Qed.

Lemma replace_char_cons ch new a s :
  PyText.replace (String ch "") new (String a s)
  = if bool_decide (a = ch) then new +:+ PyText.replace (String ch "") new s
    else String a (PyText.replace (String ch "") new s).
Proof.
  unfold PyText.replace. simpl.
  destruct (ascii_dec ch a) as [->|Hne].
  - rewrite bool_decide_eq_true_2 by done. by destruct s.
  - by rewrite bool_decide_eq_false_2 by congruence.
Qed.

Lemma replace_char_gone ch s :
  ch ≠ "_"%char →
  PyText.mem_char ch (PyText.replace (String ch "") "_" s) = false.
Proof.
  intros Hne. induction s as [|a s IH]; [done|].
  rewrite replace_char_cons. case_bool_decide as Ha.
  - rewrite string_app_one. simpl. rewrite IH.
    by rewrite bool_decide_eq_false_2 by congruence.
  - simpl. rewrite IH. by rewrite bool_decide_eq_false_2.
Qed.

Lemma replace_char_other c ch s :
  c ≠ "_"%char → c ≠ ch →
  PyText.mem_char c (PyText.replace (String ch "") "_" s) = PyText.mem_char c s.
Proof.
  intros Hu Hne. induction s as [|a s IH]; [done|].
  rewrite replace_char_cons. case_bool_decide as Ha.
  - rewrite string_app_one. simpl. rewrite IH. subst a.
    by rewrite !bool_decide_eq_false_2 by congruence.
  - simpl. by rewrite IH.
Qed.

Lemma replace_char_absent ch new s :
  PyText.mem_char ch s = false → PyText.replace (String ch "") new s = s.
Proof.
  induction s as [|a s IH]; [done|]. simpl.
  intros [Ha Hs]%orb_false_iff. rewrite replace_char_cons, Ha. by rewrite IH.
Qed.

Lemma replace_chars_absent (chars : list ascii) s :
  Forall (λ ch, PyText.mem_char ch s = false) chars →
  foldl (λ name ch, PyText.replace (String ch "") "_" name) s chars = s.
Proof.
  induction 1 as [|ch chars Hch _ IH]; [done|]. simpl.
  by rewrite replace_char_absent.
Qed.

Lemma replace_chars_gone (chars : list ascii) : ∀ s c,
  Forall (λ ch, ch ≠ "_"%char) chars →
  c ∈ chars ∨ PyText.mem_char c s = false → c ≠ "_"%char →
  PyText.mem_char c
    (foldl (λ name ch, PyText.replace (String ch "") "_" name) s chars) = false.
Proof.
  induction chars as [|ch chars IH]; intros s c Hall Hc Hu.
  - destruct Hc as [Hc|Hc]; [by apply elem_of_nil in Hc|done].
  - apply Forall_cons in Hall as [Hch Hall]. simpl. apply IH; [done| |done].
    destruct (decide (c = ch)) as [->|Hne].
    + right. by apply replace_char_gone.
    + destruct Hc as [Hc|Hc].
      * apply elem_of_cons in Hc as [?|Hc]; [done|by left].
      * right. by rewrite replace_char_other.
Qed.

Lemma replace_chars_kept (chars : list ascii) : ∀ s c,
  c ∉ chars → c ≠ "_"%char →
  PyText.mem_char c
    (foldl (λ name ch, PyText.replace (String ch "") "_" name) s chars)
  = PyText.mem_char c s.
Proof.
  induction chars as [|ch chars IH]; intros s c Hc Hu; [done|].
  apply not_elem_of_cons in Hc as [Hne Hc]. simpl.
  rewrite IH by done. by apply replace_char_other.
Qed.

Lemma invalid_not_underscore : Forall (λ ch, ch ≠ "_"%char) Download.invalid.
Proof. repeat constructor; discriminate. Qed.

Lemma clean_name_valid name :
  (∀ c, c ∈ Download.invalid →
        PyText.mem_char c (Download.clean_name name) = false) ∧
  PyText.mem_char "." (Download.clean_name name) = true.
Proof.
  unfold Download.clean_name. split.
  - intros c Hc. apply replace_chars_gone.
    + apply invalid_not_underscore.
    + by left.
    + pose proof invalid_not_underscore as H.
      rewrite Forall_forall in H. by apply H.
  - rewrite replace_chars_kept.
    + destruct (PyText.mem_char "." name) eqn:Hd; simpl; [done|].
      rewrite mem_char_app. by rewrite orb_true_r.
    + unfold Download.invalid. rewrite !not_elem_of_cons.
      split_and!; try discriminate. apply not_elem_of_nil.
    + discriminate.
Qed.

Lemma clean_name_fixed name :
  (∀ c, c ∈ Download.invalid → PyText.mem_char c name = false) →
  PyText.mem_char "." name = true →
  Download.clean_name name = name.
Proof.
  intros Hv Hd. unfold Download.clean_name. rewrite Hd. simpl negb. cbv iota.
  apply replace_chars_absent, Forall_forall. intros c Hc. by apply Hv.
Qed.

Lemma split_go_length sep s : ∀ skip cur,
  1 ≤ length (PyText.split_go sep skip cur s).
Proof.
  induction s as [|a s IH]; intros skip cur; [simpl; lia|].
  cbn [PyText.split_go]. destruct skip; [|apply IH].
  destruct (String.prefix sep (String a s)); [cbn [length]; lia|apply IH].
Qed.

Lemma split_contains sep s : ∀ cur,
  sep ≠ "" →
  PyText.contains sep s = true →
  2 ≤ length (PyText.split_go sep 0 cur s).
Proof.
  induction s as [|a s IH]; intros cur Hsep Hc.
  - by destruct sep.
  - cbn [PyText.contains] in Hc. cbn [PyText.split_go].
    destruct (String.prefix sep (String a s)) eqn:Hp.
    + cbn [length]. pose proof (split_go_length sep s (String.length sep - 1) "").
      lia.
    + simpl in Hc. by apply IH.
Qed.

Lemma named_by_header_contains headers cd :
  Download.named_by_header headers = Some cd →
  PyText.contains "filename=" cd = true.
Proof.
  unfold Download.named_by_header.
  destruct (Download.or_else _ _) as [cd'|]; [|done].
  destruct (PyStr.truthy cd' && PyText.contains "filename=" cd') eqn:Hc;
    [|done].
  intros [= <-]. by apply andb_true_iff in Hc as [_ Hc].
Qed.

Lemma raw_name_cases url_path basename hash url headers :
  match Download.named_by_header headers with
  | Some cd =>
      ∃ raw, Download.raw_name url_path basename hash url headers = Py.Ok raw
  | None =>
      match url_path url with
      | Py.Ok _ =>
          ∃ raw, Download.raw_name url_path basename hash url headers
                 = Py.Ok raw
      | Py.Raise e =>
          Download.raw_name url_path basename hash url headers = Py.Raise e
      end
  end.
Proof.
  unfold Download.raw_name, Download.name_from_url.
  destruct (Download.named_by_header headers) as [cd|] eqn:Hh.
  - apply named_by_header_contains in Hh.
    apply (split_contains _ _ "") in Hh; [|done].
    unfold PyText.split.
    destruct (PyText.split_go "filename=" 0 "" cd) as [|p0 [|p1 ps]];
      simpl in Hh; [lia|lia|]. by eexists.
  - destruct (url_path url) as [path|e]; simpl; [by eexists|done].
Qed.

(** X16: safe_filename_from_url raises only when the header names no file
    and urlparse rejects the URL, with the error of urlparse; in every
    other case it returns a name.  A name that it returns always has a dot
    and none of the nine characters that a file name must not hold, so it
    is never empty; a name that already has a dot and no such character
    comes out of the cleaning unchanged, so cleaning twice changes
    nothing. *)
Theorem safe_filename_is_safe (url_path : string → Py.result string)
    (basename : string → string) (hash : string → Z)
    (url : string) (headers : gmap string string) :
  let out :=
    Download.safe_filename_from_url url_path basename hash url headers in
  (∀ name, out = Py.Ok name →
     (∀ c, c ∈ Download.invalid → PyText.mem_char c name = false) ∧
     PyText.mem_char "." name = true ∧
     name ≠ "" ∧
     Download.clean_name name = name) ∧
  (∀ e, out = Py.Raise e ↔
        Download.named_by_header headers = None ∧ url_path url = Py.Raise e) ∧
  (Download.named_by_header headers ≠ None ∨ (∃ path, url_path url = Py.Ok path) →
   ∃ name, out = Py.Ok name) ∧
  (∀ name, Download.clean_name (Download.clean_name name)
           = Download.clean_name name) ∧
  (∀ name, (∀ c, c ∈ Download.invalid → PyText.mem_char c name = false) →
           PyText.mem_char "." name = true →
           Download.clean_name name = name).
Proof.
  intros out. subst out. unfold Download.safe_filename_from_url.
  pose proof (raw_name_cases url_path basename hash url headers) as Hraw.
  split_and!.
  - intros name Hname.
    destruct (Download.raw_name _ _ _ _ _) as [raw|e]; [|done].
    injection Hname as <-.
    destruct (clean_name_valid raw) as [Hv Hd]. split_and!; [done|done| |].
    + intros He. by rewrite He in Hd.
    + by apply clean_name_fixed.
  - intros e.
    destruct (Download.named_by_header headers) as [cd|].
    + destruct Hraw as [raw ->]. split; [done|by intros [? _]].
    + destruct (url_path url) as [path|e'].
      * destruct Hraw as [raw ->]. split; [done|by intros [_ ?]].
      * rewrite Hraw. simpl. split.
        -- by intros [= ->].
        -- by intros [_ [= ->]].
  - intros Hok.
    destruct (Download.named_by_header headers) as [cd|].
    + destruct Hraw as [raw ->]. by eexists.
    + destruct Hok as [?|[path Hpath]]; [done|]. rewrite Hpath in Hraw.
      destruct Hraw as [raw ->]. by eexists.
  - intros name. destruct (clean_name_valid name) as [Hv Hd].
    by apply clean_name_fixed.
  - apply clean_name_fixed.
Qed.

Lemma safe_filename_is_safe_witness :
  (∃ name,
     Download.safe_filename_from_url
       (λ _, Py.Raise (Py.OtherException "ValueError" "Invalid IPv6 URL"))
       (λ p, p) (λ _, 0%Z) "http://["
       {[ "Content-Disposition" := "attachment; filename=a.pdf" ]}
     = Py.Ok name) ∧
  Download.clean_name "report.pdf" = "report.pdf".
Proof.
  destruct (safe_filename_is_safe
              (λ _, Py.Raise (Py.OtherException "ValueError" "Invalid IPv6 URL"))
              (λ p, p) (λ _, 0%Z) "http://["
              {[ "Content-Disposition" := "attachment; filename=a.pdf" ]})
    as (_ & _ & Hok & _ & Hfix).
  split.
  - apply Hok. left. vm_compute. discriminate.
  - apply Hfix.
    + intros c Hc. unfold Download.invalid in Hc.
      repeat (apply elem_of_cons in Hc as [->|Hc]; [reflexivity|]).
      by apply elem_of_nil in Hc.
    + reflexivity.
Defined.

Section UniquePath.
Variable joinpath : string → string → string.
Variable stem suffix : string → string.
Variable files : gset string.
Variable base_dir filename : string.

#[local] Abbreviation candidate :=
  (Download.candidate joinpath stem suffix base_dir filename).
#[local] Abbreviation first_free :=
  (λ fuel, Download.first_free joinpath stem suffix files fuel base_dir filename).

Lemma first_free_Some fuel : ∀ counter p,
  first_free fuel counter = Some p →
  ∃ k, counter ≤ k < counter + fuel ∧ p = candidate k ∧ (p ∉ files) ∧
       ∀ j, counter ≤ j < k → candidate j ∈ files.
Proof.
  induction fuel as [|fuel IH]; intros counter p H; [by simpl in H|].
  cbn [Download.first_free] in H. case_bool_decide as Hc; simpl in H.
  - apply IH in H as (k & Hk & -> & Hfree & Hbelow).
    exists k. split_and!; [lia|lia|done|done|].
    intros j Hj. destruct (decide (j = counter)) as [->|]; [done|].
    apply Hbelow. lia.
  - injection H as <-. exists counter. split_and!; [lia|lia|done|done|].
    intros j Hj. lia.
Qed.

Lemma first_free_None fuel : ∀ counter,
  first_free fuel counter = None →
  ∀ j, counter ≤ j < counter + fuel → candidate j ∈ files.
Proof.
  induction fuel as [|fuel IH]; intros counter H j Hj; [lia|].
  cbn [Download.first_free] in H. case_bool_decide as Hc; simpl in H; [|done].
  destruct (decide (j = counter)) as [->|]; [done|].
  apply (IH (S counter)); [done|lia].
Qed.

Lemma first_free_more fuel : ∀ counter p fuel',
  first_free fuel counter = Some p → fuel ≤ fuel' →
  first_free fuel' counter = Some p.
Proof.
  induction fuel as [|fuel IH]; intros counter p fuel' H Hle; [by simpl in H|].
  destruct fuel' as [|fuel']; [lia|].
  cbn [Download.first_free] in *. case_bool_decide as Hc; simpl in *; [|done].
  apply IH; [done|lia].
Qed.

Lemma first_free_enough counter :
  NoDup (candidate <$> List.seq counter (S (size files))) →
  is_Some (first_free (S (size files)) counter).
Proof.
  intros Hnd.
  destruct (first_free (S (size files)) counter) as [p|] eqn:H; [done|].
  exfalso.
  pose proof (first_free_None _ _ H) as Hall.
  assert (list_to_set (candidate <$> List.seq counter (S (size files))) ⊆ files)
    as Hsub.
  { intros x Hx. apply elem_of_list_to_set in Hx.
    apply list_elem_of_fmap in Hx as (j & -> & Hj).
    apply elem_of_seq in Hj. apply Hall. lia. }
  apply subseteq_size in Hsub.
  rewrite size_list_to_set in Hsub by done.
  rewrite length_fmap, length_seq in Hsub. lia.
Qed.

(** X17: ensure_unique_path returns a path that does not exist yet: the
    target itself when it is free, else the candidate with the least
    counter from 1 that is free, every candidate below it being taken.
    The loop ends after at most as many turns as there are existing paths,
    plus one, as long as the candidates of different counters are
    different paths. *)
Theorem ensure_unique_path_is_free :
  NoDup (candidate <$> List.seq 1 (S (size files))) →
  ∃ p,
    (∀ fuel, S (size files) ≤ fuel →
       Download.ensure_unique_path joinpath stem suffix files fuel
         base_dir filename = Some p) ∧
    (p ∉ files) ∧
    (p = joinpath base_dir filename ∨
     joinpath base_dir filename ∈ files ∧
     ∃ k, 1 ≤ k ≤ S (size files) ∧ p = candidate k ∧
          ∀ j, 1 ≤ j < k → candidate j ∈ files).
Proof.
  intros Hnd. unfold Download.ensure_unique_path.
  destruct (decide (joinpath base_dir filename ∈ files)) as [Hin|Hin].
  - destruct (first_free_enough 1 Hnd) as [p Hp].
    exists p. split_and!.
    + intros fuel Hfuel. rewrite bool_decide_eq_true_2 by done. simpl.
      by apply (first_free_more (S (size files))).
    + by apply first_free_Some in Hp as (k & _ & _ & ? & _).
    + right. split; [done|].
      apply first_free_Some in Hp as (k & Hk & -> & _ & Hbelow).
      exists k. split_and!; [lia|lia|done|done].
  - exists (joinpath base_dir filename). split_and!; [|done|by left].
    intros fuel _. by rewrite bool_decide_eq_false_2.
Qed.

End UniquePath.

Lemma ensure_unique_path_is_free_witness :
  ∃ p,
    (∀ fuel, 3 ≤ fuel →
       Download.ensure_unique_path (λ b n, b +:+ "/" +:+ n) (λ _, "a")
         (λ _, ".txt") {["d/a.txt"; "d/a_1.txt"]} fuel "d" "a.txt" = Some p) ∧
    p ∉ ({["d/a.txt"; "d/a_1.txt"]} : gset string).
Proof.
  destruct (ensure_unique_path_is_free (λ b n, b +:+ "/" +:+ n) (λ _, "a")
              (λ _, ".txt") {["d/a.txt"; "d/a_1.txt"]} "d" "a.txt")
    as (p & Hp & Hfree & _).
  - apply (bool_decide_unpack _). vm_compute. exact I.
  - exists p. split; [|done]. intros fuel Hfuel. apply Hp.
    replace (size _) with 2 by (vm_compute; reflexivity). lia.
Defined.

(** ** Counting words *)

Lemma collapse_sub_runs s : PyStr.collapse s = PyText.sub_runs PyStr.isspace s.
Proof.
  induction s as [|a s IH]; [done|]. simpl.
  destruct (PyStr.isspace a); [|by rewrite IH].
  destruct s as [|b s]; [done|]. by rewrite IH.
Qed.

Lemma runs_ext (f g : ascii → bool) s :
  (∀ c, f c = g c) → ∀ b, PyText.runs f b s = PyText.runs g b s.
Proof.
  intros Hfg. induction s as [|a s IH]; intros b; [done|]. simpl.
  by rewrite Hfg, !IH.
Qed.

Lemma runs_after_sep sep a s b :
  sep a = true →
  PyText.runs sep b (String a s) = PyText.runs sep false (String a s).
Proof. intros Ha. simpl. by rewrite Ha. Qed.

Lemma runs_sub_runs (sep p : ascii → bool) s :
  sep " "%char = true →
  ∀ b, PyText.runs sep b (PyText.sub_runs p s)
       = PyText.runs (λ c, sep c || p c) b s.
Proof.
  intros Hsp. induction s as [|a s IH]; intros b; [done|].
  cbn [PyText.sub_runs]. destruct (p a) eqn:Hpa.
  - cbn [PyText.runs]. rewrite Hpa, orb_true_r.
    destruct s as [|c s].
    + simpl. by rewrite Hsp.
    + destruct (p c) eqn:Hpc.
      * rewrite IH. apply (runs_after_sep (λ c, sep c || p c)).
        by rewrite Hpc, orb_true_r.
      * cbn [PyText.runs]. rewrite Hsp. apply IH.
  - cbn [PyText.runs]. rewrite Hpa, orb_false_r.
    destruct (sep a); by rewrite IH.
Qed.

Lemma truthy_app_one cur a : PyStr.truthy (cur +:+ String a "") = true.
Proof. destruct cur; [done|]. by rewrite string_app_cons. Qed.

Lemma split_ws_go_length s : ∀ cur,
  length (PyText.split_ws_go cur s)
  = PyText.runs PyStr.isspace (PyStr.truthy cur) s
    + (if PyStr.truthy cur then 1 else 0).
Proof.
  induction s as [|a s IH]; intros cur; cbn [PyText.split_ws_go PyText.runs].
  - by destruct (PyStr.truthy cur).
  - destruct (PyStr.isspace a).
    + destruct (PyStr.truthy cur); cbn [length]; rewrite IH; simpl; lia.
    + rewrite IH, truthy_app_one. destruct (PyStr.truthy cur); lia.
Qed.

Lemma stripped_app_one cur a :
  PyStr.isspace a = false →
  cur = "" ∨ (cur ≠ "" ∧ PyStr.stripped cur) →
  cur +:+ String a "" ≠ "" ∧ PyStr.stripped (cur +:+ String a "").
Proof.
  intros Ha [->|[Hne [Hl Hr]]].
  - split; [done|]. split; simpl; by rewrite Ha.
  - split.
    + destruct cur; [done|]. by rewrite string_app_cons.
    + split.
      * by apply lstrip_app.
      * rewrite rstrip_app; simpl; by rewrite Ha.
Qed.

Lemma split_ws_go_pieces s : ∀ cur,
  cur = "" ∨ (cur ≠ "" ∧ PyStr.stripped cur) →
  Forall (λ w, w ≠ "" ∧ PyStr.stripped w) (PyText.split_ws_go cur s).
Proof.
  induction s as [|a s IH]; intros cur Hcur; cbn [PyText.split_ws_go].
  - destruct Hcur as [->|Hcur]; [constructor|].
    destruct cur; [by destruct Hcur|]. simpl. constructor; [done|constructor].
  - destruct (PyStr.isspace a) eqn:Ha.
    + destruct Hcur as [->|Hcur]; simpl; [apply IH; by left|].
      destruct cur; [by destruct Hcur|]. simpl.
      constructor; [done|]. apply IH. by left.
    + apply IH. right. by apply stripped_app_one.
Qed.

Lemma words_of_pieces (pieces : list string) :
  Forall (λ w, w ≠ "" ∧ PyStr.stripped w) pieces →
  PyStr.strip <$> List.filter (λ w, PyStr.truthy (PyStr.strip w)) pieces
  = pieces.
Proof.
  induction 1 as [|w pieces [Hne Hs] _ IH]; [done|].
  cbn [List.filter]. rewrite (stripped_strip w Hs).
  destruct w as [|a w]; [done|]. cbn [PyStr.truthy].
  rewrite fmap_cons, IH. f_equal. by apply stripped_strip.
Qed.

Lemma replace_pair_hit a c new s :
  PyText.replace (String a (String c "")) new (String a (String c s))
  = new +:+ PyText.replace (String a (String c "")) new s.
Proof.
  unfold PyText.replace. cbn [PyText.replace_go String.prefix].
  destruct (ascii_dec a a) as [_|]; [|done].
  destruct (ascii_dec c c) as [_|]; [|done].
  by destruct s.
Qed.

Lemma replace_pair_miss a c new x s :
  String.prefix (String a (String c "")) (String x s) = false →
  PyText.replace (String a (String c "")) new (String x s)
  = String x (PyText.replace (String a (String c "")) new s).
Proof.
  intros Hp. unfold PyText.replace. cbn [PyText.replace_go]. by rewrite Hp.
Qed.

Lemma runs_replace_pair (sep : ascii → bool) a c n :
  sep a = false → sep c = false →
  ∀ s b, String.length s ≤ n →
  PyText.runs sep b (PyText.replace (String a (String c "")) (String c "") s)
  = PyText.runs sep b s.
Proof.
  intros Ha Hc. induction n as [|n IH]; intros s b Hlen.
  - destruct s; [done|simpl in Hlen; lia].
  - destruct s as [|x s]; [done|].
    destruct (String.prefix (String a (String c "")) (String x s)) eqn:Hp.
    + simpl in Hp. destruct (ascii_dec a x) as [<-|]; [|done].
      destruct s as [|y s]; [done|].
      simpl in Hp. destruct (ascii_dec c y) as [<-|]; [|done].
      rewrite replace_pair_hit, string_app_one.
      cbn [PyText.runs]. rewrite Ha, Hc.
      rewrite IH by (simpl in Hlen; lia). by destruct b.
    + rewrite replace_pair_miss by done. cbn [PyText.runs].
      rewrite !IH by (simpl in Hlen; lia). done.
Qed.

Lemma runs_unescape s b :
  PyText.runs Pipeline.is_sep b (Pipeline.unescape s)
  = PyText.runs Pipeline.is_sep b s.
Proof.
  unfold Pipeline.unescape.
  rewrite (runs_replace_pair Pipeline.is_sep "\" "~" _ eq_refl eq_refl
             _ b (Nat.le_refl _)).
  rewrite (runs_replace_pair Pipeline.is_sep "\" ">" _ eq_refl eq_refl
             _ b (Nat.le_refl _)).
  apply (runs_replace_pair Pipeline.is_sep "\" "<" _ eq_refl eq_refl
           _ b (Nat.le_refl _)).
Qed.

Lemma count_words_runs repr statement :
  Pipeline.count_words repr statement
  = PyText.runs Pipeline.is_sep false (Fetch.str repr statement).
Proof.
  unfold Pipeline.count_words.
  rewrite words_of_pieces by (apply split_ws_go_pieces; by left).
  unfold PyText.split_ws. rewrite split_ws_go_length. simpl PyStr.truthy.
  rewrite Nat.add_0_r, collapse_sub_runs.
  rewrite runs_sub_runs by done.
  rewrite (runs_ext _ PyStr.isspace) by (intros c; by destruct (PyStr.isspace c)).
  rewrite runs_sub_runs by done.
  apply runs_unescape.
Qed.

Lemma runs_app sep s1 s2 :
  sep " "%char = true →
  ∀ b, PyText.runs sep b (s1 +:+ String " " s2)
       = PyText.runs sep b s1 + PyText.runs sep false s2.
Proof.
  intros Hsp. induction s1 as [|a s1 IH]; intros b.
  - change ("" +:+ String " " s2) with (String " " s2). simpl.
    by rewrite Hsp.
  - rewrite string_app_cons. cbn [PyText.runs].
    destruct (sep a); rewrite IH; lia.
Qed.

Lemma runs_le sep s : ∀ b, PyText.runs sep b s ≤ String.length s.
Proof.
  induction s as [|a s IH]; intros b; simpl; [lia|].
  destruct (sep a); [specialize (IH false); lia|].
  specialize (IH true). destruct b; lia.
Qed.

(** X18: count_words counts the maximal runs of characters that are neither
    whitespace nor one of ; . , in the text as it is given: dropping the
    backslashes before <, > and ~ and collapsing the whitespace never
    change the count.  So the count of a text and of its unescaped form are
    equal, the count of two texts joined by a space is the sum of their
    counts, and the count never exceeds the number of characters. *)
Theorem count_words_counts_runs (repr : Py.json → string) :
  (∀ statement,
     Pipeline.count_words repr statement
     = PyText.runs Pipeline.is_sep false (Fetch.str repr statement)) ∧
  (∀ s, Pipeline.count_words repr (Py.JStr (Pipeline.unescape s))
        = Pipeline.count_words repr (Py.JStr s)) ∧
  (∀ s1 s2, Pipeline.count_words repr (Py.JStr (s1 +:+ " " +:+ s2))
            = Pipeline.count_words repr (Py.JStr s1)
              + Pipeline.count_words repr (Py.JStr s2)) ∧
  (∀ s, Pipeline.count_words repr (Py.JStr s) ≤ String.length s).
Proof.
  split_and!.
  - apply count_words_runs.
  - intros s. rewrite !count_words_runs. simpl. apply runs_unescape.
  - intros s1 s2. rewrite !count_words_runs. simpl Fetch.str.
    rewrite string_app_one. by apply runs_app.
  - intros s. rewrite count_words_runs. apply runs_le.
Qed.

(** ** The statement files of the pipeline *)

Section StatementDocs.
Variable repr : Py.json → string.
Variable path_join : string → string → string.

#[local] Abbreviation record_map per_nct :=
  (list_to_map per_nct : gmap string (list Pipeline.record)).
#[local] Abbreviation of_study k records :=
  (List.filter (λ r, bool_decide (Pipeline.nct_of repr r = k)) records).

Lemma setdefault_append_keys per_nct nct rec :
  (Pipeline.setdefault_append per_nct nct rec).*1
  = if decide (nct ∈ per_nct.*1) then per_nct.*1 else per_nct.*1 ++ [nct].
Proof.
  induction per_nct as [|[k recs] rest IH].
  - destruct (decide (nct ∈ [].*1)) as [Hin|_]; [|done].
    by apply elem_of_nil in Hin.
  - cbn [Pipeline.setdefault_append].
    destruct (decide (k = nct)) as [->|Hne].
    + destruct (decide (nct ∈ ((nct, recs) :: rest).*1)) as [_|Hin]; [done|].
      exfalso. apply Hin. left.
    + rewrite !fmap_cons, IH. cbn [fst].
      destruct (decide (nct ∈ rest.*1)) as [Hin|Hin];
        destruct (decide (nct ∈ k :: rest.*1)) as [Hin'|Hin']; try done.
      * exfalso. apply Hin'. by right.
      * exfalso. apply elem_of_cons in Hin' as [?|?]; congruence.
Qed.

Lemma setdefault_append_map per_nct nct rec :
  record_map (Pipeline.setdefault_append per_nct nct rec)
  = <[nct := default [] (record_map per_nct !! nct) ++ [rec]]>
      (record_map per_nct).
Proof.
  induction per_nct as [|[k recs] rest IH]; simpl.
  - done.
  - destruct (decide (k = nct)) as [->|Hne]; simpl.
    + rewrite lookup_insert_eq. simpl. by rewrite insert_insert_eq.
    + rewrite IH, lookup_insert_ne by done. by apply insert_insert_ne.
Qed.

Lemma setdefault_append_total per_nct nct rec :
  sum_list (length ∘ snd <$> Pipeline.setdefault_append per_nct nct rec)
  = S (sum_list (length ∘ snd <$> per_nct)).
Proof.
  induction per_nct as [|[k recs] rest IH]; [done|].
  cbn [Pipeline.setdefault_append].
  destruct (decide (k = nct)) as [->|Hne]; rewrite !fmap_cons; cbn [sum_list].
  - simpl. rewrite length_app. simpl. lia.
  - rewrite IH. lia.
Qed.

Lemma group_keys records : ∀ per_nct,
  (foldl (Pipeline.group_record repr) per_nct records).*1
  = per_nct.*1 ++
    Ids.unique_from (list_to_set per_nct.*1)
      (List.filter PyStr.truthy (Pipeline.nct_of repr <$> records)).
Proof.
  induction records as [|rec records IH]; intros per_nct.
  - simpl. by rewrite app_nil_r.
  - cbn [foldl]. rewrite IH. unfold Pipeline.group_record.
    rewrite fmap_cons. cbn [List.filter].
    destruct (PyStr.truthy (Pipeline.nct_of repr rec)) eqn:Ht; cbn [negb];
      [|done].
    rewrite setdefault_append_keys. cbn [Ids.unique_from].
    destruct (decide (Pipeline.nct_of repr rec ∈ per_nct.*1)) as [Hin|Hin].
    + rewrite decide_True; [done|]. by apply elem_of_list_to_set.
    + rewrite decide_False by (by rewrite elem_of_list_to_set).
      rewrite <- app_assoc. simpl. do 3 f_equal.
      rewrite list_to_set_app_L. simpl.
      by rewrite (right_id_L ∅ (∪)), (comm_L (∪)).
Qed.

Lemma group_lookup records k : ∀ per_nct,
  k ≠ "" →
  record_map (foldl (Pipeline.group_record repr) per_nct records) !! k
  = match record_map per_nct !! k, of_study k records with
    | Some recs, l => Some (recs ++ l)
    | None, [] => None
    | None, l => Some l
    end.
Proof.
  intros per_nct Hk. revert per_nct.
  induction records as [|rec records IH]; intros per_nct.
  - simpl. destruct (_ !! k); [by rewrite app_nil_r|done].
  - cbn [foldl]. rewrite IH. unfold Pipeline.group_record at 1.
    cbn [List.filter].
    destruct (PyStr.truthy (Pipeline.nct_of repr rec)) eqn:Ht; cbn [negb].
    + rewrite setdefault_append_map.
      destruct (decide (Pipeline.nct_of repr rec = k)) as [Heq|Hne].
      * rewrite Heq, lookup_insert_eq, bool_decide_eq_true_2 by done.
        destruct (_ !! k) as [l|]; simpl; [|done].
        by rewrite <- app_assoc.
      * rewrite lookup_insert_ne, bool_decide_eq_false_2 by done. done.
    + rewrite bool_decide_eq_false_2; [done|].
      intros Heq. rewrite Heq in Ht. by destruct k.
Qed.

Lemma group_total records : ∀ per_nct,
  sum_list (length ∘ snd <$> foldl (Pipeline.group_record repr) per_nct records)
  = sum_list (length ∘ snd <$> per_nct)
    + length (List.filter (λ r, PyStr.truthy (Pipeline.nct_of repr r)) records).
Proof.
  induction records as [|rec records IH]; intros per_nct; [simpl; lia|].
  cbn [foldl List.filter]. rewrite IH. unfold Pipeline.group_record at 1.
  destruct (PyStr.truthy (Pipeline.nct_of repr rec)); cbn [negb]; [|done].
  rewrite setdefault_append_total. simpl. lia.
Qed.

(** X19: write_statement_docs writes one file for every record that has an
    identifier and none for the others.  The studies come in the order in
    which their identifiers first appear, each once, and the records of a
    study are exactly the input records with its identifier, in input
    order. *)
Theorem write_statement_docs_groups (records : list Pipeline.record)
    (docs_dir : string) (include_metadata : bool) :
  let groups := Pipeline.group_by_nct repr records in
  groups.*1
    = Ids.unique (List.filter PyStr.truthy (Pipeline.nct_of repr <$> records)) ∧
  NoDup groups.*1 ∧
  (∀ nct recs, (nct, recs) ∈ groups →
     nct ≠ "" ∧ recs ≠ [] ∧ recs = of_study nct records) ∧
  (∀ rec, rec ∈ records → Pipeline.nct_of repr rec ≠ "" →
     (Pipeline.nct_of repr rec, of_study (Pipeline.nct_of repr rec) records)
     ∈ groups) ∧
  length (Pipeline.write_statement_docs repr path_join records docs_dir
            include_metadata)
  = length (List.filter (λ r, PyStr.truthy (Pipeline.nct_of repr r)) records).
Proof.
  intros groups.
  assert (groups.*1 = Ids.unique (List.filter PyStr.truthy
                                    (Pipeline.nct_of repr <$> records)))
    as Hkeys.
  { unfold groups, Pipeline.group_by_nct. by rewrite group_keys. }
  assert (NoDup groups.*1) as Hnd.
  { rewrite Hkeys. apply unique_from_NoDup. }
  assert (∀ k, k ≠ "" →
            record_map groups !! k
            = match of_study k records with [] => None | l => Some l end)
    as Hlook.
  { intros k Hk. unfold groups, Pipeline.group_by_nct.
    by rewrite group_lookup. }
  split_and!; [done|done| | |].
  - intros nct recs Hin.
    assert (nct ≠ "") as Hne.
    { assert (nct ∈ groups.*1) as Hk.
      { apply list_elem_of_fmap. by exists (nct, recs). }
      rewrite Hkeys in Hk. apply unique_from_elem in Hk as [Hk _].
      apply elem_of_list_filter in Hk as [_ Hk]. by destruct nct. }
    apply elem_of_list_to_map in Hin; [|done].
    rewrite Hlook in Hin by done.
    destruct (of_study nct records) as [|r l] eqn:Hs; [done|].
    injection Hin as <-. done.
  - intros rec Hrec Hne. apply elem_of_list_to_map; [done|].
    rewrite Hlook by done.
    destruct (of_study _ records) as [|r l] eqn:Hs; [|done].
    assert (rec ∈ of_study (Pipeline.nct_of repr rec) records) as Hin.
    { apply elem_of_list_filter. split; [done|]. by apply bool_decide_eq_true. }
    rewrite Hs in Hin. by apply elem_of_nil in Hin.
  - unfold Pipeline.write_statement_docs. rewrite length_bind.
    fold groups. transitivity (sum_list (length ∘ snd <$> groups)).
    + f_equal. apply list_fmap_ext. intros _ [nct recs] _. simpl.
      by rewrite length_imap.
    + exact (group_total records []).
Qed.

End StatementDocs.

Lemma write_statement_docs_groups_witness :
  (Pipeline.nct_of (λ _, "None") [("nct_id", Py.JStr "NCT01")],
   List.filter
     (λ r, bool_decide (Pipeline.nct_of (λ _, "None") r
                        = Pipeline.nct_of (λ _, "None") [("nct_id", Py.JStr "NCT01")]))
     [[("nctId", Py.JStr "NCT02")]; [("nct_id", Py.JStr "NCT01")];
      [("nctId", Py.JStr "")]; [("NCT_ID", Py.JStr " NCT02 ")]])
  ∈ Pipeline.group_by_nct (λ _, "None")
      [[("nctId", Py.JStr "NCT02")]; [("nct_id", Py.JStr "NCT01")];
       [("nctId", Py.JStr "")]; [("NCT_ID", Py.JStr " NCT02 ")]].
Proof.
  apply (write_statement_docs_groups (λ _, "None") (λ a b, a +:+ "/" +:+ b)
           [[("nctId", Py.JStr "NCT02")]; [("nct_id", Py.JStr "NCT01")];
            [("nctId", Py.JStr "")]; [("NCT_ID", Py.JStr " NCT02 ")]]
           "docs" true).
  - right. left.
  - vm_compute. discriminate.
Defined.

(** ** The batch of the API script *)


Section ApiReport.
Variable repr : Py.json → string.
Variable net : Fetch.network.
Variable parse : string → Soup.node.
Variable time : Type.
Variable ticks : nat → time.
Variable elapsed : time → time → time.

#[local] Abbreviation consistent r :=
  (CheckerBatch.total_statements r
   = CheckerBatch.correct_statements r + CheckerBatch.incorrect_statements r).



End ApiReport.


(** ** The final summaries *)

Lemma true_div_Raise a b :
  (∃ e, Summaries.true_div a b = Py.Raise e) ↔ b = 0.
Proof.
  destruct b; simpl; split.
  - done.
  - intros _. by eexists.
  - by intros [e ?].
  - done.
Qed.

Lemma filter_nil_Forall {A} (f : A → bool) (l : list A) :
  List.filter f l = [] → Forall (λ x, f x = false) l.
Proof.
  induction l as [|x l IH]; simpl; [done|].
  destruct (f x) eqn:Hx; [done|]. intros H. constructor; [done|by apply IH].
Qed.

(** X21: main of remove_header_statements.py saves nothing in preview
    mode.  Otherwise it saves a cleaned JSON and a CSV of removed rows
    that together hold the input records, the CSV only when a record was
    removed; then the summary divides by the number of input records, so
    that the run ends with ZeroDivisionError exactly when the input list
    is empty, after the cleaned JSON was saved.  When the summary is
    printed, its input count is the removed plus the output count. *)
Theorem remove_headers_main_summary (data : list Pipeline.record) :
  Summaries.remove_headers_main data true = (None, Py.Ok None) ∧
  let out := Summaries.remove_headers_main data false in
  (∃ files, out.1 = Some files ∧
     Summaries.output_json files ++ default [] (Summaries.output_csv files)
       ≡ₚ data ∧
     (Summaries.output_csv files = None ↔ Summaries.output_json files = data)) ∧
  ((∃ e, out.2 = Py.Raise e) ↔ data = []) ∧
  (data ≠ [] → ∃ s, out.2 = Py.Ok (Some s)) ∧
  (∀ s, out.2 = Py.Ok (Some s) →
     Summaries.input_records s = length data ∧
     Summaries.input_records s
     = Summaries.removed_records s + Summaries.output_records s).
Proof.
  unfold Summaries.remove_headers_main, Pipeline.remove_unwanted_statements.
  rewrite sort_record_loop. cbn [app].
  pose proof (list_filter_partition
                (λ rec, Pipeline.is_unwanted_statement
                          (Pipeline.rec_get rec "statement" (Py.JStr "")))
                data) as Hperm.
  pose proof (filter_all_iff
                (λ rec, negb (Pipeline.is_unwanted_statement
                                (Pipeline.rec_get rec "statement" (Py.JStr ""))))
                data) as Hall.
  pose proof (filter_nil_Forall
                (λ rec, Pipeline.is_unwanted_statement
                          (Pipeline.rec_get rec "statement" (Py.JStr "")))
                data) as Hnil.
  remember (List.filter (λ rec, negb _) data) as keep eqn:Hkeep.
  remember (List.filter (λ rec, Pipeline.is_unwanted_statement _) data)
    as drop eqn:Hdrop.
  clear Hkeep Hdrop.
  pose proof (Permutation_length Hperm) as Hlen. rewrite length_app in Hlen.
  split; [done|]. cbn zeta. cbn [fst snd]. split_and!.
  - eexists. split; [reflexivity|].
    cbn [Summaries.output_json Summaries.output_csv]. split.
    + by destruct drop.
    + split.
      * destruct drop; [|done]. intros _. apply Hall.
        eapply Forall_impl; [by apply Hnil|]. intros x Hx. simpl in Hx.
        by rewrite Hx.
      * intros Hk. destruct drop as [|r drop]; [done|].
        rewrite Hk in Hlen. cbn [length] in Hlen. lia.
  - split.
    + intros [e He]. destruct data as [|r data]; [done|]. by simpl in He.
    + intros ->. by eexists.
  - intros Hne. destruct data as [|r data]; [done|]. simpl. by eexists.
  - intros s Hs. destruct data as [|r data]; [done|]. simpl in Hs.
    injection Hs as <-. cbn [Summaries.input_records Summaries.removed_records
                             Summaries.output_records].
    split; [done|]. cbn [length] in *. lia.
Qed.

Lemma remove_headers_main_summary_witness :
  ∃ s, (Summaries.remove_headers_main
          [[("statement", Py.JStr "Inclusion Criteria:")];
           [("statement", Py.JStr "Age over 18")]] false).2
       = Py.Ok (Some s).
Proof.
  apply (remove_headers_main_summary
           [[("statement", Py.JStr "Inclusion Criteria:")];
            [("statement", Py.JStr "Age over 18")]]).
  discriminate.
Defined.

Lemma totals_consistent (rows : list CheckerBatch.summary_row) :
  Forall (λ r, CheckerBatch.total_statements r
               = CheckerBatch.correct_statements r
                 + CheckerBatch.incorrect_statements r) rows →
  (CheckerBatch.totals rows).1.1
  = (CheckerBatch.totals rows).2 + (CheckerBatch.totals rows).1.2.
Proof.
  unfold CheckerBatch.totals. cbn [fst snd].
  induction 1 as [|r rows Hr _ IH]; [done|].
  rewrite !fmap_cons. csimpl. lia.
Qed.

Lemma checker_rows_consistent load_page nct_ids :
  Forall (λ r, CheckerBatch.total_statements r
               = CheckerBatch.correct_statements r
                 + CheckerBatch.incorrect_statements r)
    (omap (CheckerBatch.row_for load_page) nct_ids).
Proof.
  apply Forall_forall. intros r Hr.
  apply list_elem_of_omap in Hr as (nct & _ & Hrow).
  pose proof (row_and_incorrect_for load_page nct) as [H _].
  rewrite Hrow in H. by destruct H as (_ & ? & _).
Qed.

Lemma final_summary_Ok rows :
  rows ≠ [] →
  ∃ s, Summaries.final_summary rows = Py.Ok s ∧
       Summaries.total_nct_ids s = length rows ∧
       Summaries.total_statements s = (CheckerBatch.totals rows).1.1 ∧
       Summaries.correct_statements s = (CheckerBatch.totals rows).2 ∧
       Summaries.incorrect_statements s = (CheckerBatch.totals rows).1.2.
Proof.
  intros Hne. destruct rows as [|r rows]; [done|].
  unfold Summaries.final_summary.
  destruct (CheckerBatch.totals (r :: rows)) as [[total incorrect] correct].
  destruct total as [|total]; simpl; by eexists.
Qed.

(** X22: the run of the checker ends with KeyError exactly when there are
    identifiers but none of them was processed successfully: the frame of
    the rows then has no column to sum.  Without any identifier it returns
    early; and when an identifier succeeded, the summary is computed, it
    counts the rows, which are those of the identifiers that succeeded, in
    order, and its total is the correct plus the incorrect statements. *)
Theorem checker_run_needs_a_row (load_page : string → Py.result Soup.node)
    (nct_ids : list string) :
  let ids := take 2100 nct_ids in
  let out := Summaries.checker_run load_page nct_ids in
  (out = Py.Ok None ↔ ids = []) ∧
  ((∃ e, out = Py.Raise e) ↔
   ids ≠ [] ∧ Forall (λ n, CheckerBatch.succeeded load_page n = false) ids) ∧
  (∀ rows inc s, out = Py.Ok (Some (rows, inc, s)) →
     rows ≠ [] ∧
     CheckerBatch.nctId <$> rows
       = List.filter (CheckerBatch.succeeded load_page) ids ∧
     Summaries.total_nct_ids s = length rows ∧
     Summaries.total_statements s
       = Summaries.correct_statements s + Summaries.incorrect_statements s).
Proof.
  intros ids out. subst out. unfold Summaries.checker_run. fold ids.
  clearbody ids. destruct ids as [|n ids'].
  { split_and!; [done| |done]. split; [by intros [e ?]|by intros [? _]]. }
  cbv iota. remember (n :: ids') as ids eqn:Hids.
  assert (ids ≠ []) as Hne by (by subst).
  clear Hids n ids'.
  unfold CheckerBatch.main. rewrite checker_main_loop.
  cbn [app]. unfold mbind at 1, result_bind, Py.bind. cbn [fst snd].
  pose proof (omap_row_for_nctId load_page ids) as Hrows.
  pose proof (checker_rows_consistent load_page ids) as Hcons.
  remember (omap (CheckerBatch.row_for load_page) ids) as rows eqn:Hr.
  clear Hr.
  assert (rows = [] ↔
          Forall (λ n, CheckerBatch.succeeded load_page n = false) ids)
    as Hnone.
  { split.
    - intros He. rewrite He in Hrows. simpl in Hrows.
      apply Forall_forall. intros x Hx.
      destruct (CheckerBatch.succeeded load_page x) eqn:Hs; [|done].
      assert (x ∈ List.filter (CheckerBatch.succeeded load_page) ids) as Hin
        by (by apply elem_of_list_filter).
      rewrite <- Hrows in Hin. by apply elem_of_nil in Hin.
    - intros Hall. apply fmap_nil_inv with (f := CheckerBatch.nctId).
      rewrite Hrows. clear Hrows Hne.
      induction Hall as [|x l Hx _ IH]; [done|]. simpl. by rewrite Hx. }
  cbn [mbind result_bind Py.bind fst snd].
  destruct (decide (rows = [])) as [->|Hrne].
  - simpl. split_and!.
    + by split.
    + split; [|by eexists]. intros _. split; [done|by apply Hnone].
    + done.
  - destruct (final_summary_Ok rows Hrne) as (s & Hs & Hn & Ht & Hc & Hi).
    rewrite Hs. split_and!.
    + by split.
    + split; [by intros [e ?]|]. by intros [_ Hall%Hnone].
    + intros rows0 inc0 s0 [= <- <- <-]. split_and!; [done|done|done|].
      rewrite Ht, Hc, Hi. by apply totals_consistent.
Qed.

Lemma checker_run_needs_a_row_witness :
  ∃ e, Summaries.checker_run Samples.browser_down ["NCT00000001"] = Py.Raise e.
Proof.
  apply (checker_run_needs_a_row Samples.browser_down ["NCT00000001"]).
  split; [discriminate|]. repeat constructor.
Defined.

(** ** The criteria block of a page *)

Lemma ancestors_resolve doc p (d : Soup.pos * Soup.node) :
  d ∈ Soup.ancestors doc p → Soup.resolve doc d.1 = Some d.2.
Proof.
  induction p as [|i q IH]; simpl; [by intros ?%elem_of_nil|].
  destruct (Soup.resolve doc q) as [n|] eqn:Hq; [|done].
  intros [->|Hd]%elem_of_cons; [done|by apply IH].
Qed.

Lemma find_None f e (d : Soup.pos * Soup.node) :
  Soup.find f e = None → d ∈ Soup.descendants e.1 e.2 → f d.2 = false.
Proof.
  unfold Soup.find, Soup.find_all. intros Hn Hd.
  destruct (f d.2) eqn:Hf; [|done].
  assert (is_Some (head (List.filter (λ d : Soup.pos * Soup.node, f d.2)
                           (Soup.descendants e.1 e.2)))) as [x Hx].
  { apply head_filter_is_Some. by exists d. }
  pose proof (eq_trans (eq_sym Hn) Hx) as Hc. discriminate Hc.
Qed.

Lemma tag_with_id_name name v n :
  Soup.tag_with_id name v n = true → Soup.name_in [name] n = true.
Proof.
  destruct n as [cls s|nm attrs cs]; [done|]. simpl.
  intros [Hn _]%andb_true_iff. apply bool_decide_eq_true in Hn as ->.
  apply bool_decide_eq_true. left.
Qed.

(** X23: the criteria block that the checker takes from a page is always
    a div or a section of that page.  When the page has a div with the id
    participation-criteria, the block is the first such div; when it
    finds no block, the page has neither a div nor a section with that
    id. *)
Theorem criteria_section_is_block (soup : Soup.node) :
  match CheckerBatch.criteria_section_of soup with
  | Some c =>
      Soup.resolve soup c.1 = Some c.2 ∧
      Soup.name_in ["div"; "section"] c.2 = true ∧
      (∀ d : Soup.pos * Soup.node,
         d ∈ Soup.descendants [] soup →
         Soup.tag_with_id "div" "participation-criteria" d.2 = true →
         Some c = Soup.find (Soup.tag_with_id "div" "participation-criteria")
                    ([], soup))
  | None =>
      ∀ d : Soup.pos * Soup.node,
        d ∈ Soup.descendants [] soup →
        Soup.tag_with_id "div" "participation-criteria" d.2 = false ∧
        Soup.tag_with_id "section" "participation-criteria" d.2 = false
  end.
Proof.
  assert (∀ n, Soup.name_in ["div"] n = true ∨ Soup.name_in ["section"] n = true →
               Soup.name_in ["div"; "section"] n = true) as Hname.
  { intros [cls s|nm attrs cs]; simpl; [by intros [?|?]|].
    intros [H|H]; apply bool_decide_eq_true in H; apply bool_decide_eq_true;
      apply list_elem_of_singleton in H as ->; [left|right; left]. }
  unfold CheckerBatch.criteria_section_of.
  destruct (Soup.find (Soup.tag_with_id "div" _) _) as [c|] eqn:Hdiv.
  { apply find_Some in Hdiv as [Hd Hf]. split_and!.
    - by apply descendants_resolve.
    - apply Hname. left. by eapply tag_with_id_name.
    - done. }
  pose proof (λ d, find_None _ _ d Hdiv) as Hnodiv. simpl in Hnodiv.
  destruct (Soup.find (Soup.tag_with_id "section" _) _) as [c|] eqn:Hsec.
  { apply find_Some in Hsec as [Hd Hf]. split_and!.
    - by apply descendants_resolve.
    - apply Hname. right. by eapply tag_with_id_name.
    - intros d Hd' Hf'. rewrite Hnodiv in Hf'; done. }
  pose proof (λ d, find_None _ _ d Hsec) as Hnosec. simpl in Hnosec.
  assert (∀ d : Soup.pos * Soup.node,
            d ∈ Soup.descendants [] soup →
            Soup.tag_with_id "div" "participation-criteria" d.2 = false ∧
            Soup.tag_with_id "section" "participation-criteria" d.2 = false)
    as Hnone by (intros d Hd; split; [by apply Hnodiv|by apply Hnosec]).
  destruct (Soup.find CheckerBatch.eligibility_heading _) as [heading|];
    [|done].
  assert (match Soup.find_parent "div" soup heading with
          | Some c =>
              Soup.resolve soup c.1 = Some c.2 ∧
              Soup.name_in ["div"; "section"] c.2 = true ∧
              (∀ d : Soup.pos * Soup.node,
                 d ∈ Soup.descendants [] soup →
                 Soup.tag_with_id "div" "participation-criteria" d.2 = true →
                 Some c = None)
          | None =>
              ∀ d : Soup.pos * Soup.node,
                d ∈ Soup.descendants [] soup →
                Soup.tag_with_id "div" "participation-criteria" d.2 = false ∧
                Soup.tag_with_id "section" "participation-criteria" d.2 = false
          end) as Hparent.
  { unfold Soup.find_parent.
    destruct (head _) as [c|] eqn:Hc; [|done].
    apply head_Some_elem_of, elem_of_list_filter in Hc as [Hanc Hn].
    split_and!.
    - by apply (ancestors_resolve soup heading.1).
    - apply Hname. by left.
    - intros d Hd Hf. rewrite Hnodiv in Hf; done. }
  destruct heading.2 as [cls [|a s]|nm attrs cs]; done.
Qed.
